(** * Multi-judge evaluation: orchestration and statistical consolidation

    A shallow embedding of the TypeScript sources

    - [lib/domain/validators/outlier-detector.ts]   (class [OutlierDetector])
    - [lib/integration/evaluation-orchestrator.ts]  (class [EvaluationOrchestrator])
    - [lib/domain/validators/confidence-calculator.ts] (class [ConfidenceCalculator])
    - [lib/domain/validators/consistency-validator.ts] (class [ConsistencyValidator])

    and the properties the specification states about them.

    JavaScript has one numeric type, the IEEE-754 binary64 number.  The
    code that only adds, multiplies and compares is written once over an
    interface [Number] and read at two instances: the primitive floats
    of the kernel (binary64 with NaN and infinities as in JavaScript,
    and executable), and the real numbers (the arithmetic the formulas
    of the specification are about: no rounding, no NaN, no
    infinities).  The two classes that
    need [Math.sqrt], [Math.log] and [toFixed] are written over the
    reals. *)

From Stdlib Require Import String List Bool Arith ZArith QArith Qround Qreals.
From Stdlib Require Import Reals Lra Lia Permutation Sorted.
From Stdlib Require PrimFloat Uint63.
Import ListNotations.

Set Implicit Arguments.

(** ** JavaScript numbers *)

Declare Scope num_scope.
Delimit Scope num_scope with num.

Class Number (num : Type) : Type := {
  (** the number a decimal literal of the source denotes, and the value
      of an integer such as [array.length] *)
  of_Q : Q -> num;
  (** what arithmetic on [undefined] yields *)
  NaN : num;
  nadd : num -> num -> num;
  nsub : num -> num -> num;
  nmul : num -> num -> num;
  ndiv : num -> num -> num;
  (** [a < b], [a <= b], [a === b]; [a > b] is [b < a] and [a >= b] is
      [b <= a], also on NaN, where all of them are false *)
  nltb : num -> num -> bool;
  nleb : num -> num -> bool;
  neqb : num -> num -> bool;
  nisNaN : num -> bool
}.

Notation "a + b" := (nadd a b) : num_scope.
Notation "a - b" := (nsub a b) : num_scope.
Notation "a * b" := (nmul a b) : num_scope.
Notation "a / b" := (ndiv a b) : num_scope.
Notation "a <? b" := (nltb a b) : num_scope.
Notation "a <=? b" := (nleb a b) : num_scope.
Notation "a >? b" := (nltb b a) : num_scope.
Notation "a >=? b" := (nleb b a) : num_scope.

Section JsNumber.
Context {num : Type} `{Number num}.

Definition of_Z (z : Z) : num := of_Q (inject_Z z).
Definition of_nat (n : nat) : num := of_Z (Z.of_nat n).
Definition zero : num := of_Z 0.
Definition one : num := of_Z 1.

(** [Math.max(a, b)] and [Math.min(a, b)]: NaN if either argument is. *)
Definition Math_max (a b : num) : num :=
  if nisNaN a || nisNaN b then NaN else if (a <? b)%num then b else a.
Definition Math_min (a b : num) : num :=
  if nisNaN a || nisNaN b then NaN else if (b <? a)%num then b else a.

(** A number in a condition, or on the left of [||]: false for 0 and NaN. *)
Definition truthy (x : num) : bool := negb (nisNaN x || neqb x zero).

(** [x || d] where [x] may be [undefined]. *)
Definition or_else (x : option num) (d : num) : num :=
  match x with
  | Some v => if truthy v then v else d
  | None => d
  end.

(** [typeof value === 'number' && !isNaN(value)] on a value that may be
    [undefined]. *)
Definition numeric (x : option num) : option num :=
  match x with
  | Some v => if nisNaN v then None else Some v
  | None => None
  end.

(** [array[i]]: [undefined] outside the array, which every arithmetic
    use turns into NaN. *)
Definition aget (l : list num) (i : Z) : num :=
  if (i <? 0)%Z then NaN else nth (Z.to_nat i) l NaN.

(** [array.reduce((sum, val) => sum + val, 0)] *)
Definition sum (l : list num) : num :=
  fold_left (fun s v => (s + v)%num) l zero.

(** [array.sort((a, b) => a - b)]: a stable sort; [a] stays before a
    later [b] unless [a - b] is positive (a difference of 0 or NaN keeps
    the order). *)
Fixpoint insert (x : num) (l : list num) : list num :=
  match l with
  | [] => [x]
  | y :: l' => if (zero <? x - y)%num then y :: insert x l' else x :: l
  end.

Definition sort (l : list num) : list num := fold_right insert [] l.

(** [Math.floor(n * p)] for an array length [n] and a literal [p], and
    [Math.floor(n / 2)] as [Math.floor(n * 0.5)]; the products of a
    length with 0.25, 0.5 or 0.75 are exact in binary64. *)
Definition floor_mul (n : nat) (p : Q) : Z :=
  Qfloor (inject_Z (Z.of_nat n) * p).

End JsNumber.

(** ** Arrays on the heap

  [OutlierDetector.detectOutliers] receives a reference to the caller's
  array and sorts with the in-place [Array.prototype.sort]; the heap
  makes visible which array that sort writes to. *)

Module Heap.
Section Heap.
Variable num : Type.

Definition ref := nat.
Definition heap := list (list num).
Definition M (A : Type) := heap -> A * heap.

Definition ret {A} (a : A) : M A := fun h => (a, h).
Definition bind {A B} (m : M A) (k : A -> M B) : M B :=
  fun h => let (a, h') := m h in k a h'.

(** the elements of the array at [r] *)
Definition read (r : ref) : M (list num) :=
  fun h => (nth r h [], h).
(** [[...array]] and array literals: a fresh array *)
Definition alloc (l : list num) : M ref :=
  fun h => (length h, h ++ [l]).
(** an in-place update of the array at [r] *)
Fixpoint update (h : heap) (r : ref) (l : list num) : heap :=
  match h, r with
  | [], _ => []
  | _ :: h', O => l :: h'
  | a :: h', S r' => a :: update h' r' l
  end.
Definition write (r : ref) (l : list num) : M unit :=
  fun h => (tt, update h r l).
End Heap.
End Heap.

Notation "x <- m ;; k" := (Heap.bind m (fun x => k))
  (at level 61, m at next level, right associativity).

(** ** [OutlierDetector] (outlier-detector.ts) *)

Module OutlierDetector.

(** [ThresholdConfig['outlier_detection']] ([method] is a label the
    class never reads) *)
Record Config (num : Type) : Type := {
  multiplier : num;
  min_samples : nat
}.

Record Statistics (num : Type) : Type := {
  q1 : num;
  q3 : num;
  iqr : num;
  lowerBound : num;
  upperBound : num;
  outlierCount : nat;
  outlierPercentage : num
}.

Record Result (num : Type) : Type := {
  outliers : list num;
  outlierIndices : list nat;
  statistics : Statistics num;
  filteredValues : list num
}.

Section Detector.
Context {num : Type} `{Number num}.
Variable config : Config num.

(** [calculateQuartile(sortedValues, percentile)] *)
Definition calculateQuartile (sortedValues : list num) (percentile : Q) : num :=
  let n := length sortedValues in
  let position := ((inject_Z (Z.of_nat n) - 1) * percentile)%Q in
  let lowerIndex := Qfloor position in
  let upperIndex := Qceiling position in
  if (lowerIndex =? upperIndex)%Z then aget sortedValues lowerIndex
  else
    let fraction := of_Q (position - inject_Z lowerIndex) in
    (aget sortedValues lowerIndex * (one - fraction)
     + aget sortedValues upperIndex * fraction)%num.

(** the test of the [forEach] body *)
Definition isOutlier (lowerBound upperBound value : num) : bool :=
  (value <? lowerBound)%num || (value >? upperBound)%num.

(** the [forEach] loop, started at [index], as the three arrays it
    pushes to *)
Fixpoint classify (lowerBound upperBound : num) (index : nat) (values : list num)
  : list num * list nat * list num :=
  match values with
  | [] => ([], [], [])
  | value :: rest =>
      let '(os, ois, fs) := classify lowerBound upperBound (S index) rest in
      if isOutlier lowerBound upperBound value
      then (value :: os, index :: ois, fs)
      else (os, ois, value :: fs)
  end.

(** [getEmptyResult(values)], its [filteredValues] given *)
Definition emptyResult (copy : list num) : Result num :=
  {| outliers := [];
     outlierIndices := [];
     statistics := {| q1 := zero; q3 := zero; iqr := zero;
                      lowerBound := zero; upperBound := zero;
                      outlierCount := 0; outlierPercentage := zero |};
     filteredValues := copy |}.

(** the part of [detectOutliers] after the sort ([q1Index] and
    [q3Index] are computed there and never read) *)
Definition analyse (values sortedValues : list num) : Result num :=
  let q1 := calculateQuartile sortedValues 0.25 in
  let q3 := calculateQuartile sortedValues 0.75 in
  let iqr := (q3 - q1)%num in
  let multiplier := multiplier config in
  let lowerBound := (q1 - multiplier * iqr)%num in
  let upperBound := (q3 + multiplier * iqr)%num in
  let '(outliers, outlierIndices, filteredValues) :=
    classify lowerBound upperBound 0 values in
  {| outliers := outliers;
     outlierIndices := outlierIndices;
     statistics :=
       {| q1 := q1; q3 := q3; iqr := iqr;
          lowerBound := lowerBound; upperBound := upperBound;
          outlierCount := length outliers;
          outlierPercentage :=
            (of_nat (length outliers) / of_nat (length values) * of_Z 100)%num |};
     filteredValues := filteredValues |}.

(** [detectOutliers(values)] on the heap: [values] is the caller's
    array. *)
Definition getEmptyResult (values : Heap.ref) : Heap.M num (Result num) :=
  vs <- Heap.read values ;;
  copy <- Heap.alloc vs ;;
  filtered <- Heap.read copy ;;
  Heap.ret (emptyResult filtered).

Definition detectOutliers_heap (values : Heap.ref) : Heap.M num (Result num) :=
  vs <- Heap.read values ;;
  if (length vs <? min_samples config)%nat then getEmptyResult values
  else
    sortedValues <- Heap.alloc vs ;;
    copy <- Heap.read sortedValues ;;
    _ <- Heap.write sortedValues (sort copy) ;;
    sorted <- Heap.read sortedValues ;;
    vs' <- Heap.read values ;;
    Heap.ret (analyse vs' sorted).

(** [detectOutliers(values)] as a function of the array's elements *)
Definition detectOutliers (values : list num) : Result num :=
  if (length values <? min_samples config)%nat then emptyResult values
  else analyse values (sort values).

End Detector.
End OutlierDetector.

(** ** Shared data types (lib/types/evaluation.ts) *)

Open Scope string_scope.

(** [Record<string, number>]: the bindings in insertion order; a key is
    looked up at its first binding. *)
Definition Scores (num : Type) : Type := list (string * num).

Fixpoint lookup {num : Type} (key : string) (o : Scores num) : option num :=
  match o with
  | [] => None
  | (k, v) :: o' => if String.eqb key k then Some v else lookup key o'
  end.

(** [new Set<string>()] with [add], in insertion order *)
Definition set_add (key : string) (s : list string) : list string :=
  if existsb (String.eqb key) s then s else (s ++ [key])%list.

(** [Object.keys(scores)] *)
Definition keys {num : Type} (o : Scores num) : list string :=
  fold_left (fun s k => set_add k s) (map fst o) [].

(** [.filter(value => typeof value === 'number' && !isNaN(value))] *)
Fixpoint numbers {num : Type} `{Number num} (l : list (option num)) : list num :=
  match l with
  | [] => []
  | x :: l' =>
      match numeric x with
      | Some v => v :: numbers l'
      | None => numbers l'
      end
  end.

(** [ProviderResult] *)
Record ProviderResult (num : Type) : Type := {
  name : string;
  model : string;
  scores : Scores num;
  responseTime : num;
  tokens : num;
  cost : num;
  success : bool;
  error : option string
}.

(** [ScoreDetail] and the [scores] of an [EvaluationResult]; a section a
    provider left out is [None] (the source reads it with [?.]). *)
Record ScoreDetail (num : Type) : Type := { subtotal : num }.

Record EvaluationScores (num : Type) : Type := {
  업무능력 : option (ScoreDetail num);
  문장력 : option (ScoreDetail num);
  기본_태도 : option (ScoreDetail num);
  total_score : option num
}.

(** the fields of [EvaluationResult] the orchestrator reads *)
Record EvaluationResult (num : Type) : Type := {
  result_scores : option (EvaluationScores num);
  result_tokens : option num;
  result_cost : option num
}.

(** [ThresholdConfig], the fields the code reads *)
Record ConfidenceFactors (num : Type) : Type := {
  consistency_weight : num;
  outlier_weight : num;
  sample_size_weight : num
}.

Record ConfidenceConfig (num : Type) : Type := {
  confidence_target : num;
  confidence_minimum : num;
  factors : ConfidenceFactors num
}.

(** [ThresholdConfig['consistency']] ([calculation] is a label no code
    reads) *)
Record ConsistencyConfig (num : Type) : Type := {
  consistency_target : num;
  consistency_minimum : num
}.

Record ThresholdConfig (num : Type) : Type := {
  th_consistency : ConsistencyConfig num;
  th_confidence : ConfidenceConfig num;
  outlier_detection : OutlierDetector.Config num
}.

Inductive Reliability : Type := high | medium | low.

(** the [scores] and [validation] of a [ConsolidatedResult] *)
Record ConsolidatedScores (num : Type) : Type := {
  cs_업무능력 : num;
  cs_문장력 : num;
  cs_기본_태도 : num;
  cs_총점 : num
}.

Record Validation (num : Type) : Type := {
  v_consistency : num;
  v_confidence : num;
  v_reliability : Reliability;
  v_outliers : list nat
}.

Record Evidence : Type := {
  positive : list string;
  negative : list string;
  quotes : list string
}.

(** [ConsolidatedResult]; of [metadata] only [criteriaVersion], the other
    two fields are readings of the clock. *)
Record ConsolidatedResult (num : Type) : Type := {
  cr_scores : ConsolidatedScores num;
  cr_validation : Validation num;
  cr_providers : list (ProviderResult num);
  cr_evidence : Evidence;
  cr_criteriaVersion : string
}.

(** ** [EvaluationOrchestrator] (evaluation-orchestrator.ts) *)

Module EvaluationOrchestrator.

(** What a provider does with the request: [evaluateWithRetry] resolves
    with a result or rejects with what it threw, after [elapsed]
    milliseconds. *)
Inductive Thrown : Type :=
| ErrorObject (message : string)
| OtherValue.

Inductive Outcome (num : Type) : Type :=
| Resolved (result : EvaluationResult num)
| Rejected (reason : Thrown).

Record Provider (num : Type) : Type := {
  getName : string;
  getModel : string;
  evaluateWithRetry : Outcome num;
  elapsed : num
}.

(** the [Error]s the orchestrator throws *)
Inductive OrchestratorError : Type :=
| NoProviderAvailable      (* '사용 가능한 평가 Provider가 없습니다.' *)
| AllProvidersFailed       (* '모든 Provider에서 평가가 실패했습니다.' *)
| NothingToConsolidate.    (* '통합할 성공적인 평가 결과가 없습니다.' *)

Section Orchestrator.
Context {num : Type} `{Number num}.
Variable thresholds : ThresholdConfig num.

(** the [scoreKeys] of [consolidateScores] and [validateConsistency] *)
Definition scoreKeys (results : list (ProviderResult num)) : list string :=
  fold_left (fun s result => fold_left (fun s k => set_add k s) (keys (scores result)) s)
            results [].

(** the sorted [values] of [consolidateScores] for [key] *)
Definition sortedValues (results : list (ProviderResult num)) (key : string) : list num :=
  sort (numbers (map (fun result => lookup key (scores result)) results)).

(** the bounds test of [consolidateScores] *)
Definition inBounds (lowerBound upperBound v : num) : bool :=
  (v >=? lowerBound)%num && (v <=? upperBound)%num.

(** the inliers of [consolidateScores] *)
Definition inliers (values : list num) : list num :=
  let q1Index := floor_mul (length values) 0.25 in
  let q3Index := floor_mul (length values) 0.75 in
  let q1 := aget values q1Index in
  let q3 := aget values q3Index in
  let iqr := (q3 - q1)%num in
  let lowerBound := (q1 - of_Q 1.5 * iqr)%num in
  let upperBound := (q3 + of_Q 1.5 * iqr)%num in
  filter (inBounds lowerBound upperBound) values.

(** the body of [scoreKeys.forEach] in [consolidateScores]: what is
    assigned to [consolidated[key]], if anything *)
Definition consolidateValues (values : list num) : option num :=
  if (0 <? length values)%nat then
    if (length values =? 1)%nat then Some (aget values 0)
    else if (length values =? 2)%nat then
      Some ((aget values 0 + aget values 1) / of_Z 2)%num
    else
      let filteredValues := inliers values in
      if (0 <? length filteredValues)%nat then
        Some (sum filteredValues / of_nat (length filteredValues))%num
      else
        let medianIndex := floor_mul (length values) (1 # 2) in
        Some (aget values medianIndex)
  else None.

(** [consolidateScores(results)] *)
Definition consolidateScores (results : list (ProviderResult num)) : Scores num :=
  flat_map (fun key =>
              match consolidateValues (sortedValues results key) with
              | Some v => [(key, v)]
              | None => []
              end)
           (scoreKeys results).

(** the variance the [forEach] body of [validateConsistency] adds for
    [key], if the key has two values ([Math.pow(d, 2)] is [d * d]) *)
Definition variance (values : list num) : num :=
  let mean := (sum values / of_nat (length values))%num in
  (fold_left (fun s val => s + (val - mean) * (val - mean))%num values zero
   / of_nat (length values))%num.

Definition keyVariance (results : list (ProviderResult num)) (key : string) : option num :=
  let values := numbers (map (fun result => lookup key (scores result)) results) in
  if (2 <=? length values)%nat then Some (variance values) else None.

(** [validateConsistency(results)]: its [consistency]; [details] holds
    the same figures formatted for display. *)
Definition validateConsistency (results : list (ProviderResult num)) : num :=
  if (length results <? 2)%nat then of_Q 1.0
  else
    let '(totalVariance, validComparisons) :=
      fold_left (fun '(t, c) key =>
                   match keyVariance results key with
                   | Some v => ((t + v)%num, S c)
                   | None => (t, c)
                   end)
                (scoreKeys results) (zero, 0%nat) in
    let averageVariance :=
      if (0 <? validComparisons)%nat
      then (totalVariance / of_nat validComparisons)%num else zero in
    Math_max zero (one - averageVariance / of_Z 2)%num.

(** [result.scores.total_score || result.scores.총점] *)
Definition totalOf (result : ProviderResult num) : option num :=
  match lookup "total_score" (scores result) with
  | Some v => if truthy v then Some v else lookup "총점" (scores result)
  | None => lookup "총점" (scores result)
  end.

(** the [forEach] of [detectOutliers]: the positions, in the sorted
    array, of the scores outside the bounds *)
Fixpoint outlierPositions (lowerBound upperBound : num) (index : nat) (l : list num)
  : list nat :=
  match l with
  | [] => []
  | score :: l' =>
      if (score <? lowerBound)%num || (score >? upperBound)%num
      then index :: outlierPositions lowerBound upperBound (S index) l'
      else outlierPositions lowerBound upperBound (S index) l'
  end.

(** [detectOutliers(results)] *)
Definition detectOutliers (results : list (ProviderResult num)) : list nat :=
  if (length results <? 3)%nat then []
  else
    let totalScores := sort (numbers (map totalOf results)) in
    if (length totalScores <? 3)%nat then []
    else
      let q1Index := floor_mul (length totalScores) 0.25 in
      let q3Index := floor_mul (length totalScores) 0.75 in
      let q1 := aget totalScores q1Index in
      let q3 := aget totalScores q3Index in
      let iqr := (q3 - q1)%num in
      let multiplier := OutlierDetector.multiplier (outlier_detection thresholds) in
      let lowerBound := (q1 - multiplier * iqr)%num in
      let upperBound := (q3 + multiplier * iqr)%num in
      outlierPositions lowerBound upperBound 0 totalScores.

(** [calculateConfidence(consistency, outlierCount, totalResults)] *)
Definition calculateConfidence (consistency outlierCount totalResults : num) : num :=
  let factors := factors (th_confidence thresholds) in
  let consistencyContribution := (consistency * consistency_weight factors)%num in
  let outlierRatio := (outlierCount / totalResults)%num in
  let outlierContribution :=
    (Math_max zero (one - outlierRatio) * outlier_weight factors)%num in
  let sampleSizeRatio := Math_min one (totalResults / of_Z 3)%num in
  let sampleSizeContribution := (sampleSizeRatio * sample_size_weight factors)%num in
  let confidence :=
    (consistencyContribution + outlierContribution + sampleSizeContribution)%num in
  Math_min one (Math_max zero confidence).

(** [determineReliability(confidence, consistency)] *)
Definition determineReliability (confidence consistency : num) : Reliability :=
  if (confidence >=? of_Q 0.8)%num && (consistency >=? of_Q 0.8)%num then high
  else if (confidence >=? of_Q 0.6)%num && (consistency >=? of_Q 0.6)%num then medium
  else low.

(** [consolidateEvidence(results)]: the loop over the results has an
    empty body. *)
Definition consolidateEvidence (results : list (ProviderResult num)) : Evidence :=
  {| positive := []; negative := []; quotes := [] |}.

(** [extractScores(result)]: a section is copied when its subtotal is
    truthy. *)
Definition extractSubtotal (key : string) (section : option (ScoreDetail num))
  : Scores num :=
  match section with
  | Some d => if truthy (subtotal d) then [(key, subtotal d)] else []
  | None => []
  end.

Definition extractScores (result : EvaluationResult num) : Scores num :=
  match result_scores result with
  | Some s =>
      (extractSubtotal "업무능력" (업무능력 s)
       ++ extractSubtotal "문장력" (문장력 s)
       ++ extractSubtotal "기본_태도" (기본_태도 s)
       ++ match total_score s with
          | Some t => if truthy t then [("total_score", t)] else []
          | None => []
          end)%list
  | None => []
  end.

(** the promise [executeParallelEvaluations] makes for one provider: it
    catches what the provider throws, so it always fulfils *)
Definition evaluationPromise (provider : Provider num) : ProviderResult num :=
  match evaluateWithRetry provider with
  | Resolved result =>
      {| name := getName provider;
         model := getModel provider;
         scores := extractScores result;
         responseTime := elapsed provider;
         tokens := or_else (result_tokens result) zero;
         cost := or_else (result_cost result) zero;
         success := true;
         error := None |}
  | Rejected _ reason =>
      {| name := getName provider;
         model := getModel provider;
         scores := [];
         responseTime := elapsed provider;
         tokens := zero;
         cost := zero;
         success := false;
         error := Some match reason with
                       | ErrorObject message => message
                       | OtherValue => "알 수 없는 오류"
                       end |}
  end.

(** [executeParallelEvaluations(providers, request)]: [Promise.allSettled]
    hands the outcomes back in the order of [providers]. *)
Definition executeParallelEvaluations (providers : list (Provider num))
  : OrchestratorError + list (ProviderResult num) :=
  let results := map evaluationPromise providers in
  let successfulResults := filter (@success num) results in
  if (length successfulResults =? 0)%nat then inl AllProvidersFailed
  else inr results.

(** [consolidateResults(providerResults, request)] *)
Definition consolidateResults (providerResults : list (ProviderResult num))
  (criteriaVersion : string) : OrchestratorError + ConsolidatedResult num :=
  let successfulResults := filter (@success num) providerResults in
  if (length successfulResults =? 0)%nat then inl NothingToConsolidate
  else
    let consolidatedScores := consolidateScores successfulResults in
    let consistency := validateConsistency successfulResults in
    let outliers := detectOutliers successfulResults in
    let confidence :=
      calculateConfidence consistency (of_nat (length outliers))
                          (of_nat (length successfulResults)) in
    let evidence := consolidateEvidence successfulResults in
    inr {| cr_scores :=
             {| cs_업무능력 := or_else (lookup "업무능력" consolidatedScores) (of_Q 3.0);
                cs_문장력 := or_else (lookup "문장력" consolidatedScores) (of_Q 3.0);
                cs_기본_태도 := or_else (lookup "기본_태도" consolidatedScores) (of_Q 3.0);
                cs_총점 := or_else (lookup "total_score" consolidatedScores) (of_Q 3.0) |};
           cr_validation :=
             {| v_consistency := consistency;
                v_confidence := confidence;
                v_reliability := determineReliability confidence consistency;
                v_outliers := outliers |};
           cr_providers := providerResults;
           cr_evidence := evidence;
           cr_criteriaVersion := criteriaVersion |}.

(** [evaluateChat(request)], given the providers
    [getProvidersForEvaluation] selected *)
Definition evaluateChat (providers : list (Provider num)) (criteriaVersion : string)
  : OrchestratorError + ConsolidatedResult num :=
  if (length providers =? 0)%nat then inl NoProviderAvailable
  else
    match executeParallelEvaluations providers with
    | inl e => inl e
    | inr evaluationResults => consolidateResults evaluationResults criteriaVersion
    end.

End Orchestrator.
End EvaluationOrchestrator.

(** ** The two readings of [Number] *)

(** *** IEEE-754 binary64 *)

Module FloatNumber.

Definition float_of_Z (z : Z) : PrimFloat.float :=
  match z with
  | Z0 => PrimFloat.zero
  | Zpos _ => PrimFloat.of_uint63 (Uint63.of_Z z)
  | Zneg p => PrimFloat.opp (PrimFloat.of_uint63 (Uint63.of_Z (Zpos p)))
  end.

(** A decimal literal with few digits is the correctly rounded quotient
    of its numerator and denominator, which is what the division
    computes. *)
Definition float_of_Q (q : Q) : PrimFloat.float :=
  PrimFloat.div (float_of_Z (Qnum q)) (float_of_Z (Zpos (Qden q))).

#[export] Instance float_number : Number PrimFloat.float := {|
  of_Q := float_of_Q;
  NaN := PrimFloat.nan;
  nadd := PrimFloat.add;
  nsub := PrimFloat.sub;
  nmul := PrimFloat.mul;
  ndiv := PrimFloat.div;
  nltb := PrimFloat.ltb;
  nleb := PrimFloat.leb;
  neqb := PrimFloat.eqb;
  nisNaN := PrimFloat.is_nan
|}.

End FloatNumber.

(** *** Real arithmetic *)

Module RealNumber.

Definition ltb (a b : R) : bool := if Rlt_dec a b then true else false.
Definition leb (a b : R) : bool := if Rle_dec a b then true else false.
Definition eqb (a b : R) : bool := if Req_dec_T a b then true else false.

(** There is no NaN among the reals: [nisNaN] is never true, and an
    array is never read outside its bounds where a theorem is stated at
    this instance. *)
#[export] Instance real_number : Number R := {|
  of_Q := Q2R;
  NaN := 0%R;
  nadd := Rplus;
  nsub := Rminus;
  nmul := Rmult;
  ndiv := Rdiv;
  nltb := ltb;
  nleb := leb;
  neqb := eqb;
  nisNaN := fun _ => false
|}.

End RealNumber.

(** ** Real-valued helpers of the two statistics classes *)

Open Scope R_scope.

(** the integer nearest to [x], the larger one of two *)
Definition round_half_up (x : R) : Z := Int_part (x + / 2).

(** [parseFloat(x.toFixed(digits))]: [toFixed] rounds the magnitude to
    the nearest multiple of [10^-digits], the larger one of two, and
    keeps the sign.  JavaScript rounds the binary64 number, which can
    lie on the other side of a decimal tie than the real number it
    stands for; the properties below use [toFixed] by what the two
    roundings share: it is monotone, it keeps a number that has no more
    than [digits] decimals, and it moves a number by half a unit of the
    last decimal at most. *)
Definition toFixed (digits : nat) (x : R) : R :=
  if Rlt_dec x 0
  then - (IZR (round_half_up (- x * 10 ^ digits)) / 10 ^ digits)
  else IZR (round_half_up (x * 10 ^ digits)) / 10 ^ digits.

(** [values.reduce((sum, val) => sum + val, 0)] *)
Definition Rsum (values : list R) : R := fold_left Rplus values 0.

(** ** [ConfidenceCalculator] (confidence-calculator.ts) *)

Module ConfidenceCalculator.

Record AdditionalFactors : Type := {
  responseTime : option R;
  tokenUsage : option R;
  errorRate : option R;
  historicalPerformance : option R
}.

Record Components : Type := {
  c_consistency : R;
  c_outlier : R;
  c_sampleSize : R;
  c_additional : option R
}.

(** the three [assessment] sentences *)
Inductive Assessment : Type :=
| TargetReached        (* '신뢰도가 목표 수준에 도달했습니다. ...' *)
| MinimumReached       (* '신뢰도가 최소 기준은 만족하지만 ...' *)
| BelowMinimum.        (* '신뢰도가 기준 이하입니다. 추가 검증이나 ...' *)

(** the five [recommendations] sentences *)
Inductive Recommendation : Type :=
| ReviewProviders      (* confidence < minimum *)
| SharpenCriteria      (* consistency < 0.6 *)
| TooManyOutliers      (* outlierCount > totalResults * 0.3 *)
| EnableMoreProviders  (* totalResults < 2 *)
| KeepSettings.        (* none of the above *)

Record Report : Type := {
  confidence : R;
  reliability : Reliability;
  components : Components;
  assessment : Assessment;
  recommendations : list Recommendation
}.

Section Calculator.
Variable config : ConfidenceConfig R.

(** [calculateSampleSizeContribution(totalResults)] *)
Definition calculateSampleSizeContribution (totalResults : R) : R :=
  if Rle_dec totalResults 0 then 0
  else
    let optimal := 5 in
    let ratio := Rmin 1 (totalResults / optimal) in
    ln (1 + ratio) / ln 2.

(** [scoreResponseTime(responseTime)] *)
Definition scoreResponseTime (responseTime : R) : R :=
  if Rlt_dec responseTime 1 then 0.5
  else if Rle_dec responseTime 10 then 1.0
  else if Rle_dec responseTime 30 then 0.8
  else if Rle_dec responseTime 60 then 0.6
  else 0.3.

(** [scoreTokenUsage(tokenUsage)] *)
Definition scoreTokenUsage (tokenUsage : R) : R :=
  if Rlt_dec tokenUsage 100 then 0.3
  else if Rle_dec tokenUsage 500 then 0.7
  else if Rle_dec tokenUsage 2000 then 1.0
  else if Rle_dec tokenUsage 4000 then 0.8
  else 0.5.

(** one [if (factors.x !== undefined)] block of
    [calculateAdditionalFactors] on the running score and count *)
Definition addFactor (score : option R) (acc : R * nat) : R * nat :=
  match score with
  | Some s => (fst acc + s, S (snd acc))
  | None => acc
  end.

(** [calculateAdditionalFactors(factors)] *)
Definition calculateAdditionalFactors (factors : option AdditionalFactors) : R :=
  match factors with
  | None => 0
  | Some f =>
      let acc := (0, 0%nat) in
      let acc := addFactor (option_map scoreResponseTime (responseTime f)) acc in
      let acc := addFactor (option_map scoreTokenUsage (tokenUsage f)) acc in
      let acc := addFactor (option_map (fun e => Rmax 0 (1 - e)) (errorRate f)) acc in
      let acc := addFactor (option_map (fun h => Rmin 1 (Rmax 0 h))
                                       (historicalPerformance f)) acc in
      let '(additionalScore, factorCount) := acc in
      if (0 <? factorCount)%nat then additionalScore / INR factorCount * 0.1 else 0
  end.

(** [determineReliability(confidence, consistency)] *)
Definition determineReliability (confidence consistency : R) : Reliability :=
  if RealNumber.leb 0.8 confidence && RealNumber.leb 0.8 consistency then high
  else if RealNumber.leb 0.6 confidence && RealNumber.leb 0.6 consistency then medium
  else low.

(** [generateAssessment(confidence, consistency, outlierRatio)] *)
Definition generateAssessment (confidence consistency outlierRatio : R) : Assessment :=
  if Rle_dec (confidence_target config) confidence then TargetReached
  else if Rle_dec (confidence_minimum config) confidence then MinimumReached
  else BelowMinimum.

(** [generateRecommendations(confidence, consistency, outlierCount,
    totalResults)] *)
Definition generateRecommendations (confidence consistency outlierCount totalResults : R)
  : list Recommendation :=
  let recommendations :=
    ((if Rlt_dec confidence (confidence_minimum config) then [ReviewProviders] else [])
     ++ (if Rlt_dec consistency 0.6 then [SharpenCriteria] else [])
     ++ (if Rlt_dec (totalResults * 0.3) outlierCount then [TooManyOutliers] else [])
     ++ (if Rlt_dec totalResults 2 then [EnableMoreProviders] else []))%list in
  if (length recommendations =? 0)%nat then [KeepSettings] else recommendations.

(** the clamped sum that [calculateConfidence] names [finalConfidence] *)
Definition finalConfidence (consistency outlierCount totalResults : R)
  (additionalFactors : option AdditionalFactors) : R :=
  let factors := factors config in
  let consistencyComponent := Rmin 1 consistency * consistency_weight factors in
  let outlierRatio :=
    if Rlt_dec 0 totalResults then outlierCount / totalResults else 0 in
  let outlierComponent := Rmax 0 (1 - outlierRatio) * outlier_weight factors in
  let sampleSizeComponent :=
    calculateSampleSizeContribution totalResults * sample_size_weight factors in
  let additionalComponent := calculateAdditionalFactors additionalFactors in
  let baseConfidence := consistencyComponent + outlierComponent + sampleSizeComponent in
  Rmin 1 (Rmax 0 (baseConfidence + additionalComponent)).

(** [calculateConfidence(consistency, outlierCount, totalResults,
    additionalFactors)] *)
Definition calculateConfidence (consistency outlierCount totalResults : R)
  (additionalFactors : option AdditionalFactors) : Report :=
  let factors := factors config in
  let consistencyComponent := Rmin 1 consistency * consistency_weight factors in
  let outlierRatio :=
    if Rlt_dec 0 totalResults then outlierCount / totalResults else 0 in
  let outlierComponent := Rmax 0 (1 - outlierRatio) * outlier_weight factors in
  let sampleSizeComponent :=
    calculateSampleSizeContribution totalResults * sample_size_weight factors in
  let additionalComponent := calculateAdditionalFactors additionalFactors in
  let finalConfidence :=
    finalConfidence consistency outlierCount totalResults additionalFactors in
  let reliability := determineReliability finalConfidence consistency in
  let assessment := generateAssessment finalConfidence consistency outlierRatio in
  let recommendations :=
    generateRecommendations finalConfidence consistency outlierCount totalResults in
  {| confidence := toFixed 3 finalConfidence;
     reliability := reliability;
     components :=
       {| c_consistency := toFixed 3 consistencyComponent;
          c_outlier := toFixed 3 outlierComponent;
          c_sampleSize := toFixed 3 sampleSizeComponent;
          c_additional :=
            if Req_dec_T additionalComponent 0 then None
            else Some (toFixed 3 additionalComponent) |};
     assessment := assessment;
     recommendations := recommendations |}.

End Calculator.
End ConfidenceCalculator.

(** ** [ConsistencyValidator] (consistency-validator.ts) *)

Module ConsistencyValidator.

Import RealNumber.

Inductive ScoreAssessment : Type := EXCELLENT | GOOD | ACCEPTABLE | POOR.

Inductive Status : Type := PASS | FAIL | SINGLE_PROVIDER | INSUFFICIENT_DATA.

(** the [recommendations] sentences *)
Inductive Recommendation : Type :=
| BelowMinimum                              (* overall < minimum *)
| BelowTarget                               (* overall < target *)
| PoorScore (key : string)                  (* assessment === 'POOR' *)
| LargeDeviation (key : string) (sigma : R) (* standardDeviation > 1.0 *)
| KeepSettings                              (* none of the above *)
| SingleProviderOnly        (* '단일 Provider로 일관성 검증이 불가능합니다.' *)
| TooFewSuccesses.          (* '성공한 Provider 결과가 부족하여 ...' *)

Record ScoreStatistics : Type := {
  mean : R;
  standardDeviation : R;
  coefficientOfVariation : R;
  s_min : R;
  s_max : R;
  range : R
}.

Record ScoreAnalysis : Type := {
  values : list R;
  statistics : ScoreStatistics;
  sa_consistency : R;
  assessment : ScoreAssessment
}.

Record Overall : Type := {
  o_consistency : R;
  target : R;
  minimum : R;
  status : Status
}.

Record Details : Type := {
  scorewise : list (string * ScoreAnalysis);
  overall : Overall;
  recommendations : list Recommendation
}.

Record Report : Type := {
  consistency : R;
  isConsistent : bool;
  details : Details
}.

Section Validator.
Variable config : ConsistencyConfig R.

(** [extractScoreKeys(results)] *)
Definition extractScoreKeys (results : list (ProviderResult R)) : list string :=
  fold_left (fun s result =>
               if success result
               then fold_left (fun s k => set_add k s) (keys (scores result)) s
               else s)
            results [].

(** [extractScoreValues(results, key)] *)
Definition extractScoreValues (results : list (ProviderResult R)) (key : string) : list R :=
  numbers
    (map (fun r => lookup key (scores r))
         (filter (fun r => success r
                           && match lookup key (scores r) with
                              | Some _ => true
                              | None => false
                              end)
                 results)).

(** [Math.min(...values)] and [Math.max(...values)] of a non-empty array *)
Definition minOf (values : list R) : R :=
  match values with
  | [] => 0
  | v :: vs => fold_left Rmin vs v
  end.

Definition maxOf (values : list R) : R :=
  match values with
  | [] => 0
  | v :: vs => fold_left Rmax vs v
  end.

(** [assessScoreConsistency(consistencyScore, standardDeviation)] *)
Definition assessScoreConsistency (consistencyScore standardDeviation : R)
  : ScoreAssessment :=
  if leb 0.8 consistencyScore && leb standardDeviation 0.3 then EXCELLENT
  else if leb 0.6 consistencyScore && leb standardDeviation 0.5 then GOOD
  else if leb 0.4 consistencyScore && leb standardDeviation 0.8 then ACCEPTABLE
  else POOR.

(** the [mean], [variance] and [standardDeviation] locals of
    [calculateScoreConsistency] *)
Definition meanOf (values : list R) : R := Rsum values / INR (length values).

Definition varianceOf (values : list R) : R :=
  fold_left (fun sum val => sum + (val - meanOf values) ^ 2) values 0
  / INR (length values).

Definition standardDeviationOf (values : list R) : R := sqrt (varianceOf values).

(** [calculateScoreConsistency(values, scoreName)] *)
Definition calculateScoreConsistency (values : list R) (scoreName : string)
  : ScoreAnalysis :=
  let mean := meanOf values in
  let standardDeviation := standardDeviationOf values in
  let coefficientOfVariation :=
    if Req_dec_T mean 0 then 0 else standardDeviation / mean in
  let min := minOf values in
  let max := maxOf values in
  let range := max - min in
  let consistencyScore := Rmax 0 (1 - standardDeviation / 2.5) in
  {| values := map (toFixed 2) values;
     statistics :=
       {| mean := toFixed 2 mean;
          standardDeviation := toFixed 3 standardDeviation;
          coefficientOfVariation := toFixed 3 coefficientOfVariation;
          s_min := min;
          s_max := max;
          range := toFixed 2 range |};
     sa_consistency := toFixed 3 consistencyScore;
     assessment := assessScoreConsistency consistencyScore standardDeviation |}.

(** [analyzeScorewiseConsistency(results)] *)
Definition analyzeScorewiseConsistency (results : list (ProviderResult R))
  : list (string * ScoreAnalysis) :=
  flat_map (fun key =>
              let values := extractScoreValues results key in
              if (2 <=? length values)%nat
              then [(key, calculateScoreConsistency values key)]
              else [])
           (extractScoreKeys results).

(** [calculateOverallConsistency(scorewiseAnalysis)] *)
Definition calculateOverallConsistency (scorewiseAnalysis : list (string * ScoreAnalysis))
  : R :=
  if (length scorewiseAnalysis =? 0)%nat then 0
  else
    let '(weightedSum, totalWeight) :=
      fold_left (fun '(weightedSum, totalWeight) '(key, analysis) =>
                   let weight := if String.eqb key "total_score" then 0.4 else 0.2 in
                   (weightedSum + sa_consistency analysis * weight,
                    totalWeight + weight))
                scorewiseAnalysis (0, 0) in
    if Rlt_dec 0 totalWeight then weightedSum / totalWeight else 0.

(** [generateRecommendations(analysis, overallConsistency)] *)
Definition generateRecommendations (analysis : list (string * ScoreAnalysis))
  (overallConsistency : R) : list Recommendation :=
  let recommendations :=
    ((if Rlt_dec overallConsistency (consistency_minimum config)
      then [BelowMinimum] else [])
     ++ (if Rlt_dec overallConsistency (consistency_target config)
         then [BelowTarget] else [])
     ++ flat_map (fun '(key, scoreAnalysis) =>
                    (match assessment scoreAnalysis with
                     | POOR => [PoorScore key]
                     | _ => []
                     end)
                    ++ (if Rlt_dec 1.0 (standardDeviation (statistics scoreAnalysis))
                        then [LargeDeviation key
                                (standardDeviation (statistics scoreAnalysis))]
                        else []))
                 analysis)%list in
  if (length recommendations =? 0)%nat then [KeepSettings] else recommendations.

(** [getSingleProviderResult()] *)
Definition getSingleProviderResult : Report :=
  {| consistency := 1.0;
     isConsistent := true;
     details :=
       {| scorewise := [];
          overall := {| o_consistency := 1.0;
                        target := consistency_target config;
                        minimum := consistency_minimum config;
                        status := SINGLE_PROVIDER |};
          recommendations := [SingleProviderOnly] |} |}.

(** [getInsufficientDataResult()] *)
Definition getInsufficientDataResult : Report :=
  {| consistency := 0.0;
     isConsistent := false;
     details :=
       {| scorewise := [];
          overall := {| o_consistency := 0.0;
                        target := consistency_target config;
                        minimum := consistency_minimum config;
                        status := INSUFFICIENT_DATA |};
          recommendations := [TooFewSuccesses] |} |}.

(** [validateConsistency(results)] *)
Definition validateConsistency (results : list (ProviderResult R)) : Report :=
  if (length results <? 2)%nat then getSingleProviderResult
  else
    let successfulResults := filter (@success R) results in
    if (length successfulResults <? 2)%nat then getInsufficientDataResult
    else
      let scorewiseAnalysis := analyzeScorewiseConsistency successfulResults in
      let overallConsistency := calculateOverallConsistency scorewiseAnalysis in
      let isConsistent := leb (consistency_minimum config) overallConsistency in
      let recommendations :=
        generateRecommendations scorewiseAnalysis overallConsistency in
      {| consistency := overallConsistency;
         isConsistent := isConsistent;
         details :=
           {| scorewise := scorewiseAnalysis;
              overall := {| o_consistency := overallConsistency;
                            target := consistency_target config;
                            minimum := consistency_minimum config;
                            status := if isConsistent then PASS else FAIL |};
              recommendations := recommendations |} |}.

End Validator.
End ConsistencyValidator.

(** ** Sample inputs

    Concrete configurations, arrays and provider results, on binary64
    numbers, for the evaluations below. *)

Module Sample.

Import FloatNumber.

Definition F : Type := PrimFloat.float.

(** the defaults the specification names: [multiplier] 1.5 and
    [min_samples] 3 *)
Definition detection : OutlierDetector.Config F :=
  {| OutlierDetector.multiplier := of_Q 1.5; OutlierDetector.min_samples := 3 |}.

Definition thresholds : ThresholdConfig F :=
  {| th_consistency := {| consistency_target := of_Q 0.8;
                          consistency_minimum := of_Q 0.6 |};
     th_confidence := {| confidence_target := of_Q 0.8;
                         confidence_minimum := of_Q 0.6;
                         factors := {| consistency_weight := of_Q 0.5;
                                       outlier_weight := of_Q 0.3;
                                       sample_size_weight := of_Q 0.2 |} |};
     outlier_detection := detection |}.

(** a successful provider result that reports [total_score] only *)
Definition reports (provider : string) (total : F) : ProviderResult F :=
  {| name := provider; model := "model";
     scores := [("total_score", total)];
     responseTime := of_Q 1200; tokens := of_Q 800; cost := of_Q 0.01;
     success := true; error := None |}.

(** the three providers of the end-to-end example *)
Definition example_scores : list F := [of_Q 4.6; of_Q 4.5; of_Q 1.2].

Definition example_results : list (ProviderResult F) :=
  [reports "openai" (of_Q 4.6); reports "gemini" (of_Q 4.5); reports "gemini-25" (of_Q 1.2)].

(** a heap with two arrays, the caller's at reference 1 *)
Definition sample_heap : Heap.heap F :=
  [[of_Q 9]; [of_Q 3; of_Q 1; of_Q 100; of_Q 2; of_Q 2.5]].

(** three providers, the second of which fails *)
Definition answer (total : Q) : EvaluationResult F :=
  {| result_scores :=
       Some {| 업무능력 := Some {| subtotal := of_Q total |};
               문장력 := Some {| subtotal := of_Q total |};
               기본_태도 := Some {| subtotal := of_Q total |};
               total_score := Some (of_Q total) |};
     result_tokens := Some (of_Q 900);
     result_cost := None |}.

Definition sample_providers : list (EvaluationOrchestrator.Provider F) :=
  [ {| EvaluationOrchestrator.getName := "openai";
       EvaluationOrchestrator.getModel := "gpt";
       EvaluationOrchestrator.evaluateWithRetry :=
         EvaluationOrchestrator.Resolved (answer 4.2);
       EvaluationOrchestrator.elapsed := of_Q 1500 |};
    {| EvaluationOrchestrator.getName := "gemini";
       EvaluationOrchestrator.getModel := "flash";
       EvaluationOrchestrator.evaluateWithRetry :=
         EvaluationOrchestrator.Rejected F
           (EvaluationOrchestrator.ErrorObject "HTTP 500");
       EvaluationOrchestrator.elapsed := of_Q 30000 |};
    {| EvaluationOrchestrator.getName := "gemini-25";
       EvaluationOrchestrator.getModel := "gemini-2.5-pro";
       EvaluationOrchestrator.evaluateWithRetry :=
         EvaluationOrchestrator.Resolved (answer 3.8);
       EvaluationOrchestrator.elapsed := of_Q 2100 |} ].

End Sample.

(** ** Vocabulary of the statements *)

(** a provider whose [evaluateWithRetry] resolved *)
Definition succeeded {num : Type} (provider : EvaluationOrchestrator.Provider num) : bool :=
  match EvaluationOrchestrator.evaluateWithRetry provider with
  | EvaluationOrchestrator.Resolved _ => true
  | EvaluationOrchestrator.Rejected _ _ => false
  end.

(** what a provider's answer holds under a score key: the subtotal of
    the section of that name, or the total *)
Definition reported {num : Type} (answer : EvaluationResult num) (key : string)
  : option num :=
  match result_scores answer with
  | None => None
  | Some s =>
      if String.eqb key "업무능력" then option_map (@subtotal num) (업무능력 s)
      else if String.eqb key "문장력" then option_map (@subtotal num) (문장력 s)
      else if String.eqb key "기본_태도" then option_map (@subtotal num) (기본_태도 s)
      else if String.eqb key "total_score" then total_score s
      else None
  end.

(** the [error] recorded for what a provider threw *)
Definition recordedError (reason : EvaluationOrchestrator.Thrown) : string :=
  match reason with
  | EvaluationOrchestrator.ErrorObject message => message
  | EvaluationOrchestrator.OtherValue => "알 수 없는 오류"
  end.

(** the quantile of a sorted sample by linear interpolation at the rank
    position [(n - 1) * p] *)
Definition interpolatedQuantile (sorted : list R) (p : R) : R :=
  let position := ((INR (length sorted) - 1) * p)%R in
  let below := Z.to_nat (Int_part position) in
  let fraction := (position - IZR (Int_part position))%R in
  (nth below sorted 0 + fraction * (nth (S below) sorted 0 - nth below sorted 0))%R.

(** ** Sample inputs over the reals *)

Module RealSample.

Definition detection : OutlierDetector.Config R :=
  {| OutlierDetector.multiplier := 1.5%R; OutlierDetector.min_samples := 3 |}.

Definition confidence : ConfidenceConfig R :=
  {| confidence_target := 0.8%R;
     confidence_minimum := 0.6%R;
     factors := {| consistency_weight := 0.5%R;
                   outlier_weight := 0.3%R;
                   sample_size_weight := 0.2%R |} |}.

Definition consistency : ConsistencyConfig R :=
  {| consistency_target := 0.8%R; consistency_minimum := 0.6%R |}.

Definition thresholds : ThresholdConfig R :=
  {| th_consistency := consistency;
     th_confidence := confidence;
     outlier_detection := detection |}.

(** a provider result with the given scores *)
Definition result (provider : string) (ok : bool) (s : Scores R) : ProviderResult R :=
  {| name := provider; model := "model"; scores := s;
     responseTime := 1200%R; tokens := 800%R; cost := 0%R;
     success := ok;
     error := if ok then None else Some "HTTP 500" |}.

End RealSample.

(** the sum of a sample, and its population standard deviation: the
    root of the mean squared distance from the mean *)
Definition total (values : list R) : R := fold_right Rplus 0%R values.

Definition populationStdDev (values : list R) : R :=
  let n := INR (length values) in
  let mu := (total values / n)%R in
  sqrt (total (map (fun v => (v - mu) ^ 2)%R values) / n).

(** two providers, of which one succeeded *)
Definition one_of_two : list (ProviderResult R) :=
  [RealSample.result "openai" true [("total_score", 4.5%R)];
   RealSample.result "gemini" false []].

(** two providers that succeeded, with totals 1 and 5 *)
Definition far_apart : list (ProviderResult R) :=
  [RealSample.result "openai" true [("total_score", 1%R)];
   RealSample.result "gemini" true [("total_score", 5%R)]].

(** three providers that succeeded, with the totals of the end-to-end
    example *)
Definition three_totals : list (ProviderResult R) :=
  [RealSample.result "openai" true [("total_score", 4.6%R)];
   RealSample.result "gemini" true [("total_score", 4.5%R)];
   RealSample.result "gemini-25" true [("total_score", 1.2%R)]].

(** a provider answer whose total is 0 and whose first section is missing *)
Definition partial_answer : EvaluationResult Sample.F :=
  {| result_scores :=
       Some {| 업무능력 := None;
               문장력 := Some {| subtotal := FloatNumber.float_of_Q 4.5 |};
               기본_태도 := Some {| subtotal := PrimFloat.nan |};
               total_score := Some PrimFloat.zero |};
     result_tokens := None;
     result_cost := None |}.

(** successful results none of which reports a total *)
Definition without_total : list (ProviderResult Sample.F) :=
  [ {| name := "openai"; model := "model";
       scores := [("문장력", FloatNumber.float_of_Q 4.5)];
       responseTime := FloatNumber.float_of_Q 900; tokens := PrimFloat.zero;
       cost := PrimFloat.zero; success := true; error := None |};
    {| name := "gemini"; model := "model";
       scores := [("문장력", FloatNumber.float_of_Q 3.5); ("총점", FloatNumber.float_of_Q 4)];
       responseTime := FloatNumber.float_of_Q 900; tokens := PrimFloat.zero;
       cost := PrimFloat.zero; success := true; error := None |} ].

(** ** [ConfidenceCalculator], the advanced analysis
    (confidence-calculator.ts) *)

Module ConfidenceAnalysis.

Import RealNumber.
Open Scope R_scope.


Record Uncertainty : Type := {
  confidenceInterval : R * R;
  standardError : R;
  predictionInterval : R * R
}.

Record Analysis : Type := {
  basicConfidence : ConfidenceCalculator.Report;
  temporalStability : R;
  crossValidation : R;
  uncertaintyQuantification : Uncertainty;
  qualityScore : R
}.

(** [r.scores.total_score || 0] *)
Definition totalOrZero (r : ProviderResult R) : R :=
  or_else (lookup "total_score" (scores r)) 0.

(** the [scores] local of [calculateAverageScore] and
    [quantifyUncertainty] *)
Definition successfulTotals (results : list (ProviderResult R)) : list R :=
  map totalOrZero (filter (@success R) results).

(** [calculateAverageScore(results)] *)
Definition calculateAverageScore (results : list (ProviderResult R)) : R :=
  let scores := successfulTotals results in
  if (0 <? length scores)%nat then Rsum scores / INR (length scores) else 0.

(** [getTValue(df, alpha)] *)
Definition getTValue (df alpha : R) : R :=
  if Rle_dec 30 df then 1.96
  else if Rle_dec 20 df then 2.086
  else if Rle_dec 10 df then 2.228
  else if Rle_dec 5 df then 2.571
  else 3.182.





(** [quantifyUncertainty(results)] *)
Definition quantifyUncertainty (results : list (ProviderResult R)) : Uncertainty :=
  let scores := successfulTotals results in
  if (length scores <? 2)%nat then
    {| confidenceInterval := (0, 0);
       standardError := 0;
       predictionInterval := (0, 0) |}
  else
    let mean := Rsum scores / INR (length scores) in
    let variance :=
      fold_left (fun sum val => sum + (val - mean) ^ 2) scores 0
      / (INR (length scores) - 1) in
    let standardError := sqrt (variance / INR (length scores)) in
    let tValue := getTValue (INR (length scores) - 1) 0.05 in
    let margin := tValue * standardError in
    let confidenceInterval := (Rmax 1 (mean - margin), Rmin 5 (mean + margin)) in
    let predictionMargin := tValue * sqrt (variance + standardError ^ 2) in
    let predictionInterval :=
      (Rmax 1 (mean - predictionMargin), Rmin 5 (mean + predictionMargin)) in
    {| confidenceInterval := confidenceInterval;
       standardError := toFixed 3 standardError;
       predictionInterval := predictionInterval |}.


Section Analysis.
Variable config : ConfidenceConfig R.


End Analysis.
End ConfidenceAnalysis.


(** ** [ConsistencyValidator], the advanced analysis
    (consistency-validator.ts) *)

Module ConsistencyAnalysis.

Import RealNumber.
Open Scope R_scope.

Record Correlations : Type := {
  pearson : R;
  spearman : R;
  kendall : R
}.

Record Agreement : Type := {
  exactAgreement : R;
  withinThreshold : R;
  direction : R
}.

Record ReliabilityAnalysis : Type := {
  cronbachAlpha : R;
  icc : R
}.

Record Analysis : Type := {
  basicConsistency : ConsistencyValidator.Report;
  correlationAnalysis : Correlations;
  agreementAnalysis : Agreement;
  reliability : ReliabilityAnalysis
}.

(** [calculatePearsonCorrelation(x, y)]; [y[i]] exists for every index
    of [x], the lengths being equal past the first line. *)
Definition calculatePearsonCorrelation (x y : list R) : R :=
  if negb (length x =? length y)%nat || (length x <? 2)%nat then 0
  else
    let n := INR (length x) in
    let sumX := Rsum x in
    let sumY := Rsum y in
    let sumXY := fold_left (fun sum '(val, yi) => sum + val * yi) (combine x y) 0 in
    let sumX2 := fold_left (fun sum val => sum + val * val) x 0 in
    let sumY2 := fold_left (fun sum val => sum + val * val) y 0 in
    let numerator := n * sumXY - sumX * sumY in
    let denominator :=
      sqrt ((n * sumX2 - sumX * sumX) * (n * sumY2 - sumY * sumY)) in
    if Req_dec_T denominator 0 then 0 else numerator / denominator.

(** [r.scores.total_score || r.scores.총점 || 0] *)
Definition totalScoreOf (r : ProviderResult R) : R :=
  or_else (lookup "total_score" (scores r)) (or_else (lookup "총점" (scores r)) 0).

(** [calculateCorrelations(results)]; [totalScores[0]] and
    [totalScores[1]] exist, there being two results or more. *)
Definition calculateCorrelations (results : list (ProviderResult R)) : Correlations :=
  if (length results <? 2)%nat then
    {| pearson := 0; spearman := 0; kendall := 0 |}
  else
    let totalScores := map totalScoreOf results in
    let provider1Scores := [nth 0 totalScores 0] in
    let provider2Scores := [nth 1 totalScores 0] in
    let pearson := calculatePearsonCorrelation provider1Scores provider2Scores in
    let spearman := pearson * 0.9 in
    let kendall := pearson * 0.8 in
    {| pearson := toFixed 3 pearson;
       spearman := toFixed 3 spearman;
       kendall := toFixed 3 kendall |}.

(** [r.scores.total_score || 0] *)
Definition totalOrZero (r : ProviderResult R) : R :=
  or_else (lookup "total_score" (scores r)) 0.

(** the counters of [calculateAgreement] *)
Record Counts : Type := {
  exactMatches : nat;
  withinThresholdMatches : nat;
  sameDirectionMatches : nat;
  totalComparisons : nat
}.

(** the body of the inner loop *)
Definition compare (c : Counts) (score1 score2 : R) : Counts :=
  let threshold := 0.5 in
  let difference := Rabs (score1 - score2) in
  let avg := (score1 + score2) / 2 in
  {| exactMatches :=
       if eqb difference 0 then S (exactMatches c) else exactMatches c;
     withinThresholdMatches :=
       if leb difference threshold then S (withinThresholdMatches c)
       else withinThresholdMatches c;
     sameDirectionMatches :=
       if (leb avg score1 && leb avg score2) || (ltb score1 avg && ltb score2 avg)
       then S (sameDirectionMatches c) else sameDirectionMatches c;
     totalComparisons := S (totalComparisons c) |}.

(** the pairs [(results[i], results[j])] with [i < j], in the order of
    the two loops *)
Fixpoint pairs (A : Type) (l : list A) : list (A * A) :=
  match l with
  | [] => []
  | x :: rest => map (pair x) rest ++ pairs rest
  end.

Definition countAgreement (results : list (ProviderResult R)) : Counts :=
  fold_left (fun c '(r1, r2) => compare c (totalOrZero r1) (totalOrZero r2))
            (pairs results)
            {| exactMatches := 0; withinThresholdMatches := 0;
               sameDirectionMatches := 0; totalComparisons := 0 |}.

(** [calculateAgreement(results)] *)
Definition calculateAgreement (results : list (ProviderResult R)) : Agreement :=
  if (length results <? 2)%nat then
    {| exactAgreement := 0; withinThreshold := 0; direction := 0 |}
  else
    let c := countAgreement results in
    let share (matches : nat) :=
      if (0 <? totalComparisons c)%nat
      then INR matches / INR (totalComparisons c) else 0 in
    {| exactAgreement := share (exactMatches c);
       withinThreshold := share (withinThresholdMatches c);
       direction := share (sameDirectionMatches c) |}.

(** [calculateReliability(results)] *)
Definition calculateReliability (results : list (ProviderResult R))
  : ReliabilityAnalysis :=
  if (length results <? 2)%nat then {| cronbachAlpha := 0; icc := 0 |}
  else
    let scores := map totalOrZero results in
    let mean := Rsum scores / INR (length scores) in
    let variance :=
      fold_left (fun sum val => sum + (val - mean) ^ 2) scores 0
      / INR (length scores) in
    let cronbachAlpha := Rmax 0 (1 - variance) in
    let icc := cronbachAlpha * 0.9 in
    {| cronbachAlpha := toFixed 3 cronbachAlpha;
       icc := toFixed 3 icc |}.

Section Analysis.
Variable config : ConsistencyConfig R.

(** [advancedConsistencyAnalysis(results)] *)
Definition advancedConsistencyAnalysis (results : list (ProviderResult R)) : Analysis :=
  let basicConsistency := ConsistencyValidator.validateConsistency config results in
  let successfulResults := filter (@success R) results in
  if (length successfulResults <? 2)%nat then
    {| basicConsistency := basicConsistency;
       correlationAnalysis := {| pearson := 0; spearman := 0; kendall := 0 |};
       agreementAnalysis :=
         {| exactAgreement := 0; withinThreshold := 0; direction := 0 |};
       reliability := {| cronbachAlpha := 0; icc := 0 |} |}
  else
    let correlationAnalysis := calculateCorrelations successfulResults in
    let agreementAnalysis := calculateAgreement successfulResults in
    let reliability := calculateReliability successfulResults in
    {| basicConsistency := basicConsistency;
       correlationAnalysis := correlationAnalysis;
       agreementAnalysis := agreementAnalysis;
       reliability := reliability |}.

End Analysis.
End ConsistencyAnalysis.

(** ** [BaseProvider] (providers/base-provider.ts) *)

Module BaseProvider.

Open Scope R_scope.

(** [RetryConfig]; [max_attempts] a whole number *)
Record RetryConfig : Type := {
  max_attempts : nat;
  backoff_multiplier : R;
  initial_delay : R
}.

(** What [isRetryableError] reads of a thrown object: its message, here
    already in lower case and [""] when there is none, and its [status]
    and [statusCode], whole numbers when present. *)
Record ErrorObject : Type := {
  lowerCaseMessage : string;
  status : option Z;
  statusCode : option Z
}.

(** a thrown value; [None] is a falsy one *)
Definition Thrown : Type := option ErrorObject.

(** [haystack.includes(needle)] *)
Fixpoint includes (haystack needle : string) : bool :=
  if String.prefix needle haystack then true
  else match haystack with
       | EmptyString => false
       | String _ rest => includes rest needle
       end.

Definition networkErrors : list string :=
  ["network"; "timeout"; "connect"; "econnreset"; "enotfound"; "econnrefused"]%string.

(** [error.status || error.statusCode] *)
Definition codeOf (error : ErrorObject) : option Z :=
  match status error with
  | Some s => if (s =? 0)%Z then statusCode error else Some s
  | None => statusCode error
  end.

(** [isRetryableError(error)] *)
Definition isRetryableError (error : Thrown) : bool :=
  match error with
  | None => false
  | Some error =>
      let errorMessage := lowerCaseMessage error in
      let byMessage :=
        existsb (fun keyword => includes errorMessage keyword) networkErrors in
      match codeOf error with
      | Some statusCode =>
          if (statusCode =? 0)%Z then byMessage
          else if (400 <=? statusCode)%Z && (statusCode <? 500)%Z
          then (statusCode =? 429)%Z || (statusCode =? 408)%Z
          else if (500 <=? statusCode)%Z then true
          else byMessage
      | None => byMessage
      end
  end.

(** the two contexts [handleError] is called with, and the error of the
    line after the loop *)
Inductive Context : Type :=
| MaxRetriesExceeded   (* '최대 재시도 횟수 초과' *)
| NotRetryable         (* '재시도 불가능한 오류' *)
| Unexpected.          (* '예상치 못한 오류' *)

Section Provider.
Variable Result : Type.

(** what one call of [evaluate] does *)
Inductive Attempt : Type :=
| Resolves (result : Result)
| Rejects (error : Thrown).

(** what [evaluateWithRetry] does: [Threw context error] is
    [handleError(error, context)], and the error after the loop has no
    cause. *)
Inductive Outcome : Type :=
| Returned (result : Result)
| Threw (context : Context) (error : option Thrown).

(** the provider's [retryCount], the number of calls of [evaluate] so
    far and the delays awaited so far, oldest first *)
Record State : Type := {
  retryCount : nat;
  calls : nat;
  waited : list R
}.

Variable config : RetryConfig.
(** [evaluate], abstract in the class: its n-th call resolves or rejects *)
Variable evaluate : nat -> Attempt.
(** [isRetryableError], which a provider may override *)
Variable retryable : Thrown -> bool.

(** the [for] loop of [evaluateWithRetry], from [attempt] on, with
    [remaining] passes left *)
Fixpoint attempts (remaining attempt : nat) (st : State) : Outcome * State :=
  match remaining with
  | O => (Threw Unexpected None, st)
  | S remaining' =>
      match evaluate (calls st) with
      | Resolves result =>
          (Returned result,
           {| retryCount := 0; calls := S (calls st); waited := waited st |})
      | Rejects error =>
          let st' :=
            {| retryCount := attempt; calls := S (calls st); waited := waited st |} in
          if (attempt =? max_attempts config)%nat
          then (Threw MaxRetriesExceeded (Some error), st')
          else if negb (retryable error)
          then (Threw NotRetryable (Some error), st')
          else
            let delayMs :=
              initial_delay config * backoff_multiplier config ^ (attempt - 1) in
            attempts remaining' (S attempt)
              {| retryCount := attempt; calls := S (calls st);
                 waited := waited st ++ [delayMs] |}
      end
  end.

(** [evaluateWithRetry(request)] *)
Definition evaluateWithRetry (st : State) : Outcome * State :=
  attempts (max_attempts config) 1
    {| retryCount := 0; calls := calls st; waited := waited st |}.

End Provider.

Arguments Rejects {Result} error.
Arguments Threw {Result} context error.

End BaseProvider.

(** a provider whose first two calls fail with a rate limit and a
    timeout and whose third call answers 7 *)
Definition flaky (call : nat) : BaseProvider.Attempt nat :=
  match call with
  | 0%nat => BaseProvider.Rejects
           (Some {| BaseProvider.lowerCaseMessage := "too many requests";
                    BaseProvider.status := Some 429%Z;
                    BaseProvider.statusCode := None |})
  | 1%nat => BaseProvider.Rejects
           (Some {| BaseProvider.lowerCaseMessage := "socket timeout";
                    BaseProvider.status := None;
                    BaseProvider.statusCode := None |})
  | _ => BaseProvider.Resolves 7%nat
  end.

Definition three_attempts : BaseProvider.RetryConfig :=
  {| BaseProvider.max_attempts := 3%nat;
     BaseProvider.backoff_multiplier := 2%R;
     BaseProvider.initial_delay := 1000%R |}.

Definition fresh : BaseProvider.State :=
  {| BaseProvider.retryCount := 0%nat; BaseProvider.calls := 0%nat;
     BaseProvider.waited := [] |}.

(** ** [OutlierDetector], several series (outlier-detector.ts) *)

Module MultiSeries.

Record Summary (num : Type) : Type := {
  totalSeries : nat;
  seriesWithOutliers : nat;
  averageOutlierRate : num
}.

Record Result (num : Type) : Type := {
  seriesOutliers : list (string * OutlierDetector.Result num);
  consistentOutliers : list nat;
  summary : Summary num
}.

(** [outlierCounts[index] = (outlierCounts[index] || 0) + 1].  The keys
    of [outlierCounts] are array indices, which [Object.entries] lists
    in ascending order: the object is kept as its entries in that
    order. *)
Fixpoint bump (index : nat) (outlierCounts : list (nat * nat)) : list (nat * nat) :=
  match outlierCounts with
  | [] => [(index, 1%nat)]
  | (i, count) :: rest =>
      if (index <? i)%nat then (index, 1%nat) :: outlierCounts
      else if (index =? i)%nat then (i, S count) :: rest
      else (i, count) :: bump index rest
  end.

Section Detector.
Context {num : Type} `{Number num}.
Variable config : OutlierDetector.Config num.

(** the body of the first [forEach] of [detectMultiSeriesOutliers] *)
Definition detectOne
  (state : list (string * OutlierDetector.Result num) * list (nat * nat))
  (entry : string * list num)
  : list (string * OutlierDetector.Result num) * list (nat * nat) :=
  let '(seriesOutliers, outlierCounts) := state in
  let '(seriesName, values) := entry in
  let result := OutlierDetector.detectOutliers config values in
  ((seriesOutliers ++ [(seriesName, result)])%list,
   fold_left (fun counts index => bump index counts)
             (OutlierDetector.outlierIndices result) outlierCounts).

(** the loop, over [Object.entries(seriesData)] *)
Definition detectEach (seriesData : list (string * list num))
  : list (string * OutlierDetector.Result num) * list (nat * nat) :=
  fold_left detectOne seriesData ([], []).

(** [detectMultiSeriesOutliers(seriesData)], [seriesData] as its
    entries *)
Definition detectMultiSeriesOutliers (seriesData : list (string * list num))
  : Result num :=
  let '(seriesOutliers, outlierCounts) := detectEach seriesData in
  let seriesCount := length seriesData in
  let threshold :=
    Z.to_nat (Qceiling (inject_Z (Z.of_nat seriesCount) * 0.5)) in
  let consistentOutliers :=
    map fst (filter (fun '(_, count) => (threshold <=? count)%nat) outlierCounts) in
  let seriesWithOutliers :=
    length (filter (fun result =>
                      (0 <? length (OutlierDetector.outliers result))%nat)
                   (map snd seriesOutliers)) in
  let totalOutlierRate :=
    fold_left (fun sum result =>
                 (sum + OutlierDetector.outlierPercentage
                          (OutlierDetector.statistics result))%num)
              (map snd seriesOutliers) zero in
  let averageOutlierRate := (totalOutlierRate / of_nat (length seriesData))%num in
  {| seriesOutliers := seriesOutliers;
     consistentOutliers := consistentOutliers;
     summary := {| totalSeries := seriesCount;
                   seriesWithOutliers := seriesWithOutliers;
                   averageOutlierRate := averageOutlierRate |} |}.

End Detector.
End MultiSeries.

(** ** [OutlierDetector], the adaptive detection (outlier-detector.ts) *)

Module AdaptiveDetection.

Import RealNumber.
Open Scope R_scope.

(** The result of [analyzeDistribution]; [None] is NaN, which the
    source gets from 0 / 0: for every field of an empty array, and for
    the skewness and the kurtosis when the standard deviation is 0. *)
Record Distribution : Type := {
  mean : option R;
  median : option R;
  standardDeviation : option R;
  skewness : option R;
  kurtosis : option R;
  isNormal : bool
}.

(** [analyzeDistribution(values)] *)
Definition analyzeDistribution (values : list R) : Distribution :=
  match values with
  | [] =>
      {| mean := None; median := None; standardDeviation := None;
         skewness := None; kurtosis := None; isNormal := false |}
  | _ =>
      let n := INR (length values) in
      let mean := Rsum values / n in
      let sortedValues := sort values in
      let median := OutlierDetector.calculateQuartile sortedValues 0.5 in
      let variance :=
        fold_left (fun sum val => sum + (val - mean) ^ 2) values 0 / n in
      let standardDeviation := sqrt variance in
      if Req_dec_T standardDeviation 0 then
        {| mean := Some mean; median := Some median;
           standardDeviation := Some standardDeviation;
           skewness := None; kurtosis := None; isNormal := false |}
      else
        let skewness :=
          fold_left (fun sum val => sum + ((val - mean) / standardDeviation) ^ 3)
                    values 0 / n in
        let kurtosis :=
          fold_left (fun sum val => sum + ((val - mean) / standardDeviation) ^ 4)
                    values 0 / n - 3 in
        let isNormal := ltb (Rabs skewness) 0.5 && ltb (Rabs kurtosis) 0.5 in
        {| mean := Some mean; median := Some median;
           standardDeviation := Some standardDeviation;
           skewness := Some skewness; kurtosis := Some kurtosis;
           isNormal := isNormal |}
  end.

(** [Math.abs(x) > bound], false on NaN *)
Definition exceeds (x : option R) (bound : R) : bool :=
  match x with
  | Some v => ltb bound (Rabs v)
  | None => false
  end.

(** the four sentences of [generateRecommendation] and the one of
    [adaptiveOutlierDetection] *)
Inductive Recommendation : Type :=
| TooFewSamples     (* '샘플 크기가 너무 작아 ...' *)
| HighOutlierRate   (* '아웃라이어 비율이 높습니다. ...' *)
| PreferAdapted     (* '적응형 검출이 더 합리적인 결과를 제공합니다. ...' *)
| NotNormal         (* '데이터가 정규분포를 따르지 않습니다. ...' *)
| DefaultsFine.     (* '기본 설정이 적절합니다.' *)

Record Adaptive : Type := {
  baseResult : OutlierDetector.Result R;
  adaptedResult : OutlierDetector.Result R;
  adaptedMultiplier : R;
  recommendation : Recommendation
}.

(** [calculateAdaptedMultiplier(distribution)] *)
Definition calculateAdaptedMultiplier (config : OutlierDetector.Config R)
  (distribution : Distribution) : R :=
  let multiplier := OutlierDetector.multiplier config in
  let multiplier :=
    if exceeds (skewness distribution) 1.0 then multiplier * 1.2 else multiplier in
  let multiplier :=
    if exceeds (kurtosis distribution) 2.0 then multiplier * 1.1 else multiplier in
  let multiplier :=
    if negb (isNormal distribution) then multiplier * 1.1 else multiplier in
  Rmax 1.0 (Rmin 3.0 multiplier).

(** [generateRecommendation(baseResult, adaptedResult, distribution)] *)
Definition generateRecommendation (baseResult adaptedResult : OutlierDetector.Result R)
  (distribution : Distribution) : Recommendation :=
  let baseOutlierRate :=
    OutlierDetector.outlierPercentage (OutlierDetector.statistics baseResult) in
  let adaptedOutlierRate :=
    OutlierDetector.outlierPercentage (OutlierDetector.statistics adaptedResult) in
  if ltb 20 baseOutlierRate then HighOutlierRate
  else if ltb adaptedOutlierRate (baseOutlierRate * 0.5) then PreferAdapted
  else if negb (isNormal distribution) then NotNormal
  else DefaultsFine.

(** [this.config.multiplier = multiplier] *)
Definition setMultiplier (config : OutlierDetector.Config R) (multiplier : R)
  : OutlierDetector.Config R :=
  {| OutlierDetector.multiplier := multiplier;
     OutlierDetector.min_samples := OutlierDetector.min_samples config |}.

(** [adaptiveOutlierDetection(values)], with the detector's
    configuration before and after *)
Definition adaptiveOutlierDetection (config : OutlierDetector.Config R)
  (values : list R) : Adaptive * OutlierDetector.Config R :=
  if (length values <? OutlierDetector.min_samples config)%nat then
    let emptyResult := OutlierDetector.emptyResult values in
    ({| baseResult := emptyResult;
        adaptedResult := emptyResult;
        adaptedMultiplier := OutlierDetector.multiplier config;
        recommendation := TooFewSamples |},
     config)
  else
    let baseResult := OutlierDetector.detectOutliers config values in
    let distribution := analyzeDistribution values in
    let adaptedMultiplier := calculateAdaptedMultiplier config distribution in
    let originalMultiplier := OutlierDetector.multiplier config in
    let config := setMultiplier config adaptedMultiplier in
    let adaptedResult := OutlierDetector.detectOutliers config values in
    let config := setMultiplier config originalMultiplier in
    let recommendation :=
      generateRecommendation baseResult adaptedResult distribution in
    ({| baseResult := baseResult;
        adaptedResult := adaptedResult;
        adaptedMultiplier := adaptedMultiplier;
        recommendation := recommendation |},
     config).

End AdaptiveDetection.

(** ** [EvaluationValidator] (domain/evaluation-validator.ts) *)

Module EvaluationValidator.

Import RealNumber.
Open Scope R_scope.

(** the sentences of [recommendations]: four of the validator's own and
    those of the two classes it calls, all different strings *)
Inductive Advice : Type :=
| RunAgain            (* '평가를 다시 수행하세요.' *)
| CheckProviders      (* 'Provider 설정을 확인하거나 다른 Provider를 시도하세요.' *)
| EnableOrRetry       (* '더 많은 Provider를 활성화하거나 재시도하세요.' *)
| GetSuccessesFirst   (* '성공한 평가 결과를 먼저 확보하세요.' *)
| OfConsistency (sentence : ConsistencyValidator.Recommendation)
| OfConfidence (sentence : ConfidenceCalculator.Recommendation).

(** the [issues] of [performBasicValidation], [validateScores] and
    [validateProviderScores] *)
Inductive Issue : Type :=
| NoResults                             (* '평가 결과가 없습니다.' *)
| NoSuccess                             (* '성공한 평가 결과가 없습니다.' *)
| TooFewSuccesses (minProviders : nat)  (* `최소 ${minProviders}개의 ...` *)
| NothingToValidate                     (* '검증할 성공한 결과가 없습니다.' *)
| InvalidProvider (name : string)       (* `${result.name} Provider의 ...` *)
| Missing (field : string)              (* `${field} 점수가 누락되었습니다.` *)
| OutOfRange (key : string) (value : R).  (* `${key} 점수가 범위를 ...` *)

Record BasicValidation : Type := {
  b_isValid : bool;
  b_issues : list Issue;
  b_recommendations : list Advice
}.

Record ProviderValidation : Type := {
  p_isValid : bool;
  p_issues : list Issue;
  p_score : R
}.

Record ScoresValidation : Type := {
  s_isValid : bool;
  s_issues : list Issue;
  s_recommendations : list Advice
}.

Record OutlierValidation : Type := {
  outliers : list R;
  hasOutliers : bool;
  detected : option (OutlierDetector.Result R)
}.

(** what [validateEvaluationResults] returns without a report and
    without the advanced analysis *)
Record Verdict : Type := {
  isValid : bool;
  confidence : R;
  reliability : Reliability;
  v_consistency : option ConsistencyValidator.Report;
  v_outliers : option OutlierValidation;
  recommendations : list Advice
}.

(** [[...new Set(all)]]: the first occurrence of every element, in
    order *)
Fixpoint unique (A : Type) (same : A -> A -> bool) (seen all : list A) : list A :=
  match all with
  | [] => []
  | x :: rest =>
      if existsb (same x) seen then unique same seen rest
      else x :: unique same (x :: seen) rest
  end.

Definition sameConsistency (a b : ConsistencyValidator.Recommendation) : bool :=
  match a, b with
  | ConsistencyValidator.BelowMinimum, ConsistencyValidator.BelowMinimum => true
  | ConsistencyValidator.BelowTarget, ConsistencyValidator.BelowTarget => true
  | ConsistencyValidator.PoorScore k, ConsistencyValidator.PoorScore k' =>
      String.eqb k k'
  | ConsistencyValidator.LargeDeviation k s, ConsistencyValidator.LargeDeviation k' s' =>
      String.eqb k k' && eqb s s'
  | ConsistencyValidator.KeepSettings, ConsistencyValidator.KeepSettings => true
  | ConsistencyValidator.SingleProviderOnly, ConsistencyValidator.SingleProviderOnly =>
      true
  | ConsistencyValidator.TooFewSuccesses, ConsistencyValidator.TooFewSuccesses => true
  | _, _ => false
  end.

Definition sameConfidence (a b : ConfidenceCalculator.Recommendation) : bool :=
  match a, b with
  | ConfidenceCalculator.ReviewProviders, ConfidenceCalculator.ReviewProviders => true
  | ConfidenceCalculator.SharpenCriteria, ConfidenceCalculator.SharpenCriteria => true
  | ConfidenceCalculator.TooManyOutliers, ConfidenceCalculator.TooManyOutliers => true
  | ConfidenceCalculator.EnableMoreProviders,
    ConfidenceCalculator.EnableMoreProviders => true
  | ConfidenceCalculator.KeepSettings, ConfidenceCalculator.KeepSettings => true
  | _, _ => false
  end.

(** two sentences are the same string *)
Definition sameAdvice (a b : Advice) : bool :=
  match a, b with
  | RunAgain, RunAgain => true
  | CheckProviders, CheckProviders => true
  | EnableOrRetry, EnableOrRetry => true
  | GetSuccessesFirst, GetSuccessesFirst => true
  | OfConsistency x, OfConsistency y => sameConsistency x y
  | OfConfidence x, OfConfidence y => sameConfidence x y
  | _, _ => false
  end.

(** [consolidateRecommendations(recommendationSets)] *)
Definition consolidateRecommendations (recommendationSets : list (list Advice))
  : list Advice :=
  let allRecommendations := concat recommendationSets in
  unique sameAdvice [] allRecommendations.

Definition requiredFields : list string :=
  ["업무능력"; "문장력"; "기본_태도"; "total_score"]%string.

(** [validateProviderScores(result)], on scores that are numbers *)
Definition validateProviderScores (result : ProviderResult R) : ProviderValidation :=
  let '(issues, score) :=
    fold_left (fun '(issues, score) field =>
                 match lookup field (scores result) with
                 | None => ((issues ++ [Missing field])%list, score * 0.8)
                 | Some _ => (issues, score)
                 end)
              requiredFields ([], 1.0) in
  let '(issues, score) :=
    fold_left (fun '(issues, score) '(key, value) =>
                 if ltb value 1.0 || ltb 5.0 value
                 then ((issues ++ [OutOfRange key value])%list, score * 0.7)
                 else (issues, score))
              (scores result) (issues, score) in
  {| p_isValid := (length issues =? 0)%nat;
     p_issues := issues;
     p_score := toFixed 2 score |}.

(** [validateScores(results)]; [validateScoreRanges] finds nothing *)
Definition validateScores (results : list (ProviderResult R)) : ScoresValidation :=
  let successfulResults := filter (@success R) results in
  if (length successfulResults =? 0)%nat then
    {| s_isValid := false;
       s_issues := [NothingToValidate];
       s_recommendations := [GetSuccessesFirst] |}
  else
    let issues :=
      flat_map (fun result =>
                  if p_isValid (validateProviderScores result) then []
                  else [InvalidProvider (name result)])
               successfulResults in
    {| s_isValid := (length issues =? 0)%nat;
       s_issues := issues;
       s_recommendations := [] |}.

(** [extractAdditionalFactors(results)] *)
Definition extractAdditionalFactors (results : list (ProviderResult R))
  : ConfidenceCalculator.AdditionalFactors :=
  let successfulResults := filter (@success R) results in
  if (length successfulResults =? 0)%nat then
    {| ConfidenceCalculator.responseTime := None;
       ConfidenceCalculator.tokenUsage := None;
       ConfidenceCalculator.errorRate := None;
       ConfidenceCalculator.historicalPerformance := None |}
  else
    let avgResponseTime :=
      fold_left (fun sum r => sum + responseTime r) successfulResults 0
      / INR (length successfulResults) in
    let avgTokens :=
      fold_left (fun sum r => sum + tokens r) successfulResults 0
      / INR (length successfulResults) in
    let errorRate :=
      (INR (length results) - INR (length successfulResults)) / INR (length results) in
    {| ConfidenceCalculator.responseTime := Some avgResponseTime;
       ConfidenceCalculator.tokenUsage := Some avgTokens;
       ConfidenceCalculator.errorRate := Some errorRate;
       ConfidenceCalculator.historicalPerformance := None |}.

(** [determineOverallValidity(scoresValidation, consistencyValidation,
    outlierValidation, confidenceValidation, strictMode)] *)
Definition determineOverallValidity (scoresValidation : ScoresValidation)
  (consistencyValidation : ConsistencyValidator.Report)
  (outlierValidation : OutlierValidation)
  (confidenceValidation : ConfidenceCalculator.Report) (strictMode : bool) : bool :=
  let threshold := if strictMode then 0.8 else 0.6 in
  s_isValid scoresValidation
  && ConsistencyValidator.isConsistent consistencyValidation
  && leb threshold (ConfidenceCalculator.confidence confidenceValidation)
  && (negb (hasOutliers outlierValidation)
      || (length (outliers outlierValidation) <=? 1)%nat).

Section Validator.
Variable thresholds : ThresholdConfig R.
(** [thresholds.validation.required_fields] *)
Variable required_fields : list string.

(** [performBasicValidation(results)] *)
Definition performBasicValidation (results : list (ProviderResult R))
  : BasicValidation :=
  if (length results =? 0)%nat then
    {| b_isValid := false;
       b_issues := [NoResults];
       b_recommendations := [RunAgain] |}
  else
    let successfulResults := filter (@success R) results in
    let '(issues, recommendations) :=
      if (length successfulResults =? 0)%nat
      then ([NoSuccess], [CheckProviders]) else ([], []) in
    let minProviders :=
      if (length required_fields =? 0)%nat then 1%nat else length required_fields in
    let '(issues, recommendations) :=
      if (length successfulResults <? minProviders)%nat
      then ((issues ++ [TooFewSuccesses minProviders])%list,
            (recommendations ++ [EnableOrRetry])%list)
      else (issues, recommendations) in
    {| b_isValid := (length issues =? 0)%nat;
       b_issues := issues;
       b_recommendations := recommendations |}.

(** [detectOutliers(results)] *)
Definition detectOutliers (results : list (ProviderResult R)) : OutlierValidation :=
  let successfulResults := filter (@success R) results in
  if (length successfulResults <? 3)%nat then
    {| outliers := []; hasOutliers := false; detected := None |}
  else
    let totalScores :=
      map (fun r => or_else (lookup "total_score" (scores r)) 0) successfulResults in
    let outlierResult :=
      OutlierDetector.detectOutliers (outlier_detection thresholds) totalScores in
    {| outliers := OutlierDetector.outliers outlierResult;
       hasOutliers := (0 <? length (OutlierDetector.outliers outlierResult))%nat;
       detected := Some outlierResult |}.

(** [validateEvaluationResults(providerResults, { strictMode })] *)
Definition validateEvaluationResults (providerResults : list (ProviderResult R))
  (strictMode : bool) : Verdict :=
  let basicValidation := performBasicValidation providerResults in
  if negb (b_isValid basicValidation) then
    {| isValid := false;
       confidence := 0;
       reliability := low;
       v_consistency := None;
       v_outliers := None;
       recommendations := b_recommendations basicValidation |}
  else
    let scoresValidation := validateScores providerResults in
    let consistencyValidation :=
      ConsistencyValidator.validateConsistency (th_consistency thresholds)
        providerResults in
    let outlierValidation := detectOutliers providerResults in
    let confidenceValidation :=
      ConfidenceCalculator.calculateConfidence (th_confidence thresholds)
        (ConsistencyValidator.consistency consistencyValidation)
        (INR (length (outliers outlierValidation)))
        (INR (length providerResults))
        (Some (extractAdditionalFactors providerResults)) in
    let isValid :=
      determineOverallValidity scoresValidation consistencyValidation
        outlierValidation confidenceValidation strictMode in
    let allRecommendations :=
      consolidateRecommendations
        [s_recommendations scoresValidation;
         map OfConsistency
           (ConsistencyValidator.recommendations
              (ConsistencyValidator.details consistencyValidation));
         map OfConfidence
           (ConfidenceCalculator.recommendations confidenceValidation)] in
    {| isValid := isValid;
       confidence := ConfidenceCalculator.confidence confidenceValidation;
       reliability := ConfidenceCalculator.reliability confidenceValidation;
       v_consistency := Some consistencyValidation;
       v_outliers := Some outlierValidation;
       recommendations := allRecommendations |}.

End Validator.
End EvaluationValidator.

(** two providers that succeeded and gave every score as 4 *)
Definition two_complete : list (ProviderResult R) :=
  let all4 : Scores R :=
    [("업무능력", 4%R); ("문장력", 4%R); ("기본_태도", 4%R); ("total_score", 4%R)] in
  [RealSample.result "openai" true all4; RealSample.result "gemini" true all4].

(** the comparator of [sort((a, b) => a - b)] agrees with [<] on the
    values of [l], and [<] orders them: of two values not both are below
    the other, and a value that is not below a second, which is not below
    a third, is not below the third *)
Definition comparable {num : Type} `{Number num} (l : list num) : Prop :=
  (forall a b, In a l -> In b l -> (zero <? a - b)%num = (b <? a)%num)
  /\ (forall a b, In a l -> In b l -> (a <? b)%num = true -> (b <? a)%num = false)
  /\ (forall a b c, In a l -> In b l -> In c l ->
        (b <? a)%num = false -> (c <? b)%num = false -> (c <? a)%num = false).

(** [ascending l]: no value of [l] is below an earlier one *)
Definition ascending {num : Type} `{Number num} (l : list num) : Prop :=
  StronglySorted (fun a b => (b <? a)%num = false) l.

(** four providers, of which the second reports the total 1 and the
    others an infinite total *)
Definition mostly_unbounded : list (ProviderResult Sample.F) :=
  [Sample.reports "openai" PrimFloat.infinity;
   Sample.reports "gemini" (FloatNumber.float_of_Q 1);
   Sample.reports "gemini-25" PrimFloat.infinity;
   Sample.reports "gemini-pro" PrimFloat.infinity].

(** * Properties *)

Close Scope R_scope.
Close Scope Q_scope.
Open Scope nat_scope.
Open Scope list_scope.

Import FloatNumber RealNumber.

(** ** Arrays, whatever the numbers are *)

Section ArrayFacts.
Context {num : Type} `{Number num}.

Lemma insert_perm (x : num) (l : list num) : Permutation (insert x l) (x :: l).
Proof.
  induction l as [|y l IH]; simpl; [reflexivity|].
  destruct (zero <? x - y)%num; [|reflexivity].
  rewrite IH. apply perm_swap.
Qed.

Lemma sort_perm (l : list num) : Permutation (sort l) l.
Proof.
  induction l as [|x l IH]; simpl; [constructor|].
  rewrite insert_perm. now constructor.
Qed.

Lemma sort_In (l : list num) (x : num) : In x (sort l) <-> In x l.
Proof.
  split; apply Permutation_in; [apply sort_perm | symmetry; apply sort_perm].
Qed.

Lemma numbers_In (l : list (option num)) (v : num) :
  In v (numbers l) <-> In (Some v) l /\ nisNaN v = false.
Proof.
  induction l as [|x l IH]; simpl; [tauto|].
  destruct x as [w|]; simpl.
  - destruct (nisNaN w) eqn:E; simpl; rewrite IH; split.
    + tauto.
    + intros [[Heq|Hin] Hn]; [|tauto]. congruence.
    + intros [->|Hin]; tauto.
    + intros [[Heq|Hin] Hn]; [left; congruence | tauto].
  - rewrite IH. split; [tauto|]. intros [[Heq|Hin] Hn]; [discriminate|tauto].
Qed.

Lemma aget_nth (l : list num) (n : nat) : aget l (Z.of_nat n) = nth n l NaN.
Proof.
  unfold aget. destruct (Z.ltb_spec (Z.of_nat n) 0); [lia|].
  now rewrite Nat2Z.id.
Qed.

Lemma floor_mul_half (n : nat) : floor_mul n (1 # 2) = Z.of_nat (n / 2).
Proof.
  rewrite (Nat2Z.inj_div n 2).
  unfold floor_mul, Qfloor, Qmult, inject_Z; simpl.
  now rewrite Z.mul_1_r.
Qed.

(** the three arrays of the [forEach] loop of the detector *)

Lemma classify_lengths (lo hi : num) (i : nat) (values : list num) :
  let '(os, ois, fs) := OutlierDetector.classify lo hi i values in
  length os + length fs = length values /\ length ois = length os.
Proof.
  revert i; induction values as [|v values IH]; intros i; simpl; [auto|].
  specialize (IH (S i)).
  destruct (OutlierDetector.classify lo hi (S i) values) as [[os ois] fs].
  destruct (OutlierDetector.isOutlier lo hi v); simpl; lia.
Qed.

Lemma classify_perm (lo hi : num) (i : nat) (values : list num) :
  let '(os, ois, fs) := OutlierDetector.classify lo hi i values in
  Permutation values (os ++ fs).
Proof.
  revert i; induction values as [|v values IH]; intros i; simpl; [constructor|].
  specialize (IH (S i)).
  destruct (OutlierDetector.classify lo hi (S i) values) as [[os ois] fs].
  destruct (OutlierDetector.isOutlier lo hi v); simpl.
  - now constructor.
  - rewrite IH. apply Permutation_middle.
Qed.

(** the indices are positions of the array the loop walks: counted from
    [i], they name the outliers in order, and they increase *)
Lemma classify_indices (lo hi : num) (i : nat) (values : list num) :
  let '(os, ois, fs) := OutlierDetector.classify lo hi i values in
  map (fun j => nth_error values (j - i)) ois = map Some os
  /\ Forall (fun j => i <= j < i + length values) ois
  /\ StronglySorted lt ois.
Proof.
  revert i; induction values as [|v values IH]; intros i; simpl.
  - repeat split; constructor.
  - specialize (IH (S i)).
    destruct (OutlierDetector.classify lo hi (S i) values) as [[os ois] fs].
    destruct IH as (Hv & Hr & Hs).
    assert (Hshift : map (fun j => nth_error (v :: values) (j - i)) ois = map Some os).
    { rewrite <- Hv. apply map_ext_in. intros j Hj.
      rewrite Forall_forall in Hr. specialize (Hr j Hj).
      replace (j - i) with (S (j - S i)) by lia. reflexivity. }
    assert (Hr' : Forall (fun j => i <= j < i + S (length values)) ois).
    { eapply Forall_impl; [|exact Hr]. simpl; intros; lia. }
    destruct (OutlierDetector.isOutlier lo hi v); simpl.
    + rewrite Nat.sub_diag; simpl. repeat split.
      * now f_equal.
      * constructor; [lia|exact Hr'].
      * constructor; [exact Hs|]. eapply Forall_impl; [|exact Hr]. simpl; intros; lia.
    + repeat split; assumption.
Qed.

(** the outliers are exactly the values the test accepts, the inliers
    those it rejects *)
Lemma classify_filter (lo hi : num) (i : nat) (values : list num) :
  let '(os, ois, fs) := OutlierDetector.classify lo hi i values in
  os = filter (OutlierDetector.isOutlier lo hi) values
  /\ fs = filter (fun v => negb (OutlierDetector.isOutlier lo hi v)) values.
Proof.
  revert i; induction values as [|v values IH]; intros i; simpl; [auto|].
  specialize (IH (S i)).
  destruct (OutlierDetector.classify lo hi (S i) values) as [[os ois] fs].
  destruct IH as [-> ->].
  destruct (OutlierDetector.isOutlier lo hi v); simpl; auto.
Qed.

Lemma comparable_incl (l l' : list num) :
  incl l' l -> comparable l -> comparable l'.
Proof.
  intros Hi (Hcmp & Hasym & Htrans). repeat split.
  - intros a b Ha Hb. apply Hcmp; now apply Hi.
  - intros a b Ha Hb. apply Hasym; now apply Hi.
  - intros a b c Ha Hb Hc. apply Htrans; now apply Hi.
Qed.

(** the insertion keeps an ascending array ascending *)
Lemma insert_ascending (x : num) (s : list num) :
  comparable (x :: s) -> ascending s -> ascending (insert x s).
Proof.
  unfold ascending. induction s as [|y s IH]; intros Hc Hs; simpl.
  - repeat constructor.
  - inversion Hs as [|? ? Hs' Hy]; subst.
    pose proof Hc as (Hcmp & Hasym & Htrans).
    assert (Hx : In x (x :: y :: s)) by now left.
    assert (Hyin : In y (x :: y :: s)) by (right; now left).
    rewrite Forall_forall in Hy.
    destruct (zero <? x - y)%num eqn:E.
    + constructor.
      * apply IH; [|exact Hs'].
        apply (comparable_incl (l := x :: y :: s)); [|exact Hc].
        intros z [->|Hz]; [now left|right; now right].
      * apply Forall_forall. intros z Hz.
        apply (Permutation_in _ (insert_perm x s)) in Hz.
        destruct Hz as [<-|Hz]; [|now apply Hy].
        apply Hasym; [exact Hyin|exact Hx|]. now rewrite <- Hcmp.
    + assert (Hyx : (y <? x)%num = false) by (rewrite <- E; symmetry; now apply Hcmp).
      constructor; [exact Hs|].
      constructor; [exact Hyx|].
      apply Forall_forall. intros z Hz.
      apply (Htrans x y z); auto.
      right; now right.
Qed.

(** on comparable values the sort gives an ascending array *)
Lemma sort_ascending (l : list num) : comparable l -> ascending (sort l).
Proof.
  induction l as [|x l IH]; intros Hc; simpl; [constructor|].
  apply insert_ascending.
  - apply (comparable_incl (l := x :: l)); [|exact Hc].
    intros z [->|Hz]; [now left|right; now apply sort_In].
  - apply IH. apply (comparable_incl (l := x :: l)); [|exact Hc].
    intros z Hz; now right.
Qed.

(** around an element of an ascending array *)
Lemma ascending_split (before after : list num) (x : num) :
  ascending (before ++ x :: after) ->
  (forall a, In a before -> (x <? a)%num = false)
  /\ (forall b, In b after -> (b <? x)%num = false).
Proof.
  unfold ascending. induction before as [|a before IH]; simpl; intros Hs.
  - inversion Hs as [|? ? _ Hx]; subst. rewrite Forall_forall in Hx.
    split; [intros a []|exact Hx].
  - inversion Hs as [|? ? Hs' Ha]; subst. rewrite Forall_forall in Ha.
    destruct (IH Hs') as [Hb Hafter]. split; [|exact Hafter].
    intros a' [<-|Hin]; [|now apply Hb].
    apply Ha, in_elt.
Qed.

End ArrayFacts.

(** ** The heap *)

Section HeapFacts.
Variable num : Type.

Lemma update_other (h : Heap.heap num) (r r' : Heap.ref) (l : list num) :
  r' <> r -> nth r' (Heap.update h r l) [] = nth r' h [].
Proof.
  revert r r'; induction h as [|a h IH]; intros [|r] [|r'] Hne; simpl; auto;
    try congruence.
Qed.

Lemma update_same (h : Heap.heap num) (r : Heap.ref) (l : list num) :
  r < length h -> nth r (Heap.update h r l) [] = l.
Proof.
  revert r; induction h as [|a h IH]; intros [|r] Hlt; simpl in *; try lia; auto.
  apply IH. lia.
Qed.

End HeapFacts.

(** ** The detector's three arrays *)

Section DetectorFacts.
Context {num : Type} `{Number num}.
Variable config : OutlierDetector.Config num.

Import OutlierDetector.

Lemma analyse_partition (values sorted : list num) :
  let result := analyse config values sorted in
  length (outliers result) + length (filteredValues result) = length values
  /\ Permutation values (outliers result ++ filteredValues result)
  /\ map (nth_error values) (outlierIndices result) = map Some (outliers result)
  /\ StronglySorted lt (outlierIndices result)
  /\ Forall (fun i => i < length values) (outlierIndices result).
Proof.
  unfold analyse.
  set (lo := (calculateQuartile sorted 0.25 - _)%num).
  set (hi := (calculateQuartile sorted 0.75 + _)%num).
  pose proof (classify_lengths lo hi 0 values) as Hl.
  pose proof (classify_perm lo hi 0 values) as Hp.
  pose proof (classify_indices lo hi 0 values) as Hi.
  destruct (classify lo hi 0 values) as [[os ois] fs]; simpl.
  destruct Hl as [Hl _]. destruct Hi as (Hv & Hr & Hs).
  repeat split; auto.
  - rewrite <- Hv. apply map_ext. intros j. now rewrite Nat.sub_0_r.
  - eapply Forall_impl; [|exact Hr]. simpl; intros; lia.
Qed.

Lemma detectOutliers_partition (values : list num) :
  let result := detectOutliers config values in
  length (outliers result) + length (filteredValues result) = length values
  /\ Permutation values (outliers result ++ filteredValues result)
  /\ map (nth_error values) (outlierIndices result) = map Some (outliers result)
  /\ StronglySorted lt (outlierIndices result)
  /\ Forall (fun i => i < length values) (outlierIndices result).
Proof.
  unfold detectOutliers.
  destruct (length values <? min_samples config).
  - simpl. repeat split; auto; constructor.
  - apply analyse_partition.
Qed.

(** the run on the heap: the arrays that were there are left as they
    were, and the result is that of [detectOutliers] on the elements *)
Lemma detectOutliers_heap_run (h : Heap.heap num) (values : Heap.ref) :
  values < length h ->
  let '(result, h') := detectOutliers_heap config values h in
  (forall r, r < length h -> nth r h' [] = nth r h [])
  /\ result = detectOutliers config (nth values h []).
Proof.
  intros Hv.
  unfold detectOutliers_heap, getEmptyResult, detectOutliers,
    Heap.bind, Heap.read, Heap.alloc, Heap.write, Heap.ret.
  set (vs := nth values h []).
  destruct (length vs <? min_samples config).
  - split.
    + intros r Hr. now rewrite app_nth1.
    + now rewrite nth_middle.
  - rewrite nth_middle.
    assert (Hlen : length h < length (h ++ [vs])) by (rewrite length_app; simpl; lia).
    split.
    + intros r Hr. rewrite update_other by lia. now rewrite app_nth1.
    + rewrite update_same by exact Hlen.
      rewrite update_other by lia. rewrite app_nth1 by exact Hv. reflexivity.
Qed.

End DetectorFacts.

(** C10.  [OutlierDetector.detectOutliers], run on a heap where [values]
    is the caller's array, leaves every array that was on the heap as it
    was, the caller's among them (the sort works on a fresh copy); its
    result is a function of the elements alone; the outliers and the
    filtered values together are a rearrangement of the input, so every
    input value is in exactly one of the two and the lengths add up; and
    the indices returned are, in increasing order, the positions in the
    unsorted input at which the outliers stand. *)
Theorem detectOutliers_keeps_input_and_partitions
  {num : Type} `{Number num} (config : OutlierDetector.Config num)
  (h : Heap.heap num) (values : Heap.ref) :
  values < length h ->
  let input := nth values h [] in
  let run := OutlierDetector.detectOutliers_heap config values h in
  let result := fst run in
  (forall r, r < length h -> nth r (snd run) [] = nth r h [])
  /\ nth values (snd run) [] = input
  /\ result = OutlierDetector.detectOutliers config input
  /\ length (OutlierDetector.outliers result)
     + length (OutlierDetector.filteredValues result) = length input
  /\ Permutation input
       (OutlierDetector.outliers result ++ OutlierDetector.filteredValues result)
  /\ map (nth_error input) (OutlierDetector.outlierIndices result)
     = map Some (OutlierDetector.outliers result)
  /\ StronglySorted lt (OutlierDetector.outlierIndices result)
  /\ Forall (fun i => i < length input) (OutlierDetector.outlierIndices result).
Proof.
  intros Hv input run result.
  pose proof (detectOutliers_heap_run config h Hv) as Hrun.
  fold run in Hrun. subst result. destruct run as [result h']; simpl.
  destruct Hrun as [Hkeep ->].
  split; [exact Hkeep|]. split; [now apply Hkeep|]. split; [reflexivity|].
  apply detectOutliers_partition.
Qed.

(** The caller's array [3, 1, 100, 2, 2.5] at reference 1: it is still
    there after the run, and 100, at position 2, is the one outlier. *)
Lemma detectOutliers_keeps_input_witness :
  1 < length Sample.sample_heap
  /\ (let run := OutlierDetector.detectOutliers_heap Sample.detection 1 Sample.sample_heap in
      nth 1 (snd run) [] = nth 1 Sample.sample_heap []
      /\ map (nth_error (nth 1 Sample.sample_heap []))
             (OutlierDetector.outlierIndices (fst run))
         = map Some (OutlierDetector.outliers (fst run))
      /\ OutlierDetector.outlierIndices (fst run) = [2]).
Proof.
  assert (Hv : 1 < length Sample.sample_heap) by (simpl; lia).
  split; [exact Hv|].
  destruct (detectOutliers_keeps_input_and_partitions
              Sample.detection Sample.sample_heap Hv)
    as (_ & Hin & _ & _ & _ & Hidx & _).
  split; [exact Hin|]. split; [exact Hidx|].
  vm_compute. reflexivity.
Defined.

(** Five values on binary64, one far off: the bounds are -1 and 7, and
    100, at position 4, is the one outlier. *)
Example detectOutliers_flags_the_far_value :
  let result :=
    OutlierDetector.detectOutliers Sample.detection
      (map of_Q [1; 2; 3; 4; 100]%Q) in
  OutlierDetector.outliers result = [of_Q 100]
  /\ OutlierDetector.outlierIndices result = [4]
  /\ OutlierDetector.filteredValues result = map of_Q [1; 2; 3; 4]%Q
  /\ OutlierDetector.lowerBound (OutlierDetector.statistics result) = of_Q (-1)
  /\ OutlierDetector.upperBound (OutlierDetector.statistics result) = of_Q 7.
Proof. repeat split; vm_compute; reflexivity. Qed.

(** Fewer values than [min_samples]: nothing is flagged and the filtered
    values are the input. *)
Example detectOutliers_needs_three_values :
  let result :=
    OutlierDetector.detectOutliers Sample.detection (map of_Q [1; 100]%Q) in
  OutlierDetector.outliers result = []
  /\ OutlierDetector.filteredValues result = map of_Q [1; 100]%Q.
Proof. repeat split; vm_compute; reflexivity. Qed.

(** ** Score consolidation *)

Section ConsolidationFacts.
Context {num : Type} `{Number num}.

Import EvaluationOrchestrator.

Lemma existsb_eqb_In (key : string) (s : list string) :
  existsb (String.eqb key) s = true <-> In key s.
Proof.
  rewrite existsb_exists. split.
  - intros (k & Hin & Heq). apply String.eqb_eq in Heq. now subst.
  - intros Hin. exists key. split; [exact Hin | apply String.eqb_refl].
Qed.

Lemma set_add_In (key k : string) (s : list string) :
  In key (set_add k s) <-> key = k \/ In key s.
Proof.
  unfold set_add. destruct (existsb (String.eqb k) s) eqn:E.
  - apply existsb_eqb_In in E. split; [tauto|]. intros [->|Hin]; assumption.
  - rewrite in_app_iff; simpl. intuition congruence.
Qed.

Lemma fold_set_add_In (key : string) (l s : list string) :
  In key (fold_left (fun s k => set_add k s) l s) <-> In key l \/ In key s.
Proof.
  revert s; induction l as [|k l IH]; intros s; simpl; [tauto|].
  rewrite IH, set_add_In. intuition congruence.
Qed.

Lemma keys_In (key : string) (o : Scores num) :
  In key (keys o) <-> In key (map fst o).
Proof. unfold keys. rewrite fold_set_add_In; simpl. tauto. Qed.

Lemma lookup_Some_key (key : string) (o : Scores num) (v : num) :
  lookup key o = Some v -> In key (map fst o).
Proof.
  induction o as [|[k w] o IH]; simpl; [discriminate|].
  destruct (String.eqb key k) eqn:E; [|auto].
  apply String.eqb_eq in E. auto.
Qed.

Lemma scoreKeys_In (key : string) (results : list (ProviderResult num)) :
  In key (scoreKeys results)
  <-> exists result, In result results /\ In key (map fst (scores result)).
Proof.
  unfold scoreKeys.
  assert (G : forall s,
    In key (fold_left (fun s result =>
                         fold_left (fun s k => set_add k s) (keys (scores result)) s)
                      results s)
    <-> (exists result, In result results /\ In key (map fst (scores result)))
        \/ In key s).
  { induction results as [|r results IH]; intros s; simpl.
    - split; [tauto|]. intros [(r & [] & _)|Hin]; exact Hin.
    - rewrite IH, fold_set_add_In, keys_In. split.
      + intros [(r' & Hin & Hk)|[Hk|Hs]]; eauto.
      + intros [(r' & [->|Hin] & Hk)|Hs]; eauto. }
  rewrite G; simpl. tauto.
Qed.

(** reading the object [consolidateScores] builds *)
Lemma lookup_flat_map (f : string -> option num) (key : string) (ks : list string) :
  lookup key (flat_map (fun k => match f k with
                                 | Some v => [(k, v)]
                                 | None => []
                                 end) ks)
  = if existsb (String.eqb key) ks then f key else None.
Proof.
  induction ks as [|k ks IH]; simpl; [reflexivity|].
  destruct (String.eqb key k) eqn:E; simpl.
  - apply String.eqb_eq in E; subst k.
    destruct (f key) eqn:Ef; simpl.
    + now rewrite String.eqb_refl.
    + rewrite IH. now destruct (existsb (String.eqb key) ks).
  - destruct (f k); simpl; [rewrite E|]; exact IH.
Qed.

Lemma sortedValues_In (results : list (ProviderResult num)) (key : string) (v : num) :
  In v (sortedValues results key)
  <-> (exists result, In result results /\ lookup key (scores result) = Some v)
      /\ nisNaN v = false.
Proof.
  unfold sortedValues. rewrite sort_In, numbers_In, in_map_iff.
  split; intros [(r & H1 & H2) Hn]; split; eauto.
Qed.

Lemma consolidateScores_lookup (results : list (ProviderResult num)) (key : string) :
  sortedValues results key <> [] ->
  lookup key (consolidateScores results)
  = consolidateValues (sortedValues results key).
Proof.
  intros Hne. unfold consolidateScores.
  rewrite (lookup_flat_map (fun k => consolidateValues (sortedValues results k))).
  assert (Hk : In key (scoreKeys results)).
  { destruct (sortedValues results key) as [|v vs] eqn:E; [congruence|].
    assert (Hv : In v (sortedValues results key)) by (rewrite E; now left).
    apply sortedValues_In in Hv. destruct Hv as [(r & Hr & Hl) _].
    apply scoreKeys_In. exists r. split; [exact Hr|].
    eapply lookup_Some_key; eassumption. }
  apply existsb_eqb_In in Hk. now rewrite Hk.
Qed.

End ConsolidationFacts.

(** C4.  When a dimension has three or more numeric values and the
    bounds test of the consolidation rejects every one of them, the
    dimension is present in the consolidated scores and its value is the
    median of the sample: the consolidation works on the numeric values
    the results hold for the dimension, rearranged; where the comparator
    of the sort agrees with [<] on these values and [<] orders them, the
    rearrangement is ascending; and the value returned is its middle
    element (the upper one of the two middle elements when their number
    is even), so that none of the values before it is above it and none
    of the values after it below.  That value is not NaN. *)
Theorem consolidateScores_falls_back_to_median
  {num : Type} `{Number num} (results : list (ProviderResult num)) (key : string) :
  let sample := numbers (map (fun result => lookup key (scores result)) results) in
  let values := EvaluationOrchestrator.sortedValues results key in
  3 <= length values ->
  EvaluationOrchestrator.inliers values = [] ->
  exists median before after,
    lookup key (EvaluationOrchestrator.consolidateScores results) = Some median
    /\ Permutation values sample
    /\ values = before ++ median :: after
    /\ length before = length values / 2
    /\ length after <= length before <= length after + 1
    /\ nisNaN median = false
    /\ (comparable sample ->
        ascending values
        /\ (forall value, In value before -> (median <? value)%num = false)
        /\ (forall value, In value after -> (value <? median)%num = false)).
Proof.
  intros sample values Hlen Hout.
  assert (Hmid : length values / 2 < length values)
    by (apply Nat.div_lt; lia).
  destruct (nth_split values NaN Hmid) as (before & after & Hsplit & Hbefore).
  exists (nth (length values / 2) values NaN), before, after.
  split; [|split; [apply sort_perm|split; [exact Hsplit|split; [exact Hbefore|split;
    [|split]]]]].
  - rewrite consolidateScores_lookup
      by (fold values; intros E; rewrite E in Hlen; simpl in Hlen; lia).
    fold values. unfold EvaluationOrchestrator.consolidateValues.
    rewrite Hout; simpl.
    replace (0 <? length values) with true by (symmetry; apply Nat.ltb_lt; lia).
    replace (length values =? 1) with false by (symmetry; apply Nat.eqb_neq; lia).
    replace (length values =? 2) with false by (symmetry; apply Nat.eqb_neq; lia).
    rewrite floor_mul_half, aget_nth. reflexivity.
  - assert (Hl : length values = length before + S (length after)).
    { rewrite Hsplit at 1. rewrite length_app; simpl. reflexivity. }
    pose proof (Nat.div_mod_eq (length values) 2) as Hd.
    pose proof (Nat.mod_upper_bound (length values) 2) as Hm.
    lia.
  - assert (Hin : In (nth (length values / 2) values NaN) values)
      by (apply nth_In; exact Hmid).
    apply sortedValues_In in Hin. apply Hin.
  - intros Hc.
    assert (Hs : ascending values) by (apply sort_ascending; exact Hc).
    split; [exact Hs|].
    apply ascending_split. rewrite <- Hsplit. exact Hs.
Qed.

(** Four providers, of which one reports the total 1 and three an
    infinite total: the sorted values are 1 and three times Infinity,
    both quartiles are infinite, the interquartile range is
    [Infinity - Infinity], no value passes the bounds test, and the
    consolidated total is the third of the sorted values. *)
Lemma consolidateScores_falls_back_witness :
  let sample :=
    numbers (map (fun result => lookup "total_score" (scores result))
                 mostly_unbounded) in
  let values := EvaluationOrchestrator.sortedValues mostly_unbounded "total_score" in
  sample = [PrimFloat.infinity; FloatNumber.float_of_Q 1;
            PrimFloat.infinity; PrimFloat.infinity]
  /\ 3 <= length values
  /\ EvaluationOrchestrator.inliers values = []
  /\ comparable sample
  /\ lookup "total_score" (EvaluationOrchestrator.consolidateScores mostly_unbounded)
     = Some PrimFloat.infinity
  /\ exists median before after,
       lookup "total_score" (EvaluationOrchestrator.consolidateScores mostly_unbounded)
       = Some median
       /\ Permutation values sample
       /\ values = before ++ median :: after
       /\ length before = length values / 2
       /\ length after <= length before <= length after + 1
       /\ nisNaN median = false
       /\ ascending values
       /\ (forall value, In value before -> (median <? value)%num = false)
       /\ (forall value, In value after -> (value <? median)%num = false).
Proof.
  intros sample values.
  assert (Hsample : sample = [PrimFloat.infinity; FloatNumber.float_of_Q 1;
                              PrimFloat.infinity; PrimFloat.infinity])
    by reflexivity.
  assert (H3 : 3 <= length values) by (vm_compute; lia).
  assert (Hout : EvaluationOrchestrator.inliers values = [])
    by (vm_compute; reflexivity).
  assert (Hc : comparable sample).
  { rewrite Hsample. repeat split.
    - intros a b Ha Hb. simpl in Ha, Hb.
      repeat match goal with H : _ \/ _ |- _ => destruct H end;
        subst; try contradiction; vm_compute; reflexivity.
    - intros a b Ha Hb. simpl in Ha, Hb.
      repeat match goal with H : _ \/ _ |- _ => destruct H end;
        subst; try contradiction; vm_compute; intros E;
        first [reflexivity | discriminate].
    - intros a b c Ha Hb Hcc. simpl in Ha, Hb, Hcc.
      repeat match goal with H : _ \/ _ |- _ => destruct H end;
        subst; try contradiction; vm_compute; intros E1 E2;
        first [reflexivity | discriminate]. }
  split; [exact Hsample|]. split; [exact H3|]. split; [exact Hout|].
  split; [exact Hc|]. split; [vm_compute; reflexivity|].
  destruct (consolidateScores_falls_back_to_median
              mostly_unbounded "total_score" H3 Hout)
    as (median & before & after & H1 & H2 & H4 & H5 & H6 & H7 & H8).
  exists median, before, after.
  repeat (split; [assumption|]). exact (H8 Hc).
Defined.

(** ** Dispatch and consolidation *)

Section DispatchFacts.
Context {num : Type} `{Number num}.
Variable thresholds : ThresholdConfig num.

Import EvaluationOrchestrator.

Lemma evaluationPromise_success (provider : Provider num) :
  success (evaluationPromise provider) = succeeded provider.
Proof.
  unfold evaluationPromise, succeeded.
  now destruct (evaluateWithRetry provider).
Qed.

Lemma filter_success_promises (providers : list (Provider num)) :
  filter (@success num) (map evaluationPromise providers)
  = map evaluationPromise (filter succeeded providers).
Proof.
  induction providers as [|p providers IH]; simpl; [reflexivity|].
  rewrite evaluationPromise_success.
  destruct (succeeded p); simpl; now rewrite IH.
Qed.

Lemma no_success_iff (providers : list (Provider num)) :
  (length (filter (@success num) (map evaluationPromise providers)) =? 0) = true
  <-> filter succeeded providers = [].
Proof.
  rewrite filter_success_promises, length_map, Nat.eqb_eq.
  now destruct (filter succeeded providers).
Qed.

Lemma executeParallelEvaluations_spec (providers : list (Provider num)) :
  executeParallelEvaluations providers
  = if (length (filter succeeded providers) =? 0)
    then inl AllProvidersFailed
    else inr (map evaluationPromise providers).
Proof.
  unfold executeParallelEvaluations.
  now rewrite filter_success_promises, length_map.
Qed.

Lemma filter_filter_success (results : list (ProviderResult num)) :
  filter (@success num) (filter (@success num) results)
  = filter (@success num) results.
Proof.
  induction results as [|r results IH]; simpl; [reflexivity|].
  destruct (success r) eqn:E; simpl; [rewrite E, IH|]; auto.
Qed.

End DispatchFacts.

(** The sample evaluation of three providers, the second failing with
    HTTP 500: the failure is on record and the total is the mean of the
    two totals that arrived, 4.2 and 3.8. *)
Example partial_failure_example :
  exists consolidated,
    EvaluationOrchestrator.evaluateChat Sample.thresholds Sample.sample_providers "v1"
    = inr consolidated
    /\ map (@success _) (cr_providers consolidated) = [true; false; true]
    /\ map (@error _) (cr_providers consolidated) = [None; Some "HTTP 500"; None]
    /\ cs_총점 (cr_scores consolidated)
       = ((of_Q 3.8 + of_Q 4.2) / of_Q 2 : Sample.F)%num.
Proof.
  eexists. split; [vm_compute; reflexivity|].
  repeat split; vm_compute; reflexivity.
Qed.

(** ** The end-to-end example: totals 4.6, 4.5 and 1.2 *)

(** C1, as stated, fails.  On the totals 4.6, 4.5 and 1.2 with the
    multiplier 1.5, neither the detector nor the orchestrator flags 1.2
    (or any value), and the consolidated total is more than 1 below
    4.55. *)
Lemma end_to_end_example_counterexample :
  ~ In (of_Q 1.2 : Sample.F)
       (OutlierDetector.outliers
          (OutlierDetector.detectOutliers Sample.detection Sample.example_scores))
  /\ EvaluationOrchestrator.detectOutliers Sample.thresholds Sample.example_results = []
  /\ (exists total,
        lookup "total_score"
          (EvaluationOrchestrator.consolidateScores Sample.example_results) = Some total
        /\ (total + one <? of_Q 4.55)%num = true).
Proof.
  split; [|split].
  - vm_compute. tauto.
  - vm_compute. reflexivity.
  - eexists. split; vm_compute; reflexivity.
Qed.

(** C1, amended.  On the totals 4.6, 4.5 and 1.2 with the multiplier 1.5
    the bounds of the detector are about 0.3 and 7.1 and those of the
    orchestrator -3.9 and 9.7: no value is an outlier, all three are
    kept, and the consolidated total is the mean of the three, between
    3.43 and 3.44. *)
Theorem end_to_end_example_keeps_all_three :
  let detected :=
    OutlierDetector.detectOutliers Sample.detection Sample.example_scores in
  let mean : Sample.F := ((zero + of_Q 1.2 + of_Q 4.5 + of_Q 4.6) / of_nat 3)%num in
  OutlierDetector.outliers detected = []
  /\ OutlierDetector.filteredValues detected = Sample.example_scores
  /\ EvaluationOrchestrator.detectOutliers Sample.thresholds Sample.example_results = []
  /\ EvaluationOrchestrator.inliers
       (EvaluationOrchestrator.sortedValues Sample.example_results "total_score")
     = [of_Q 1.2; of_Q 4.5; of_Q 4.6]
  /\ lookup "total_score"
       (EvaluationOrchestrator.consolidateScores Sample.example_results)
     = Some mean
  /\ (of_Q 3.43 <? mean)%num = true
  /\ (mean <? of_Q 3.44)%num = true.
Proof.
  repeat split; vm_compute; reflexivity.
Qed.

(** ** Real arithmetic: what the operations of [Number] are *)

Section RealFacts.
Import RealNumber.
Open Scope R_scope.

Lemma real_ltb (a b : R) : (a <? b)%num = true <-> a < b.
Proof. simpl. unfold ltb. destruct (Rlt_dec a b); split; auto; discriminate. Qed.

Lemma real_ltb_false (a b : R) : (a <? b)%num = false <-> b <= a.
Proof.
  simpl. unfold ltb. destruct (Rlt_dec a b); split; auto; try discriminate; lra.
Qed.

Lemma real_of_Z (z : Z) : of_Z z = IZR z.
Proof. unfold of_Z; simpl. unfold Q2R; simpl. field. Qed.

Lemma real_zero : zero = 0.
Proof. apply real_of_Z. Qed.

Lemma real_one : one = 1.
Proof. apply real_of_Z. Qed.

Lemma real_max (a b : R) : Math_max a b = Rmax a b.
Proof.
  unfold Math_max, Rmax; simpl. unfold ltb.
  destruct (Rlt_dec a b), (Rle_dec a b); lra.
Qed.

Lemma real_min (a b : R) : Math_min a b = Rmin a b.
Proof.
  unfold Math_min, Rmin; simpl. unfold ltb.
  destruct (Rlt_dec b a), (Rle_dec a b); lra.
Qed.

(** real numbers are comparable, whichever they are *)
Lemma real_comparable (l : list R) : comparable l.
Proof.
  repeat split.
  - intros a b _ _.
    destruct (b <? a)%num eqn:E; [apply real_ltb in E | apply real_ltb_false in E].
    + apply real_ltb. rewrite real_zero. simpl. lra.
    + apply real_ltb_false. rewrite real_zero. simpl. lra.
  - intros a b _ _ Hab. apply real_ltb in Hab. apply real_ltb_false. lra.
  - intros a b c _ _ _ Hba Hcb.
    apply real_ltb_false in Hba. apply real_ltb_false in Hcb.
    apply real_ltb_false. lra.
Qed.

(** [sort] sorts *)

Lemma real_insert (x y : R) (l : list R) :
  insert x (y :: l) = if Rlt_dec y x then y :: insert x l else x :: y :: l.
Proof.
  change (insert x (y :: l))
    with (if (zero <? x - y)%num then y :: insert x l else x :: y :: l).
  destruct (zero <? x - y)%num eqn:E;
    [apply real_ltb in E | apply real_ltb_false in E];
    rewrite real_zero in E; simpl in E;
    destruct (Rlt_dec y x); auto; lra.
Qed.

Lemma insert_sorted (x : R) (l : list R) :
  Sorted Rle l -> Sorted Rle (insert x l).
Proof.
  induction l as [|y l IH]; intros Hs.
  - simpl. constructor; constructor.
  - rewrite real_insert. inversion Hs as [|? ? Hl Hhd]; subst.
    destruct (Rlt_dec y x) as [Hlt|Hge].
    + constructor; [now apply IH|].
      destruct l as [|z l]; [simpl; constructor; lra|].
      rewrite real_insert. inversion Hhd; subst.
      destruct (Rlt_dec z x); constructor; lra.
    + constructor; [exact Hs|]. constructor. lra.
Qed.

Lemma sort_sorted (l : list R) : StronglySorted Rle (sort l).
Proof.
  apply Sorted_StronglySorted; [intros a b c; apply Rle_trans|].
  induction l as [|x l IH]; simpl; [constructor|].
  now apply insert_sorted.
Qed.

(** floors of rationals *)

Lemma Q2R_inject_Z (z : Z) : Q2R (inject_Z z) = IZR z.
Proof. unfold Q2R; simpl. field. Qed.

Lemma Int_part_Q2R (q : Q) : Int_part (Q2R q) = Qfloor q.
Proof.
  symmetry. apply Int_part_spec. split.
  - pose proof (Qlt_floor q) as Hlt. apply Qlt_Rlt in Hlt.
    rewrite Q2R_inject_Z, plus_IZR in Hlt. lra.
  - pose proof (Qfloor_le q) as Hle. apply Qle_Rle in Hle.
    now rewrite Q2R_inject_Z in Hle.
Qed.

Lemma Qfloor_bounds (q : Q) : IZR (Qfloor q) <= Q2R q < IZR (Qfloor q) + 1.
Proof.
  pose proof (Qfloor_le q) as Hle. apply Qle_Rle in Hle.
  pose proof (Qlt_floor q) as Hlt. apply Qlt_Rlt in Hlt.
  rewrite Q2R_inject_Z in Hle. rewrite Q2R_inject_Z, plus_IZR in Hlt. lra.
Qed.

Lemma Qceiling_bounds (q : Q) : IZR (Qceiling q) - 1 < Q2R q <= IZR (Qceiling q).
Proof.
  pose proof (Qle_ceiling q) as Hle. apply Qle_Rle in Hle.
  pose proof (Qceiling_lt q) as Hlt. apply Qlt_Rlt in Hlt.
  rewrite Q2R_inject_Z in Hle. rewrite Q2R_inject_Z, minus_IZR in Hlt. lra.
Qed.

(** either the position is an integer, or its ceiling is the next one *)
Lemma floor_ceiling (q : Q) :
  (Qfloor q = Qceiling q /\ Q2R q = IZR (Qfloor q))
  \/ (Qfloor q <> Qceiling q /\ Qceiling q = (Qfloor q + 1)%Z).
Proof.
  pose proof (Qfloor_bounds q) as [Hf1 Hf2].
  pose proof (Qceiling_bounds q) as [Hc1 Hc2].
  destruct (Z.eq_dec (Qfloor q) (Qceiling q)) as [E|E].
  - left. split; [exact E|]. rewrite <- E in Hc2. lra.
  - right. split; [exact E|].
    assert (H1 : (Qfloor q <= Qceiling q)%Z) by (apply le_IZR; lra).
    assert (H2 : (Qceiling q < Qfloor q + 2)%Z)
      by (apply lt_IZR; rewrite plus_IZR; lra).
    lia.
Qed.

End RealFacts.

(** ** The detector is the interquartile rule *)

Section ClassifyIndex.
Context {num : Type} `{Number num}.

Lemma classify_index_iff (lo hi : num) (values : list num) :
  forall (i j : nat) (v : num),
    nth_error values j = Some v ->
    In (i + j) (snd (fst (OutlierDetector.classify lo hi i values)))
    <-> OutlierDetector.isOutlier lo hi v = true.
Proof.
  induction values as [|w values IH]; intros i j v Hj.
  - destruct j; discriminate.
  - simpl.
    pose proof (classify_indices lo hi (S i) values) as Hrange.
    specialize (IH (S i)).
    destruct (OutlierDetector.classify lo hi (S i) values) as [[os ois] fs].
    destruct Hrange as (_ & Hrange & _). rewrite Forall_forall in Hrange.
    simpl in IH.
    destruct j as [|j]; simpl in Hj.
    + injection Hj as ->. rewrite Nat.add_0_r.
      destruct (OutlierDetector.isOutlier lo hi v); simpl.
      * split; auto.
      * split; [|discriminate]. intros Hin. apply Hrange in Hin. lia.
    + specialize (IH j v Hj).
      replace (i + S j) with (S i + j) by lia.
      destruct (OutlierDetector.isOutlier lo hi w); simpl; [|exact IH].
      rewrite <- IH. split; [intros [E|Hin]; [lia|exact Hin] | auto].
Qed.

End ClassifyIndex.

Section InterquartileRule.
Import RealNumber OutlierDetector.
Open Scope R_scope.

Lemma real_aget (l : list R) (i : Z) :
  (0 <= i)%Z -> aget l i = nth (Z.to_nat i) l 0.
Proof.
  intros Hi. unfold aget. destruct (Z.ltb_spec i 0); [lia|reflexivity].
Qed.

(** [calculateQuartile] interpolates at the rank position *)
Lemma real_calculateQuartile (sorted : list R) (p : Q) :
  sorted <> [] -> (0 <= p)%Q ->
  calculateQuartile sorted p = interpolatedQuantile sorted (Q2R p).
Proof.
  intros Hne Hp.
  unfold calculateQuartile, interpolatedQuantile.
  set (q := ((inject_Z (Z.of_nat (length sorted)) - 1) * p)%Q).
  assert (Hq : (INR (length sorted) - 1) * Q2R p = Q2R q).
  { unfold q. rewrite Q2R_mult, Q2R_minus, Q2R_inject_Z, <- INR_IZR_INZ.
    replace (Q2R 1) with 1 by (unfold Q2R; simpl; field). reflexivity. }
  rewrite Hq, Int_part_Q2R.
  assert (Hpos : 0 <= Q2R q).
  { rewrite <- Hq. apply Rmult_le_pos.
    - destruct sorted; [congruence|]. rewrite length_cons, S_INR.
      pose proof (pos_INR (length sorted)). lra.
    - apply Qle_Rle in Hp. replace (Q2R 0) with 0 in Hp by (unfold Q2R; simpl; field).
      exact Hp. }
  assert (Hfloor : (0 <= Qfloor q)%Z).
  { pose proof (Qfloor_bounds q) as [_ Hlt].
    assert (Hz : (-1 < Qfloor q)%Z) by (apply lt_IZR; lra). lia. }
  destruct (floor_ceiling q) as [[Heq Hint]|[Hneq Hceil]].
  - rewrite Heq, Z.eqb_refl, <- Heq, real_aget by exact Hfloor.
    rewrite Hint. ring.
  - apply Z.eqb_neq in Hneq. rewrite Hneq, Hceil.
    rewrite !real_aget by lia. rewrite Z2Nat.inj_add by lia.
    change (Z.to_nat 1) with 1%nat. rewrite Nat.add_1_r.
    rewrite real_one. simpl.
    rewrite Q2R_minus, Q2R_inject_Z. ring.
Qed.

Lemma real_isOutlier (lo hi v : R) :
  isOutlier lo hi v = true <-> v < lo \/ hi < v.
Proof.
  unfold isOutlier. rewrite orb_true_iff, !real_ltb. reflexivity.
Qed.

End InterquartileRule.

(** C3.  For a non-empty sample of at least [min_samples] real values,
    [OutlierDetector.detectOutliers] works on the values in ascending
    order; its Q1 and Q3 are the quantiles of that order interpolated
    linearly at the rank positions (n-1)/4 and 3(n-1)/4; its IQR is
    Q3 - Q1, its bounds are Q1 - k IQR and Q3 + k IQR for the configured
    multiplier k; and the values and positions it reports as outliers
    are exactly those outside the closed interval between the bounds,
    the filtered values exactly those inside. *)
Theorem detectOutliers_is_interquartile_rule
  (config : OutlierDetector.Config R) (values : list R) :
  values <> [] ->
  OutlierDetector.min_samples config <= length values ->
  let result := OutlierDetector.detectOutliers config values in
  let stats := OutlierDetector.statistics result in
  let k := OutlierDetector.multiplier config in
  let Q1 := OutlierDetector.q1 stats in
  let Q3 := OutlierDetector.q3 stats in
  let IQR := OutlierDetector.iqr stats in
  let lower := OutlierDetector.lowerBound stats in
  let upper := OutlierDetector.upperBound stats in
  exists sorted,
    StronglySorted Rle sorted
    /\ Permutation sorted values
    /\ Q1 = interpolatedQuantile sorted 0.25
    /\ Q3 = interpolatedQuantile sorted 0.75
    /\ IQR = (Q3 - Q1)%R
    /\ lower = (Q1 - k * IQR)%R
    /\ upper = (Q3 + k * IQR)%R
    /\ (forall i v, nth_error values i = Some v ->
                    In i (OutlierDetector.outlierIndices result)
                    <-> (v < lower \/ upper < v)%R)
    /\ (forall v, In v (OutlierDetector.outliers result)
                  <-> In v values /\ (v < lower \/ upper < v)%R)
    /\ (forall v, In v (OutlierDetector.filteredValues result)
                  <-> In v values /\ (lower <= v <= upper)%R).
Proof.
  intros Hne Hmin.
  unfold OutlierDetector.detectOutliers.
  replace (length values <? OutlierDetector.min_samples config) with false
    by (symmetry; apply Nat.ltb_ge; exact Hmin).
  assert (Hsne : sort values <> []).
  { intros E. apply Hne. apply Permutation_nil. rewrite <- E.
    apply sort_perm. }
  exists (sort values).
  split; [apply sort_sorted|]. split; [apply sort_perm|].
  unfold OutlierDetector.analyse.
  rewrite !real_calculateQuartile by (auto; discriminate).
  replace (Q2R 0.25) with 0.25%R by (unfold Q2R; simpl; lra).
  replace (Q2R 0.75) with 0.75%R by (unfold Q2R; simpl; lra).
  set (Q1 := interpolatedQuantile (sort values) 0.25).
  set (Q3 := interpolatedQuantile (sort values) 0.75).
  set (lo := (Q1 - OutlierDetector.multiplier config * (Q3 - Q1))%num).
  set (hi := (Q3 + OutlierDetector.multiplier config * (Q3 - Q1))%num).
  pose proof (classify_filter lo hi 0 values) as Hf.
  pose proof (classify_index_iff lo hi values 0) as Hi.
  destruct (OutlierDetector.classify lo hi 0 values) as [[os ois] fs].
  destruct Hf as [-> ->]. simpl in Hi. simpl.
  do 5 (split; [reflexivity|]).
  split; [|split].
  - intros i v Hv. rewrite (Hi i v Hv). apply real_isOutlier.
  - intros v. rewrite filter_In, real_isOutlier. reflexivity.
  - intros v. rewrite filter_In, negb_true_iff.
    assert (Hin : OutlierDetector.isOutlier lo hi v = false
                  <-> (lo <= v <= hi)%R).
    { pose proof (real_isOutlier lo hi v) as Ho.
      destruct (OutlierDetector.isOutlier lo hi v); split; intros Hb.
      - discriminate.
      - assert ((v < lo)%R \/ (hi < v)%R) by (apply Ho; reflexivity). lra.
      - destruct (Rle_dec lo v), (Rle_dec v hi); try lra;
          assert (true = true) by reflexivity; exfalso;
          assert (false = true) by (apply Ho; lra); discriminate.
      - reflexivity. }
    rewrite Hin. reflexivity.
Qed.

(** Five values, one of them far off: the hypotheses of the theorem
    hold, and so does its conclusion. *)
Lemma detectOutliers_is_interquartile_rule_witness :
  [1; 2; 3; 4; 100]%R <> []
  /\ OutlierDetector.min_samples RealSample.detection <= length [1; 2; 3; 4; 100]%R
  /\ exists sorted,
       StronglySorted Rle sorted
       /\ Permutation sorted [1; 2; 3; 4; 100]%R
       /\ OutlierDetector.q1
            (OutlierDetector.statistics
               (OutlierDetector.detectOutliers RealSample.detection [1; 2; 3; 4; 100]%R))
          = interpolatedQuantile sorted 0.25
       /\ OutlierDetector.q3
            (OutlierDetector.statistics
               (OutlierDetector.detectOutliers RealSample.detection [1; 2; 3; 4; 100]%R))
          = interpolatedQuantile sorted 0.75.
Proof.
  assert (H1 : [1; 2; 3; 4; 100]%R <> []) by discriminate.
  assert (H2 : OutlierDetector.min_samples RealSample.detection
               <= length [1; 2; 3; 4; 100]%R) by (simpl; lia).
  split; [exact H1|]. split; [exact H2|].
  destruct (detectOutliers_is_interquartile_rule RealSample.detection H1 H2)
    as (sorted & Hs & Hp & Hq1 & Hq3 & _).
  exists sorted. repeat split; assumption.
Defined.

(** ** Rounding to a fixed number of decimals *)

Section RoundingFacts.
Open Scope R_scope.

Lemma Int_part_le (x y : R) : x <= y -> (Int_part x <= Int_part y)%Z.
Proof.
  intros Hxy.
  destruct (base_Int_part x) as [Hx _]. destruct (base_Int_part y) as [_ Hy].
  assert (H : (Int_part x < Int_part y + 1)%Z)
    by (apply lt_IZR; rewrite plus_IZR; lra).
  lia.
Qed.

Lemma round_half_up_le (x y : R) : x <= y -> (round_half_up x <= round_half_up y)%Z.
Proof. intros Hxy. apply Int_part_le. lra. Qed.

Lemma round_half_up_IZR (z : Z) : round_half_up (IZR z) = z.
Proof.
  unfold round_half_up. symmetry. apply Int_part_spec. lra.
Qed.


Lemma toFixed_IZR (digits : nat) (z : Z) : toFixed digits (IZR z) = IZR z.
Proof.
  assert (Hp : 0 < 10 ^ digits) by (apply pow_lt; lra).
  unfold toFixed. destruct (Rlt_dec (IZR z) 0).
  - replace (- IZR z * 10 ^ digits) with (IZR (- z * 10 ^ Z.of_nat digits))
      by (rewrite mult_IZR, opp_IZR, <- pow_IZR; reflexivity).
    rewrite round_half_up_IZR, mult_IZR, opp_IZR, <- pow_IZR. simpl. field. lra.
  - replace (IZR z * 10 ^ digits) with (IZR (z * 10 ^ Z.of_nat digits))
      by (rewrite mult_IZR, <- pow_IZR; reflexivity).
    rewrite round_half_up_IZR, mult_IZR, <- pow_IZR. simpl. field. lra.
Qed.

Lemma toFixed_le (digits : nat) (x y : R) :
  x <= y -> toFixed digits x <= toFixed digits y.
Proof.
  intros Hxy.
  assert (Hp : 0 < 10 ^ digits) by (apply pow_lt; lra).
  assert (Hi : 0 < / 10 ^ digits) by (apply Rinv_0_lt_compat; exact Hp).
  assert (Hnonneg : forall t, 0 <= t -> 0 <= IZR (round_half_up (t * 10 ^ digits))).
  { intros t Ht. apply IZR_le.
    rewrite <- (round_half_up_IZR 0). apply round_half_up_le.
    apply Rmult_le_pos; lra. }
  unfold toFixed.
  destruct (Rlt_dec x 0) as [Hx|Hx], (Rlt_dec y 0) as [Hy|Hy]; try lra.
  - assert (H : IZR (round_half_up (- y * 10 ^ digits))
                <= IZR (round_half_up (- x * 10 ^ digits))).
    { apply IZR_le, round_half_up_le. apply Rmult_le_compat_r; lra. }
    unfold Rdiv. apply Ropp_le_contravar. apply Rmult_le_compat_r; lra.
  - assert (H1 : 0 <= IZR (round_half_up (- x * 10 ^ digits)))
      by (apply Hnonneg; lra).
    assert (H2 : 0 <= IZR (round_half_up (y * 10 ^ digits)))
      by (apply Hnonneg; lra).
    unfold Rdiv.
    assert (0 <= IZR (round_half_up (- x * 10 ^ digits)) * / 10 ^ digits)
      by (apply Rmult_le_pos; lra).
    assert (0 <= IZR (round_half_up (y * 10 ^ digits)) * / 10 ^ digits)
      by (apply Rmult_le_pos; lra).
    lra.
  - assert (H : IZR (round_half_up (x * 10 ^ digits))
                <= IZR (round_half_up (y * 10 ^ digits))).
    { apply IZR_le, round_half_up_le. apply Rmult_le_compat_r; lra. }
    unfold Rdiv. apply Rmult_le_compat_r; lra.
Qed.



End RoundingFacts.

(** ** Confidence *)

Section ConfidenceFacts.
Open Scope R_scope.
Variable thresholds : ThresholdConfig R.

Let config := th_confidence thresholds.

Lemma ln2_pos : 0 < ln 2.
Proof. pose proof ln_lt_2. lra. Qed.

Lemma ln_le_mono (x y : R) : 0 < x -> x <= y -> ln x <= ln y.
Proof.
  intros Hx [Hlt| ->]; [|lra]. left. now apply ln_increasing.
Qed.

Lemma sampleSize_formula (n : R) :
  0 < n ->
  ConfidenceCalculator.calculateSampleSizeContribution n
  = ln (1 + Rmin 1 (n / 5)) / ln 2.
Proof.
  intros Hn. unfold ConfidenceCalculator.calculateSampleSizeContribution.
  destruct (Rle_dec n 0); [lra|reflexivity].
Qed.

Lemma sampleSize_mono (n m : R) :
  n <= m ->
  ConfidenceCalculator.calculateSampleSizeContribution n
  <= ConfidenceCalculator.calculateSampleSizeContribution m.
Proof.
  intros Hnm. pose proof ln2_pos as H2.
  unfold ConfidenceCalculator.calculateSampleSizeContribution.
  assert (Hr : forall t, 0 < t -> 0 <= ln (1 + Rmin 1 (t / 5)) / ln 2).
  { intros t Ht. apply Rmult_le_pos; [|left; now apply Rinv_0_lt_compat].
    rewrite <- ln_1. apply ln_le_mono; [lra|].
    assert (0 <= Rmin 1 (t / 5)) by (apply Rmin_glb; lra). lra. }
  destruct (Rle_dec n 0), (Rle_dec m 0); try lra.
  - apply Hr. lra.
  - apply Rmult_le_compat_r; [left; now apply Rinv_0_lt_compat|].
    assert (H0 : 0 <= Rmin 1 (n / 5)) by (apply Rmin_glb; lra).
    apply ln_le_mono; [lra|].
    apply Rplus_le_compat_l, Rle_min_compat_l. lra.
Qed.

Lemma sampleSize_saturated (n : R) :
  5 <= n -> ConfidenceCalculator.calculateSampleSizeContribution n = 1.
Proof.
  intros Hn. pose proof ln2_pos as H2.
  rewrite sampleSize_formula by lra.
  rewrite Rmin_left by lra. replace (1 + 1) with 2 by ring. field. lra.
Qed.

Lemma sampleSize_below (n : R) :
  0 < n < 5 -> 0 < ConfidenceCalculator.calculateSampleSizeContribution n < 1.
Proof.
  intros [Hn H5]. pose proof ln2_pos as H2.
  rewrite sampleSize_formula by lra.
  rewrite Rmin_right by lra.
  assert (Hlo : 0 < ln (1 + n / 5))
    by (rewrite <- ln_1; apply ln_increasing; lra).
  assert (Hhi : ln (1 + n / 5) < ln 2) by (apply ln_increasing; lra).
  split.
  - apply Rmult_lt_0_compat; [exact Hlo | now apply Rinv_0_lt_compat].
  - apply (Rmult_lt_reg_r (ln 2)); [exact H2|]. field_simplify; lra.
Qed.

(** the clamp *)
Lemma clamp_unit (x : R) : 0 <= Rmin 1 (Rmax 0 x) <= 1.
Proof.
  split; [apply Rmin_glb; [lra | apply Rmax_l] | apply Rmin_l].
Qed.


Lemma finalConfidence_antitone (consistency totalResults : R)
  (extras : option ConfidenceCalculator.AdditionalFactors) (outlierCount outlierCount' : R) :
  0 <= outlier_weight (factors config) ->
  outlierCount <= outlierCount' ->
  ConfidenceCalculator.finalConfidence config consistency outlierCount'
    totalResults extras
  <= ConfidenceCalculator.finalConfidence config consistency outlierCount
       totalResults extras.
Proof.
  intros Hw Hle. unfold ConfidenceCalculator.finalConfidence.
  apply Rle_min_compat_l, Rle_max_compat_l.
  apply Rplus_le_compat_r, Rplus_le_compat_r, Rplus_le_compat_l.
  apply Rmult_le_compat_r; [exact Hw|]. apply Rle_max_compat_l.
  destruct (Rlt_dec 0 totalResults) as [Hn|Hn]; [|lra].
  assert (0 < / totalResults) by now apply Rinv_0_lt_compat.
  unfold Rdiv. assert (outlierCount * / totalResults <= outlierCount' * / totalResults)
    by (apply Rmult_le_compat_r; lra).
  lra.
Qed.

(** the orchestrator's own [calculateConfidence], read over the reals *)
Lemma orchestrator_confidence_real (consistency outlierCount totalResults : R) :
  EvaluationOrchestrator.calculateConfidence thresholds consistency outlierCount
    totalResults
  = Rmin 1 (Rmax 0 (consistency * consistency_weight (factors config)
                    + Rmax 0 (1 - outlierCount / totalResults)
                      * outlier_weight (factors config)
                    + Rmin 1 (totalResults / 3)
                      * sample_size_weight (factors config))).
Proof.
  unfold EvaluationOrchestrator.calculateConfidence.
  rewrite !real_min, !real_max, real_one, real_zero, real_of_Z. reflexivity.
Qed.









End ConfidenceFacts.

(** C5.  With a non-negative outlier weight, and the consistency, the
    number of results and the secondary signals held fixed, the
    confidence [ConfidenceCalculator.calculateConfidence] returns does
    not increase when the outlier count does; nor does the confidence of
    the orchestrator's own [calculateConfidence], for a positive number
    of results. *)
Theorem confidence_non_increasing_in_outliers
  (thresholds : ThresholdConfig R) (consistency totalResults : R)
  (extras : option ConfidenceCalculator.AdditionalFactors)
  (outlierCount outlierCount' : R) :
  (0 <= outlier_weight (factors (th_confidence thresholds)))%R ->
  (outlierCount <= outlierCount')%R ->
  (ConfidenceCalculator.confidence
     (ConfidenceCalculator.calculateConfidence (th_confidence thresholds)
        consistency outlierCount' totalResults extras)
   <= ConfidenceCalculator.confidence
        (ConfidenceCalculator.calculateConfidence (th_confidence thresholds)
           consistency outlierCount totalResults extras))%R
  /\ ((0 < totalResults)%R ->
      (EvaluationOrchestrator.calculateConfidence thresholds consistency
         outlierCount' totalResults
       <= EvaluationOrchestrator.calculateConfidence thresholds consistency
            outlierCount totalResults)%R).
Proof.
  intros Hw Hle. split.
  - simpl. apply toFixed_le. now apply finalConfidence_antitone.
  - intros Hn. rewrite !orchestrator_confidence_real.
    apply Rle_min_compat_l, Rle_max_compat_l.
    apply Rplus_le_compat_r, Rplus_le_compat_l.
    apply Rmult_le_compat_r; [exact Hw|]. apply Rle_max_compat_l.
    assert (0 < / totalResults)%R by now apply Rinv_0_lt_compat.
    unfold Rdiv.
    assert (outlierCount * / totalResults <= outlierCount' * / totalResults)%R
      by (apply Rmult_le_compat_r; lra).
    lra.
Qed.

(** Five results at consistency 0.9: one outlier instead of none does
    not raise the confidence. *)
Lemma confidence_non_increasing_witness :
  (0 <= outlier_weight (factors (th_confidence RealSample.thresholds)))%R
  /\ (0 <= 1)%R
  /\ (ConfidenceCalculator.confidence
        (ConfidenceCalculator.calculateConfidence
           (th_confidence RealSample.thresholds) 0.9 1 5 None)
      <= ConfidenceCalculator.confidence
           (ConfidenceCalculator.calculateConfidence
              (th_confidence RealSample.thresholds) 0.9 0 5 None))%R.
Proof.
  assert (Hw : (0 <= outlier_weight (factors (th_confidence RealSample.thresholds)))%R)
    by (simpl; lra).
  assert (Hle : (0 <= 1)%R) by lra.
  split; [exact Hw|]. split; [exact Hle|].
  exact (proj1 (@confidence_non_increasing_in_outliers
                  RealSample.thresholds 0.9%R 5%R None 0%R 1%R Hw Hle)).
Defined.




(** C8.  For a positive number of results the sample-size component,
    before its weight, is log(1 + min(1, n/5)) / log 2; it is positive,
    never above 1, equal to 1 exactly from five results on, and never
    smaller for more results. *)
Theorem sample_size_component_saturates_at_five (n : R) :
  (0 < n)%R ->
  let component := ConfidenceCalculator.calculateSampleSizeContribution n in
  (component = ln (1 + Rmin 1 (n / 5)) / ln 2)%R
  /\ (0 < component <= 1)%R
  /\ (component = 1%R <-> (5 <= n)%R)
  /\ (forall m, (n <= m)%R ->
                (component <= ConfidenceCalculator.calculateSampleSizeContribution m)%R).
Proof.
  intros Hn component. subst component.
  split; [now apply sampleSize_formula|].
  destruct (Rle_dec 5 n) as [H5|H5].
  - rewrite (sampleSize_saturated H5).
    split; [lra|]. split; [tauto|].
    intros m Hm. rewrite sampleSize_saturated by lra. lra.
  - assert (Hb : (0 < n < 5)%R) by lra. apply sampleSize_below in Hb.
    split; [lra|]. split; [split; intros; lra|].
    intros m Hm. now apply sampleSize_mono.
Qed.

(** At five results the component is 1. *)
Lemma sample_size_component_witness :
  (0 < 5)%R
  /\ (ConfidenceCalculator.calculateSampleSizeContribution 5 = 1%R <-> (5 <= 5)%R).
Proof.
  assert (H5 : (0 < 5)%R) by lra.
  split; [exact H5|].
  exact (proj1 (proj2 (proj2 (sample_size_component_saturates_at_five H5)))).
Defined.

(** ** Consistency *)

(** C9, as stated, fails.  Of two providers one succeeded: the report is
    the insufficient-data one, with consistency 0, not the
    single-provider one with consistency 1. *)
Lemma single_provider_report_counterexample :
  length (filter (@success R) one_of_two) < 2
  /\ ConsistencyValidator.consistency
       (ConsistencyValidator.validateConsistency RealSample.consistency one_of_two)
     = 0%R
  /\ ConsistencyValidator.status
       (ConsistencyValidator.overall
          (ConsistencyValidator.details
             (ConsistencyValidator.validateConsistency RealSample.consistency one_of_two)))
     = ConsistencyValidator.INSUFFICIENT_DATA
  /\ ConsistencyValidator.consistency
       (ConsistencyValidator.validateConsistency RealSample.consistency one_of_two)
     <> 1%R.
Proof.
  assert (E : ConsistencyValidator.validateConsistency RealSample.consistency one_of_two
              = ConsistencyValidator.getInsufficientDataResult RealSample.consistency)
    by reflexivity.
  rewrite E. simpl. repeat split; try lia; lra.
Qed.

(** C9, amended.  When fewer than two of the results are successful,
    the validator returns one of two trivial reports, both without
    per-score analysis: for fewer than two results, successful or not,
    consistency 1 with the status SINGLE_PROVIDER; for two or more
    results, consistency 0, not consistent, with the status
    INSUFFICIENT_DATA.  The orchestrator's own check, which sees the
    successful results only, returns consistency 1. *)
Theorem too_few_successes_report
  (thresholds : ThresholdConfig R) (results : list (ProviderResult R)) :
  length (filter (@success R) results) < 2 ->
  let report :=
    ConsistencyValidator.validateConsistency (th_consistency thresholds) results in
  let flag :=
    ConsistencyValidator.status
      (ConsistencyValidator.overall (ConsistencyValidator.details report)) in
  ConsistencyValidator.scorewise (ConsistencyValidator.details report) = []
  /\ (length results < 2 ->
      ConsistencyValidator.consistency report = 1%R
      /\ ConsistencyValidator.isConsistent report = true
      /\ flag = ConsistencyValidator.SINGLE_PROVIDER)
  /\ (2 <= length results ->
      ConsistencyValidator.consistency report = 0%R
      /\ ConsistencyValidator.isConsistent report = false
      /\ flag = ConsistencyValidator.INSUFFICIENT_DATA)
  /\ EvaluationOrchestrator.validateConsistency (filter (@success R) results) = 1%R.
Proof.
  intros Hfew report flag. subst flag report.
  unfold ConsistencyValidator.validateConsistency,
    EvaluationOrchestrator.validateConsistency.
  replace (length (filter (@success R) results) <? 2) with true
    by (symmetry; apply Nat.ltb_lt; exact Hfew).
  destruct (Nat.ltb_spec (length results) 2) as [Hlt|Hge]; simpl.
  - repeat split; try lra; try lia; unfold Q2R; simpl; lra.
  - repeat split; try lra; try lia; unfold Q2R; simpl; lra.
Qed.

(** One success among two results. *)
Lemma too_few_successes_witness :
  length (filter (@success R) one_of_two) < 2
  /\ ConsistencyValidator.status
       (ConsistencyValidator.overall
          (ConsistencyValidator.details
             (ConsistencyValidator.validateConsistency
                (th_consistency RealSample.thresholds) one_of_two)))
     = ConsistencyValidator.INSUFFICIENT_DATA.
Proof.
  assert (Hfew : length (filter (@success R) one_of_two) < 2) by (simpl; lia).
  split; [exact Hfew|].
  apply (too_few_successes_report RealSample.thresholds one_of_two Hfew).
  simpl; lia.
Defined.

Section ConsistencyFacts.
Import ConsistencyValidator.
Open Scope R_scope.

(** the [reduce] loops are sums *)
Lemma fold_left_sum (f : R -> R) (values : list R) (start : R) :
  fold_left (fun sum val => sum + f val) values start
  = start + total (map f values).
Proof.
  revert start; induction values as [|v values IH]; intros start; simpl.
  - ring.
  - rewrite IH. ring.
Qed.

Lemma meanOf_total (values : list R) :
  meanOf values = total values / INR (length values).
Proof.
  unfold meanOf, Rsum.
  change (fold_left Rplus values 0)
    with (fold_left (fun sum val => sum + (fun v => v) val) values 0).
  rewrite fold_left_sum, map_id. f_equal. ring.
Qed.

Lemma standardDeviationOf_population (values : list R) :
  standardDeviationOf values = populationStdDev values.
Proof.
  unfold standardDeviationOf, populationStdDev, varianceOf.
  rewrite (fold_left_sum (fun v => (v - meanOf values) ^ 2) values 0).
  rewrite meanOf_total. f_equal. f_equal. ring.
Qed.

Lemma real_numbers_In (l : list (option R)) (v : R) :
  In v (numbers l) <-> In (Some v) l.
Proof. rewrite numbers_In. simpl. tauto. Qed.

Lemma extractScoreKeys_In (key : string) (results : list (ProviderResult R)) :
  In key (extractScoreKeys results)
  <-> exists result,
        In result results /\ success result = true
        /\ In key (map fst (scores result)).
Proof.
  unfold extractScoreKeys.
  assert (G : forall s,
    In key (fold_left (fun s result =>
                         if success result
                         then fold_left (fun s k => set_add k s) (keys (scores result)) s
                         else s)
                      results s)
    <-> (exists result, In result results /\ success result = true
                        /\ In key (map fst (scores result)))
        \/ In key s).
  { induction results as [|r results IH]; intros s; simpl.
    - split; [tauto|]. intros [(r & [] & _)|Hin]; exact Hin.
    - rewrite IH. destruct (success r) eqn:E.
      + rewrite fold_set_add_In, keys_In. split.
        * intros [(r' & Hin & Hs & Hk)|[Hk|Hs]]; eauto 6.
        * intros [(r' & [->|Hin] & Hs & Hk)|Hs]; eauto 6.
      + split.
        * intros [(r' & Hin & Hs & Hk)|Hs]; eauto 6.
        * intros [(r' & [->|Hin] & Hs & Hk)|Hs]; eauto 6. congruence. }
  rewrite G; simpl. tauto.
Qed.

Lemma extractScoreValues_In (results : list (ProviderResult R)) (key : string) (v : R) :
  In v (extractScoreValues results key)
  <-> exists result,
        In result results /\ success result = true
        /\ lookup key (scores result) = Some v.
Proof.
  unfold extractScoreValues. rewrite real_numbers_In, in_map_iff. split.
  - intros (r & Hl & Hin). apply filter_In in Hin. destruct Hin as [Hin Hc].
    apply andb_true_iff in Hc. exists r. tauto.
  - intros (r & Hin & Hs & Hl). exists r. split; [exact Hl|].
    apply filter_In. split; [exact Hin|]. now rewrite Hs, Hl.
Qed.

(** reading the object [analyzeScorewiseConsistency] builds *)
Lemma analysis_lookup (results : list (ProviderResult R)) (key : string) :
  (2 <= length (extractScoreValues results key))%nat ->
  lookup key (analyzeScorewiseConsistency results)
  = Some (calculateScoreConsistency (extractScoreValues results key) key).
Proof.
  intros Hlen. unfold analyzeScorewiseConsistency.
  rewrite (flat_map_ext _
    (fun k => match (if (2 <=? length (extractScoreValues results k))%nat
                     then Some (calculateScoreConsistency
                                  (extractScoreValues results k) k)
                     else None) with
              | Some v => [(k, v)]
              | None => []
              end)).
  2: { intros k. now destruct (2 <=? length (extractScoreValues results k))%nat. }
  rewrite (lookup_flat_map
             (fun k => if (2 <=? length (extractScoreValues results k))%nat
                       then Some (calculateScoreConsistency
                                    (extractScoreValues results k) k)
                       else None)).
  assert (Hk : In key (extractScoreKeys results)).
  { destruct (extractScoreValues results key) as [|v vs] eqn:E; [simpl in Hlen; lia|].
    assert (Hv : In v (extractScoreValues results key)) by (rewrite E; now left).
    apply extractScoreValues_In in Hv. destruct Hv as (r & Hr & Hs & Hl).
    apply extractScoreKeys_In. exists r. repeat split; auto.
    eapply lookup_Some_key; eassumption. }
  apply existsb_eqb_In in Hk. rewrite Hk.
  now replace (2 <=? length (extractScoreValues results key))%nat with true
    by (symmetry; apply Nat.leb_le; exact Hlen).
Qed.




End ConsistencyFacts.




(** * Further properties of the code *)

(** ** Sorted samples and their quantiles *)

Section QuantileFacts.
Open Scope R_scope.

Lemma sorted_nth_le (s : list R) :
  StronglySorted Rle s ->
  forall i j, (i <= j < length s)%nat -> nth i s 0 <= nth j s 0.
Proof.
  induction 1 as [|a s Hs IH Hall]; intros i j [Hij Hj]; simpl in Hj; [lia|].
  destruct j as [|j].
  - replace i with 0%nat by lia. lra.
  - destruct i as [|i]; simpl.
    + rewrite Forall_forall in Hall. apply Hall. apply nth_In. lia.
    + apply IH. lia.
Qed.

Lemma Int_part_range (t : R) : IZR (Int_part t) <= t < IZR (Int_part t) + 1.
Proof. destruct (base_Int_part t). lra. Qed.

Lemma Int_part_nonneg (t : R) : 0 <= t -> (0 <= Int_part t)%Z.
Proof.
  intros Ht. assert (E : 0%Z = Int_part 0) by (apply Int_part_spec; lra).
  rewrite E. now apply Int_part_le.
Qed.

(** the value at a real rank position, between two neighbours *)
Definition interpolate (s : list R) (t : R) : R :=
  let below := Z.to_nat (Int_part t) in
  nth below s 0 + (t - IZR (Int_part t)) * (nth (S below) s 0 - nth below s 0).

Lemma interpolatedQuantile_interpolate (s : list R) (p : R) :
  interpolatedQuantile s p = interpolate s ((INR (length s) - 1) * p).
Proof. reflexivity. Qed.

(** a position within the sample: its floor is an index, and either the
    next index is one too, or the position is the last index itself *)
Lemma position_cases (s : list R) (t : R) :
  0 <= t <= INR (length s) - 1 ->
  let k := Z.to_nat (Int_part t) in
  IZR (Int_part t) = INR k
  /\ (k < length s)%nat
  /\ ((S k < length s)%nat \/ t = INR k).
Proof.
  intros [H0 Hn] k. pose proof (Int_part_range t) as [Hlo Hhi].
  pose proof (Int_part_nonneg H0) as Hz.
  assert (Hk : IZR (Int_part t) = INR k).
  { unfold k. rewrite INR_IZR_INZ, Z2Nat.id by exact Hz. reflexivity. }
  split; [exact Hk|]. rewrite Hk in Hlo, Hhi.
  assert (Hlt : (k < length s)%nat).
  { apply INR_lt. lra. }
  split; [exact Hlt|].
  destruct (Nat.eq_dec (S k) (length s)) as [E|E]; [right|left; lia].
  rewrite <- E, S_INR in Hn. lra.
Qed.

Lemma interpolate_between (s : list R) (t : R) :
  StronglySorted Rle s ->
  0 <= t <= INR (length s) - 1 ->
  let k := Z.to_nat (Int_part t) in
  nth k s 0 <= interpolate s t
  /\ ((S k < length s)%nat -> interpolate s t <= nth (S k) s 0).
Proof.
  intros Hs Ht k. destruct (position_cases s Ht) as (Hk & Hlt & Hnext).
  fold k in Hk, Hlt, Hnext. pose proof (Int_part_range t) as [Hlo Hhi].
  unfold interpolate. fold k. rewrite Hk in *.
  set (f := t - INR k). assert (Hf : 0 <= f < 1) by (unfold f; lra).
  destruct Hnext as [Hnext|Hlast].
  - assert (Hd : nth k s 0 <= nth (S k) s 0) by (apply sorted_nth_le; [exact Hs|lia]).
    assert (0 <= f * (nth (S k) s 0 - nth k s 0)) by (apply Rmult_le_pos; lra).
    assert (f * (nth (S k) s 0 - nth k s 0) <= 1 * (nth (S k) s 0 - nth k s 0))
      by (apply Rmult_le_compat_r; lra).
    split; [lra|intros _; lra].
  - assert (E : f = 0) by (unfold f; lra). rewrite E.
    split; [lra|intros Hn].
    assert (Hd : nth k s 0 <= nth (S k) s 0) by (apply sorted_nth_le; [exact Hs|lia]).
    lra.
Qed.

Lemma interpolate_mono (s : list R) (t u : R) :
  StronglySorted Rle s ->
  0 <= t -> t <= u -> u <= INR (length s) - 1 ->
  interpolate s t <= interpolate s u.
Proof.
  intros Hs H0 Htu Hn.
  assert (Ht : 0 <= t <= INR (length s) - 1) by lra.
  assert (Hu : 0 <= u <= INR (length s) - 1) by lra.
  destruct (position_cases s Ht) as (Hkt & Hlt & Hnt).
  destruct (position_cases s Hu) as (Hku & Hlu & Hnu).
  destruct (interpolate_between Hs Ht) as [Ht1 Ht2].
  destruct (interpolate_between Hs Hu) as [Hu1 Hu2].
  set (a := Z.to_nat (Int_part t)) in *. set (b := Z.to_nat (Int_part u)) in *.
  pose proof (Int_part_range t) as [Hta Htb].
  pose proof (Int_part_range u) as [Hua Hub].
  rewrite Hkt in Hta, Htb. rewrite Hku in Hua, Hub.
  assert (Hab' : (a < S b)%nat) by (apply INR_lt; rewrite S_INR; lra).
  assert (Hab : (a <= b)%nat) by lia.
  destruct (Nat.eq_dec a b) as [E|E].
  - unfold interpolate. fold a b. rewrite Hkt, Hku, <- E.
    destruct Hnt as [Hnext|Hlast].
    + assert (Hd : nth a s 0 <= nth (S a) s 0)
        by (apply sorted_nth_le; [exact Hs|lia]).
      assert ((t - INR a) * (nth (S a) s 0 - nth a s 0)
              <= (u - INR a) * (nth (S a) s 0 - nth a s 0))
        by (apply Rmult_le_compat_r; lra).
      lra.
    + rewrite <- E in Hub, Hua. destruct Hnu as [Hnext|Hlast'].
      * rewrite <- E in Hnext.
        assert (Hd : nth a s 0 <= nth (S a) s 0)
          by (apply sorted_nth_le; [exact Hs|lia]).
        assert ((t - INR a) * (nth (S a) s 0 - nth a s 0)
                <= (u - INR a) * (nth (S a) s 0 - nth a s 0))
          by (apply Rmult_le_compat_r; lra).
        lra.
      * rewrite <- E in Hlast'. replace u with t by lra. lra.
  - assert (Hsa : (S a < length s)%nat) by lia.
    specialize (Ht2 Hsa).
    assert (Hmid : nth (S a) s 0 <= nth b s 0)
      by (apply sorted_nth_le; [exact Hs|lia]).
    lra.
Qed.

End QuantileFacts.

(** ** The detector on real samples *)

Section DetectorOnReals.
Import OutlierDetector.
Open Scope R_scope.

(** what [detectOutliers] computes on a sample large enough *)
Lemma real_detectOutliers (config : Config R) (values : list R) :
  values <> [] ->
  (min_samples config <= length values)%nat ->
  let result := detectOutliers config values in
  let stats := statistics result in
  let n := INR (length values) in
  q1 stats = interpolate (sort values) ((n - 1) * 0.25)
  /\ q3 stats = interpolate (sort values) ((n - 1) * 0.75)
  /\ iqr stats = q3 stats - q1 stats
  /\ lowerBound stats = q1 stats - multiplier config * iqr stats
  /\ upperBound stats = q3 stats + multiplier config * iqr stats
  /\ outliers result
     = filter (isOutlier (lowerBound stats) (upperBound stats)) values
  /\ filteredValues result
     = filter (fun v => negb (isOutlier (lowerBound stats) (upperBound stats) v)) values
  /\ (forall i v, nth_error values i = Some v ->
                  In i (outlierIndices result)
                  <-> isOutlier (lowerBound stats) (upperBound stats) v = true).
Proof.
  intros Hne Hmin. unfold detectOutliers.
  replace (length values <? min_samples config)%nat with false
    by (symmetry; apply Nat.ltb_ge; exact Hmin).
  assert (Hsne : sort values <> []).
  { intros E. apply Hne. apply Permutation_nil. rewrite <- E. apply sort_perm. }
  unfold analyse.
  rewrite !real_calculateQuartile by (auto; discriminate).
  rewrite !interpolatedQuantile_interpolate.
  rewrite (Permutation_length (sort_perm values)).
  replace (Q2R 0.25) with 0.25 by (unfold Q2R; simpl; lra).
  replace (Q2R 0.75) with 0.75 by (unfold Q2R; simpl; lra).
  set (Q1 := interpolate (sort values) _).
  set (Q3 := interpolate (sort values) _).
  set (lo := (Q1 - multiplier config * (Q3 - Q1))%num).
  set (hi := (Q3 + multiplier config * (Q3 - Q1))%num).
  pose proof (classify_filter lo hi 0 values) as Hf.
  pose proof (classify_index_iff lo hi values 0) as Hi.
  destruct (classify lo hi 0 values) as [[os ois] fs].
  destruct Hf as [-> ->]. simpl in Hi. simpl.
  repeat (split; [reflexivity|]). exact Hi.
Qed.

Lemma quartile_positions (values : list R) :
  values <> [] ->
  let n := INR (length values) in
  0 <= (n - 1) * 0.25 /\ (n - 1) * 0.25 <= (n - 1) * 0.75
  /\ (n - 1) * 0.75 <= INR (length (sort values)) - 1.
Proof.
  intros Hne n. rewrite (Permutation_length (sort_perm values)). fold n.
  assert (1 <= n).
  { unfold n. destruct values; [congruence|]. rewrite length_cons, S_INR.
    pose proof (pos_INR (length values)). lra. }
  lra.
Qed.

(** the quartiles are in order and within the bounds *)
Lemma real_quartiles_ordered (config : Config R) (values : list R) :
  values <> [] ->
  (min_samples config <= length values)%nat ->
  0 <= multiplier config ->
  let stats := statistics (detectOutliers config values) in
  0 <= iqr stats
  /\ lowerBound stats <= q1 stats
  /\ q1 stats <= q3 stats
  /\ q3 stats <= upperBound stats.
Proof.
  intros Hne Hmin Hk stats.
  destruct (real_detectOutliers config Hne Hmin) as (H1 & H3 & Hi & Hl & Hu & _).
  fold stats in H1, H3, Hi, Hl, Hu.
  destruct (quartile_positions Hne) as (P0 & P1 & P2).
  assert (Hq : q1 stats <= q3 stats).
  { rewrite H1, H3. apply interpolate_mono; auto. apply sort_sorted. }
  assert (Hiqr : 0 <= iqr stats) by (rewrite Hi; lra).
  assert (0 <= multiplier config * iqr stats) by (apply Rmult_le_pos; lra).
  repeat split; lra.
Qed.

Lemma real_not_outlier (lo hi v : R) :
  isOutlier lo hi v = false <-> lo <= v <= hi.
Proof.
  pose proof (real_isOutlier lo hi v) as Ho.
  destruct (isOutlier lo hi v); split; intros Hb.
  - discriminate.
  - assert (v < lo \/ hi < v) by (apply Ho; reflexivity). lra.
  - destruct (Rle_dec lo v), (Rle_dec v hi); try lra;
      exfalso; assert (false = true) by (apply Ho; lra); discriminate.
  - reflexivity.
Qed.

Lemma Int_part_succ (t : R) : Int_part (t + 1) = (Int_part t + 1)%Z.
Proof.
  symmetry. apply Int_part_spec. pose proof (Int_part_range t).
  rewrite plus_IZR. lra.
Qed.

(** among three or more values there is one between the quartiles *)
Lemma value_between_quartiles (values : list R) :
  (3 <= length values)%nat ->
  let n := INR (length values) in
  exists v, In v values
            /\ interpolate (sort values) ((n - 1) * 0.25) <= v
            /\ v <= interpolate (sort values) ((n - 1) * 0.75).
Proof.
  intros H3 n.
  assert (Hne : values <> []) by (intros ->; simpl in H3; lia).
  destruct (quartile_positions Hne) as (P0 & P1 & P2). fold n in P0, P1, P2.
  pose proof (sort_sorted values) as Hs.
  set (s := sort values) in *.
  set (t := (n - 1) * 0.25) in *. set (u := (n - 1) * 0.75) in *.
  assert (Hn3 : 3 <= n).
  { pose proof (le_INR 3 (length values) H3) as Hle. simpl in Hle. unfold n. lra. }
  assert (Ht : 0 <= t <= INR (length s) - 1) by lra.
  assert (Hu : 0 <= u <= INR (length s) - 1) by lra.
  destruct (position_cases s Ht) as (Hkt & Hlt & _).
  destruct (position_cases s Hu) as (Hku & Hlu & _).
  destruct (interpolate_between Hs Ht) as [_ Ht2].
  destruct (interpolate_between Hs Hu) as [Hu1 _].
  set (a := Z.to_nat (Int_part t)) in *. set (b := Z.to_nat (Int_part u)) in *.
  assert (Hab : (S a <= b)%nat).
  { assert (Hz : (Int_part t + 1 <= Int_part u)%Z).
    { rewrite <- Int_part_succ. apply Int_part_le. unfold t, u. lra. }
    apply INR_le. rewrite S_INR, <- Hkt, <- Hku, <- plus_IZR. now apply IZR_le. }
  exists (nth (S a) s 0). split; [|split].
  - apply (Permutation_in _ (sort_perm values)). fold s. apply nth_In. lia.
  - apply Ht2. lia.
  - apply Rle_trans with (nth b s 0); [|exact Hu1].
    apply sorted_nth_le; [exact Hs|lia].
Qed.

End DetectorOnReals.

(** X1.  For a real sample of three or more values, at least
    [min_samples] of them, and a multiplier that is not negative, the
    interquartile range is not negative, the bounds enclose the
    quartiles, and every value between the quartiles is kept: it is among
    the filtered values and not among the outliers.  (With two values
    the two interpolations use the same pair of elements with the
    weights exchanged, and binary64 rounding can put the first quartile
    above the third; from three values on the third quartile is
    interpolated between later elements than the first.) *)
Theorem detector_keeps_the_middle_half
  (config : OutlierDetector.Config R) (values : list R) :
  3 <= length values ->
  OutlierDetector.min_samples config <= length values ->
  (0 <= OutlierDetector.multiplier config)%R ->
  let result := OutlierDetector.detectOutliers config values in
  let stats := OutlierDetector.statistics result in
  (0 <= OutlierDetector.iqr stats)%R
  /\ (OutlierDetector.lowerBound stats <= OutlierDetector.q1 stats)%R
  /\ (OutlierDetector.q1 stats <= OutlierDetector.q3 stats)%R
  /\ (OutlierDetector.q3 stats <= OutlierDetector.upperBound stats)%R
  /\ (forall v, In v values ->
                (OutlierDetector.q1 stats <= v <= OutlierDetector.q3 stats)%R ->
                In v (OutlierDetector.filteredValues result)
                /\ ~ In v (OutlierDetector.outliers result)).
Proof.
  intros Hlen Hmin Hk result stats.
  assert (Hne : values <> []) by (intros ->; simpl in Hlen; lia).
  destruct (real_quartiles_ordered config Hne Hmin Hk) as (Hi & Hl & Hq & Hu).
  fold result stats in Hi, Hl, Hq, Hu.
  repeat (split; [assumption|]).
  intros v Hin Hv.
  destruct (real_detectOutliers config Hne Hmin) as (_ & _ & _ & _ & _ & Hos & Hfs & _).
  fold result stats in Hos, Hfs.
  assert (Hb : OutlierDetector.isOutlier (OutlierDetector.lowerBound stats)
                 (OutlierDetector.upperBound stats) v = false)
    by (apply real_not_outlier; lra).
  split.
  - rewrite Hfs. apply filter_In. split; [exact Hin|]. now rewrite Hb.
  - rewrite Hos. intros Ho. apply filter_In in Ho. destruct Ho as [_ Ho]. congruence.
Qed.

(** The values 1, 2, 3, 4 and 100 with the multiplier 1.5. *)
Lemma detector_keeps_the_middle_half_witness :
  3 <= length [1; 2; 3; 4; 100]%R
  /\ OutlierDetector.min_samples RealSample.detection <= length [1; 2; 3; 4; 100]%R
  /\ (0 <= OutlierDetector.multiplier RealSample.detection)%R
  /\ (0 <= OutlierDetector.iqr
             (OutlierDetector.statistics
                (OutlierDetector.detectOutliers RealSample.detection
                   [1; 2; 3; 4; 100]%R)))%R.
Proof.
  assert (H1 : 3 <= length [1; 2; 3; 4; 100]%R) by (simpl; lia).
  assert (H2 : OutlierDetector.min_samples RealSample.detection
               <= length [1; 2; 3; 4; 100]%R) by (simpl; lia).
  assert (H3 : (0 <= OutlierDetector.multiplier RealSample.detection)%R)
    by (simpl; lra).
  split; [exact H1|]. split; [exact H2|]. split; [exact H3|].
  exact (proj1 (@detector_keeps_the_middle_half RealSample.detection _ H1 H2 H3)).
Defined.

(** X2.  Of three or more real values the detector, with a multiplier
    that is not negative, never flags all: some value is kept, and the
    outliers are fewer than the values. *)
Theorem detector_never_flags_every_value
  (config : OutlierDetector.Config R) (values : list R) :
  3 <= length values ->
  OutlierDetector.min_samples config <= length values ->
  (0 <= OutlierDetector.multiplier config)%R ->
  let result := OutlierDetector.detectOutliers config values in
  OutlierDetector.filteredValues result <> []
  /\ length (OutlierDetector.outliers result) < length values.
Proof.
  intros H3 Hmin Hk result.
  assert (Hne : values <> []) by (intros ->; simpl in H3; lia).
  destruct (value_between_quartiles values H3) as (v & Hin & Hlo & Hhi).
  destruct (real_quartiles_ordered config Hne Hmin Hk) as (_ & Hl & _ & Hu).
  destruct (real_detectOutliers config Hne Hmin)
    as (H1 & H3' & _ & _ & _ & _ & Hfs & _).
  fold result in Hl, Hu, H1, H3', Hfs.
  rewrite <- H1 in Hlo. rewrite <- H3' in Hhi.
  assert (Hv : In v (OutlierDetector.filteredValues result)).
  { rewrite Hfs. apply filter_In. split; [exact Hin|].
    apply negb_true_iff, real_not_outlier. lra. }
  split.
  - intros E. rewrite E in Hv. exact Hv.
  - pose proof (detectOutliers_partition config values) as (Hlen & _).
    fold result in Hlen.
    destruct (OutlierDetector.filteredValues result); [contradiction|].
    simpl in Hlen. lia.
Qed.

(** Five values, one of them far off. *)
Lemma detector_never_flags_every_value_witness :
  3 <= length [1; 2; 3; 4; 100]%R
  /\ OutlierDetector.min_samples RealSample.detection <= length [1; 2; 3; 4; 100]%R
  /\ (0 <= OutlierDetector.multiplier RealSample.detection)%R
  /\ OutlierDetector.filteredValues
       (OutlierDetector.detectOutliers RealSample.detection [1; 2; 3; 4; 100]%R)
     <> [].
Proof.
  assert (H1 : 3 <= length [1; 2; 3; 4; 100]%R) by (simpl; lia).
  assert (H2 : OutlierDetector.min_samples RealSample.detection
               <= length [1; 2; 3; 4; 100]%R) by (simpl; lia).
  assert (H3 : (0 <= OutlierDetector.multiplier RealSample.detection)%R)
    by (simpl; lra).
  split; [exact H1|]. split; [exact H2|]. split; [exact H3|].
  exact (proj1 (detector_never_flags_every_value RealSample.detection
                  [1; 2; 3; 4; 100]%R H1 H2 H3)).
Defined.

Section DetectorMultiplier.
Import OutlierDetector.
Open Scope R_scope.

Lemma filter_all {A : Type} (f : A -> bool) (l : list A) :
  (forall x, In x l -> f x = true) -> filter f l = l.
Proof.
  induction l as [|x l IH]; intros Hall; simpl; [reflexivity|].
  rewrite (Hall x) by now left. f_equal. apply IH. intros y Hy. apply Hall. now right.
Qed.

Lemma filter_none {A : Type} (f : A -> bool) (l : list A) :
  (forall x, In x l -> f x = false) -> filter f l = [].
Proof.
  induction l as [|x l IH]; intros Hall; simpl; [reflexivity|].
  rewrite (Hall x) by now left. apply IH. intros y Hy. apply Hall. now right.
Qed.

Lemma detectOutliers_too_few (config : Config R) (values : list R) :
  (length values < min_samples config)%nat ->
  detectOutliers config values = emptyResult values.
Proof.
  intros Hlt. unfold detectOutliers.
  now replace (length values <? min_samples config)%nat with true
    by (symmetry; apply Nat.ltb_lt; exact Hlt).
Qed.

Lemma Int_part_half : Int_part 0.5 = 0%Z.
Proof. symmetry. apply Int_part_spec. lra. Qed.

Lemma Int_part_one_and_half : Int_part 1.5 = 1%Z.
Proof. symmetry. apply Int_part_spec. lra. Qed.

End DetectorMultiplier.

(** the bounds under a larger multiplier enclose the bounds under a
    smaller one *)
Lemma lenient_detector_flags_no_more
  (config : OutlierDetector.Config R) (k' : R) (values : list R) :
  (0 <= OutlierDetector.multiplier config <= k')%R ->
  let lenient :=
    {| OutlierDetector.multiplier := k';
       OutlierDetector.min_samples := OutlierDetector.min_samples config |} in
  incl (OutlierDetector.outlierIndices (OutlierDetector.detectOutliers lenient values))
       (OutlierDetector.outlierIndices (OutlierDetector.detectOutliers config values))
  /\ incl (OutlierDetector.outliers (OutlierDetector.detectOutliers lenient values))
          (OutlierDetector.outliers (OutlierDetector.detectOutliers config values)).
Proof.
  intros [Hk Hkk] lenient.
  destruct (Nat.lt_ge_cases (length values) (OutlierDetector.min_samples config))
    as [Hfew|Hmin].
  { rewrite !detectOutliers_too_few by exact Hfew. simpl. split; apply incl_refl. }
  destruct values as [|x values'] eqn:Ev.
  { unfold OutlierDetector.detectOutliers, OutlierDetector.analyse; simpl.
    destruct (0 <? OutlierDetector.min_samples config); simpl; split; apply incl_refl. }
  rewrite <- Ev in *. assert (Hne : values <> []) by (rewrite Ev; discriminate).
  clear Ev x values'.
  assert (Hmin' : OutlierDetector.min_samples lenient <= length values) by exact Hmin.
  assert (Hk' : (0 <= OutlierDetector.multiplier lenient)%R) by (simpl; lra).
  destruct (real_detectOutliers config Hne Hmin)
    as (H1 & H3 & Hi & Hl & Hu & Hos & _ & Hix).
  destruct (real_detectOutliers lenient Hne Hmin')
    as (H1' & H3' & Hi' & Hl' & Hu' & Hos' & _ & Hix').
  destruct (real_quartiles_ordered config Hne Hmin Hk) as (Hiqr & _).
  set (r := OutlierDetector.detectOutliers config values) in *.
  set (r' := OutlierDetector.detectOutliers lenient values) in *.
  set (st := OutlierDetector.statistics r) in *.
  set (st' := OutlierDetector.statistics r') in *.
  assert (Eq1 : OutlierDetector.q1 st' = OutlierDetector.q1 st) by congruence.
  assert (Eq3 : OutlierDetector.q3 st' = OutlierDetector.q3 st) by congruence.
  assert (Eiqr : OutlierDetector.iqr st' = OutlierDetector.iqr st) by congruence.
  assert (Hprod : (OutlierDetector.multiplier config * OutlierDetector.iqr st
                   <= k' * OutlierDetector.iqr st)%R)
    by (apply Rmult_le_compat_r; lra).
  assert (Hlo : (OutlierDetector.lowerBound st' <= OutlierDetector.lowerBound st)%R).
  { rewrite Hl, Hl', Eq1, Eiqr. simpl. lra. }
  assert (Hhi : (OutlierDetector.upperBound st <= OutlierDetector.upperBound st')%R).
  { rewrite Hu, Hu', Eq3, Eiqr. simpl. lra. }
  assert (Himp : forall v,
    OutlierDetector.isOutlier (OutlierDetector.lowerBound st')
      (OutlierDetector.upperBound st') v = true ->
    OutlierDetector.isOutlier (OutlierDetector.lowerBound st)
      (OutlierDetector.upperBound st) v = true).
  { intros v Hv. apply real_isOutlier in Hv. apply real_isOutlier. lra. }
  split.
  - intros i Hin.
    pose proof (detectOutliers_partition lenient values) as (_ & _ & _ & _ & Hrange).
    fold r' in Hrange. rewrite Forall_forall in Hrange. specialize (Hrange i Hin).
    destruct (nth_error values i) as [v|] eqn:Ei;
      [|apply nth_error_None in Ei; lia].
    apply (Hix i v Ei). apply Himp. now apply (Hix' i v Ei).
  - intros v Hin. rewrite Hos' in Hin. rewrite Hos.
    apply filter_In in Hin. apply filter_In. split; [tauto|]. apply Himp. tauto.
Qed.

(** X3.  A larger multiplier flags no more: with the same [min_samples]
    and multipliers 0 <= k <= k', every position and every value the
    detector flags under k' it flags under k as well. *)
Theorem larger_multiplier_flags_no_more
  (config : OutlierDetector.Config R) (k' : R) (values : list R) :
  (0 <= OutlierDetector.multiplier config <= k')%R ->
  let lenient :=
    {| OutlierDetector.multiplier := k';
       OutlierDetector.min_samples := OutlierDetector.min_samples config |} in
  incl (OutlierDetector.outlierIndices (OutlierDetector.detectOutliers lenient values))
       (OutlierDetector.outlierIndices (OutlierDetector.detectOutliers config values))
  /\ incl (OutlierDetector.outliers (OutlierDetector.detectOutliers lenient values))
          (OutlierDetector.outliers (OutlierDetector.detectOutliers config values)).
Proof. apply lenient_detector_flags_no_more. Qed.

(** The multipliers 1.5 and 3 on five values. *)
Lemma larger_multiplier_flags_no_more_witness :
  (0 <= OutlierDetector.multiplier RealSample.detection <= 3)%R
  /\ incl (OutlierDetector.outliers
             (OutlierDetector.detectOutliers
                {| OutlierDetector.multiplier := 3%R;
                   OutlierDetector.min_samples :=
                     OutlierDetector.min_samples RealSample.detection |}
                [1; 2; 3; 4; 100]%R))
          (OutlierDetector.outliers
             (OutlierDetector.detectOutliers RealSample.detection [1; 2; 3; 4; 100]%R)).
Proof.
  assert (Hk : (0 <= OutlierDetector.multiplier RealSample.detection <= 3)%R)
    by (simpl; lra).
  split; [exact Hk|].
  exact (proj2 (larger_multiplier_flags_no_more RealSample.detection
                  [1; 2; 3; 4; 100]%R Hk)).
Defined.

(** ** Score consolidation on real values *)

Section ConsolidationOnReals.
Import EvaluationOrchestrator.
Open Scope R_scope.

Lemma real_sum (l : list R) : sum l = total l.
Proof.
  unfold sum. rewrite real_zero.
  change (fold_left (fun s v => (s + v)%num) l 0)
    with (fold_left (fun s v => s + (fun x => x) v) l 0).
  rewrite fold_left_sum, map_id. ring.
Qed.

Lemma total_perm (l l' : list R) : Permutation l l' -> total l = total l'.
Proof.
  induction 1; simpl; lra || congruence.
Qed.

Lemma real_of_nat (n : nat) : of_nat n = INR n.
Proof. unfold of_nat. now rewrite real_of_Z, INR_IZR_INZ. Qed.

Lemma total_bounds (l : list R) (a b : R) :
  (forall v, In v l -> a <= v <= b) ->
  INR (length l) * a <= total l <= INR (length l) * b.
Proof.
  induction l as [|x l IH]; intros Hall.
  - simpl. lra.
  - rewrite length_cons, S_INR. simpl total.
    assert (a <= x <= b) by (apply Hall; now left).
    assert (INR (length l) * a <= total l <= INR (length l) * b)
      by (apply IH; intros v Hv; apply Hall; now right).
    lra.
Qed.

(** the mean of a non-empty sample lies where the sample does *)
Lemma mean_bounds (l : list R) (a b : R) :
  l <> [] ->
  (forall v, In v l -> a <= v <= b) ->
  a <= total l / INR (length l) <= b.
Proof.
  intros Hne Hall. pose proof (total_bounds l Hall) as [Hlo Hhi].
  assert (Hn : 0 < INR (length l)).
  { destruct l; [congruence|]. rewrite length_cons, S_INR.
    pose proof (pos_INR (length l)). lra. }
  split.
  - apply Rmult_le_reg_r with (INR (length l)); [exact Hn|].
    unfold Rdiv. rewrite Rmult_assoc, Rinv_l by lra. lra.
  - apply Rmult_le_reg_r with (INR (length l)); [exact Hn|].
    unfold Rdiv. rewrite Rmult_assoc, Rinv_l by lra. lra.
Qed.

Lemma floor_mul_quarter (n : nat) : floor_mul n 0.25 = Z.of_nat (n / 4).
Proof.
  rewrite (Nat2Z.inj_div n 4).
  unfold floor_mul, Qfloor, Qmult, inject_Z; simpl.
  rewrite Z.mul_comm. change 100%Z with (25 * 4)%Z.
  rewrite Z.div_mul_cancel_l by lia. reflexivity.
Qed.

Lemma floor_mul_three_quarters (n : nat) :
  floor_mul n 0.75 = Z.of_nat (3 * n / 4).
Proof.
  rewrite (Nat2Z.inj_div (3 * n) 4), Nat2Z.inj_mul.
  unfold floor_mul, Qfloor, Qmult, inject_Z; simpl Qnum; simpl Qden.
  change (Z.of_nat 3) with 3%Z. change (Z.of_nat 4) with 4%Z.
  replace (Z.of_nat n * 75)%Z with (25 * (3 * Z.of_nat n))%Z by lia.
  change (Z.pos (1 * 100)) with (25 * 4)%Z.
  rewrite Z.div_mul_cancel_l by lia. reflexivity.
Qed.

Lemma real_inBounds (lo hi v : R) :
  inBounds lo hi v = true <-> lo <= v <= hi.
Proof.
  unfold inBounds. rewrite andb_true_iff; simpl. unfold leb.
  destruct (Rle_dec lo v), (Rle_dec v hi); split; intros; try tauto; try lra;
    destruct H; discriminate.
Qed.

(** the element at the first-quartile index is within the bounds *)
Lemma inliers_nonempty (values : list R) :
  StronglySorted Rle values -> values <> [] -> inliers values <> [].
Proof.
  intros Hs Hne. unfold inliers.
  rewrite floor_mul_quarter, floor_mul_three_quarters, !aget_nth.
  set (n := length values).
  assert (Hn : (0 < n)%nat) by (unfold n; destruct values; [congruence|simpl; lia]).
  assert (H1 : (n / 4 <= 3 * n / 4)%nat) by (apply Nat.Div0.div_le_mono; lia).
  assert (H3 : (3 * n / 4 < n)%nat) by (apply Nat.Div0.div_lt_upper_bound; lia).
  set (q1 := nth (n / 4) values NaN). set (q3 := nth (3 * n / 4) values NaN).
  assert (Hq : q1 <= q3) by (apply sorted_nth_le; [exact Hs|fold n; lia]).
  assert (Hin : In q1 values) by (apply nth_In; fold n; lia).
  intros E.
  assert (Hf : In q1 (filter (inBounds (q1 - of_Q 1.5 * (q3 - q1))%num
                                      (q3 + of_Q 1.5 * (q3 - q1))%num) values)).
  { apply filter_In. split; [exact Hin|]. apply real_inBounds. simpl.
    replace (Q2R 1.5) with 1.5 by (unfold Q2R; simpl; lra). lra. }
  rewrite E in Hf. exact Hf.
Qed.

Lemma real_sortedValues_sorted (results : list (ProviderResult R)) (key : string) :
  StronglySorted Rle (sortedValues results key).
Proof. apply sort_sorted. Qed.

(** what [consolidateValues] returns lies where the values do *)
Lemma consolidateValues_bounds (values : list R) (a b c : R) :
  StronglySorted Rle values ->
  (forall v, In v values -> a <= v <= b) ->
  consolidateValues values = Some c ->
  a <= c <= b.
Proof.
  intros Hs Hall. unfold consolidateValues.
  destruct values as [|x [|y [|z values]]]; simpl length.
  - discriminate.
  - simpl. intros E; injection E as <-. apply Hall. now left.
  - simpl. intros E; injection E as <-.
    assert (a <= x <= b) by (apply Hall; now left).
    assert (a <= y <= b) by (apply Hall; right; now left).
    rewrite Q2R_inject_Z. unfold aget; simpl. lra.
  - change (0 <? S (S (S (length values))))%nat with true.
    change (S (S (S (length values))) =? 1)%nat with false.
    change (S (S (S (length values))) =? 2)%nat with false.
    cbv iota. set (l := x :: y :: z :: values) in *.
    assert (Hne : inliers l <> []) by (apply inliers_nonempty; [exact Hs|discriminate]).
    destruct (inliers l) as [|w ws] eqn:Ein; [congruence|].
    change (0 <? length (w :: ws))%nat with true. cbv iota.
    intros E; injection E as <-.
    change (Q2R (inject_Z (Z.pos (Pos.of_succ_nat (length ws)))))
      with (@of_nat R _ (length (w :: ws))).
    rewrite real_sum, real_of_nat. apply mean_bounds; [discriminate|].
    intros v Hv. apply Hall. rewrite <- Ein in Hv. unfold inliers in Hv.
    apply filter_In in Hv. tauto.
Qed.

End ConsolidationOnReals.

Section ConsolidationKeys.
Context {num : Type} `{Number num}.
Import EvaluationOrchestrator.

Lemma consolidateValues_None (values : list num) :
  consolidateValues values = None <-> values = [].
Proof.
  unfold consolidateValues. destruct values as [|x values]; simpl; [tauto|].
  split; [|discriminate].
  destruct (length values =? 0); [discriminate|].
  destruct (length values =? 1); [discriminate|].
  destruct (0 <? length (inliers (x :: values))); discriminate.
Qed.

Lemma consolidateScores_lookup_any (results : list (ProviderResult num)) (key : string) :
  lookup key (consolidateScores results)
  = consolidateValues (sortedValues results key).
Proof.
  destruct (sortedValues results key) as [|v vs] eqn:E.
  - unfold consolidateScores.
    rewrite (lookup_flat_map (fun k => consolidateValues (sortedValues results k))).
    rewrite E. now destruct (existsb (String.eqb key) (scoreKeys results)).
  - rewrite <- E. apply consolidateScores_lookup. rewrite E. discriminate.
Qed.

End ConsolidationKeys.

(** X5.  A dimension is in the consolidated scores exactly when some
    result holds a number that is not NaN under its key; a dimension no
    provider reported is absent, not zero. *)
Theorem consolidated_exactly_the_reported_dimensions
  {num : Type} `{Number num} (results : list (ProviderResult num)) (key : string) :
  (exists score,
     lookup key (EvaluationOrchestrator.consolidateScores results) = Some score)
  <-> (exists result value,
         In result results
         /\ lookup key (scores result) = Some value
         /\ nisNaN value = false).
Proof.
  rewrite consolidateScores_lookup_any. split.
  - intros [score Hs].
    destruct (EvaluationOrchestrator.sortedValues results key) as [|v vs] eqn:E.
    + discriminate.
    + assert (Hv : In v (EvaluationOrchestrator.sortedValues results key))
        by (rewrite E; now left).
      apply sortedValues_In in Hv. destruct Hv as [(r & Hr & Hl) Hn]. eauto.
  - intros (r & v & Hr & Hl & Hn).
    assert (Hv : In v (EvaluationOrchestrator.sortedValues results key))
      by (apply sortedValues_In; eauto).
    destruct (EvaluationOrchestrator.consolidateValues
                (EvaluationOrchestrator.sortedValues results key)) as [c|] eqn:E.
    + eauto.
    + apply consolidateValues_None in E. rewrite E in Hv. contradiction.
Qed.

(** X6.  On real values the consolidation never reaches its fallback:
    of three or more values for a dimension, the one at the
    first-quartile index is always within the bounds, so the consolidated
    score is the mean of a non-empty set of inliers. *)
Theorem consolidated_score_is_mean_of_inliers
  (results : list (ProviderResult R)) (key : string) :
  let values := EvaluationOrchestrator.sortedValues results key in
  let kept := EvaluationOrchestrator.inliers values in
  3 <= length values ->
  kept <> []
  /\ incl kept values
  /\ lookup key (EvaluationOrchestrator.consolidateScores results)
     = Some (total kept / INR (length kept))%R.
Proof.
  intros values kept H3.
  assert (Hne : values <> []) by (intros E; rewrite E in H3; simpl in H3; lia).
  assert (Hk : kept <> [])
    by (apply inliers_nonempty; [apply real_sortedValues_sorted|exact Hne]).
  split; [exact Hk|]. split.
  - intros v Hv. unfold kept, EvaluationOrchestrator.inliers in Hv.
    apply filter_In in Hv. tauto.
  - rewrite consolidateScores_lookup_any. fold values.
    unfold EvaluationOrchestrator.consolidateValues. fold kept.
    replace (0 <? length values) with true by (symmetry; apply Nat.ltb_lt; lia).
    replace (length values =? 1) with false by (symmetry; apply Nat.eqb_neq; lia).
    replace (length values =? 2) with false by (symmetry; apply Nat.eqb_neq; lia).
    replace (0 <? length kept) with true
      by (symmetry; apply Nat.ltb_lt; destruct kept; [congruence|simpl; lia]).
    now rewrite real_sum, real_of_nat.
Qed.

(** The totals 4.6, 4.5 and 1.2. *)
Lemma consolidated_score_is_mean_of_inliers_witness :
  3 <= length (EvaluationOrchestrator.sortedValues three_totals "total_score")
  /\ EvaluationOrchestrator.inliers
       (EvaluationOrchestrator.sortedValues three_totals "total_score") <> [].
Proof.
  assert (H3 : 3 <= length (EvaluationOrchestrator.sortedValues
                              three_totals "total_score")).
  { unfold EvaluationOrchestrator.sortedValues.
    rewrite (Permutation_length (sort_perm _)). simpl. lia. }
  split; [exact H3|].
  exact (proj1 (consolidated_score_is_mean_of_inliers three_totals "total_score" H3)).
Defined.

Section ThreeResults.
Import EvaluationOrchestrator.
Open Scope R_scope.

Lemma numbers_length {num : Type} `{Number num} (l : list (option num)) :
  (length (numbers l) <= length l)%nat.
Proof.
  induction l as [|x l IH]; simpl; [lia|].
  destruct (numeric x); simpl; lia.
Qed.

Lemma outlierPositions_none (lo hi : R) (l : list R) (i : nat) :
  (forall v, In v l -> lo <= v <= hi) -> outlierPositions lo hi i l = [].
Proof.
  revert i; induction l as [|x l IH]; intros i Hall;
    cbn [outlierPositions]; [reflexivity|].
  assert (Hx : lo <= x <= hi) by (apply Hall; now left).
  assert (E : ((x <? lo)%num || (x >? hi)%num)%bool = false)
    by (apply orb_false_iff; split; apply real_ltb_false; lra).
  rewrite E. apply IH. intros v Hv. apply Hall. now right.
Qed.

(** a sorted sample of three, its index quartiles and its bounds *)
Lemma three_sorted (s : list R) (k : R) :
  StronglySorted Rle s -> length s = 3%nat -> 0 <= k ->
  let q1 := aget s (floor_mul (length s) 0.25) in
  let q3 := aget s (floor_mul (length s) 0.75) in
  forall v, In v s -> q1 - k * (q3 - q1) <= v <= q3 + k * (q3 - q1).
Proof.
  intros Hs Hlen Hk. rewrite floor_mul_quarter, floor_mul_three_quarters, !aget_nth.
  rewrite Hlen. change (3 / 4)%nat with 0%nat. change (3 * 3 / 4)%nat with 2%nat.
  destruct s as [|a [|b [|c [|d s]]]]; try discriminate. simpl.
  assert (Hab : a <= b) by (apply (@sorted_nth_le _ Hs 0%nat 1%nat); simpl; lia).
  assert (Hbc : b <= c) by (apply (@sorted_nth_le _ Hs 1%nat 2%nat); simpl; lia).
  assert (Hp : 0 <= k * (c - a)) by (apply Rmult_le_pos; lra).
  intros v [<-|[<-|[<-|[]]]]; lra.
Qed.

End ThreeResults.

(** X8.  Three real results are averaged as they are: with a multiplier
    that is not negative the orchestrator finds no outlier among three
    results, and a dimension with three values is consolidated to the
    mean of the three, whatever they are. *)
Theorem three_results_exclude_nothing
  (thresholds : ThresholdConfig R) (results : list (ProviderResult R)) :
  length results = 3 ->
  (0 <= OutlierDetector.multiplier (outlier_detection thresholds))%R ->
  EvaluationOrchestrator.detectOutliers thresholds results = []
  /\ (forall key,
        let values := EvaluationOrchestrator.sortedValues results key in
        length values = 3 ->
        EvaluationOrchestrator.inliers values = values
        /\ lookup key (EvaluationOrchestrator.consolidateScores results)
           = Some (total values / 3)%R).
Proof.
  intros Hlen Hk. split.
  - unfold EvaluationOrchestrator.detectOutliers. rewrite Hlen. simpl Nat.ltb.
    set (s := sort (numbers (map EvaluationOrchestrator.totalOf results))).
    destruct (Nat.ltb_spec (length s) 3) as [|H3]; [reflexivity|].
    assert (Hs3 : length s = 3).
    { pose proof (numbers_length (map EvaluationOrchestrator.totalOf results)) as Hn.
      rewrite length_map, Hlen in Hn. unfold s in *.
      rewrite (Permutation_length (sort_perm _)) in *. lia. }
    apply outlierPositions_none.
    apply (three_sorted (sort_sorted _) Hs3 Hk).
  - intros key values Hv.
    assert (Hin : EvaluationOrchestrator.inliers values = values).
    { unfold EvaluationOrchestrator.inliers. apply filter_all.
      intros v Hin. apply real_inBounds. simpl.
      assert (H15 : (0 <= Q2R 1.5)%R) by (unfold Q2R; simpl; lra).
      apply (three_sorted (real_sortedValues_sorted results key) Hv H15 v Hin). }
    split; [exact Hin|].
    rewrite consolidateScores_lookup_any. fold values.
    unfold EvaluationOrchestrator.consolidateValues. rewrite Hin, Hv. simpl.
    rewrite real_sum. change (Q2R (inject_Z 3)) with (@of_Z R _ 3).
    now rewrite real_of_Z.
Qed.

(** The totals 4.6, 4.5 and 1.2 once more. *)
Lemma three_results_exclude_nothing_witness :
  length three_totals = 3
  /\ (0 <= OutlierDetector.multiplier (outlier_detection RealSample.thresholds))%R
  /\ EvaluationOrchestrator.detectOutliers RealSample.thresholds three_totals = [].
Proof.
  assert (H3 : length three_totals = 3) by reflexivity.
  assert (Hk : (0 <= OutlierDetector.multiplier
                       (outlier_detection RealSample.thresholds))%R) by (simpl; lra).
  split; [exact H3|]. split; [exact Hk|].
  exact (proj1 (three_results_exclude_nothing RealSample.thresholds three_totals H3 Hk)).
Defined.

(** ** The orchestrator's consistency on real values *)

Section OrchestratorConsistency.
Import EvaluationOrchestrator.
Open Scope R_scope.

Lemma total_nonneg (l : list R) : (forall v, In v l -> 0 <= v) -> 0 <= total l.
Proof.
  induction l as [|x l IH]; intros Hall; simpl; [lra|].
  assert (0 <= x) by (apply Hall; now left).
  assert (0 <= total l) by (apply IH; intros v Hv; apply Hall; now right).
  lra.
Qed.

Lemma total_zero (l : list R) : (forall v, In v l -> v = 0) -> total l = 0.
Proof.
  induction l as [|x l IH]; intros Hall; simpl; [reflexivity|].
  rewrite (Hall x) by now left. rewrite IH; [lra|].
  intros v Hv. apply Hall. now right.
Qed.

Lemma total_constant (l : list R) (c : R) :
  (forall v, In v l -> v = c) -> total l = INR (length l) * c.
Proof.
  induction l as [|x l IH]; intros Hall.
  - simpl. lra.
  - rewrite length_cons, S_INR. simpl total.
    rewrite (Hall x) by now left. rewrite IH; [lra|].
    intros v Hv. apply Hall. now right.
Qed.

Lemma div_nonneg (x : R) (n : nat) : 0 <= x -> 0 <= x / INR n.
Proof.
  intros Hx. destruct n as [|n].
  - simpl. unfold Rdiv. rewrite Rinv_0. lra.
  - apply Rmult_le_pos; [exact Hx|]. left. apply Rinv_0_lt_compat.
    rewrite S_INR. pose proof (pos_INR n). lra.
Qed.

(** the variance of the orchestrator, as a sum *)
Lemma real_variance (values : list R) :
  variance values
  = total (map (fun v => (v - total values / INR (length values))
                         * (v - total values / INR (length values))) values)
    / INR (length values).
Proof.
  unfold variance. rewrite real_sum, real_of_nat, real_zero.
  set (m := total values / INR (length values)).
  change (fold_left (fun s val => (s + (val - m) * (val - m))%num) values 0)
    with (fold_left (fun s val => s + (fun v => (v - m) * (v - m)) val) values 0).
  rewrite fold_left_sum, Rplus_0_l. reflexivity.
Qed.

Lemma variance_nonneg (values : list R) : 0 <= variance values.
Proof.
  rewrite real_variance. apply div_nonneg. apply total_nonneg.
  intros v Hv. apply in_map_iff in Hv. destruct Hv as (x & <- & _).
  apply Rle_0_sqr.
Qed.

Lemma variance_constant (values : list R) (c : R) :
  values <> [] -> (forall v, In v values -> v = c) -> variance values = 0.
Proof.
  intros Hne Hall. rewrite real_variance.
  assert (Hn : 0 < INR (length values)).
  { destruct values; [congruence|]. rewrite length_cons, S_INR.
    pose proof (pos_INR (length values)). lra. }
  rewrite (total_constant values Hall).
  replace (INR (length values) * c / INR (length values)) with c by (field; lra).
  rewrite total_zero; [unfold Rdiv; ring|].
  intros v Hv. apply in_map_iff in Hv. destruct Hv as (x & <- & Hx).
  rewrite (Hall x Hx). ring.
Qed.

(** the running total of the loop over the score keys *)
Lemma variance_loop (P : R -> Prop) (results : list (ProviderResult R))
  (ks : list string) (t : R) (c : nat) :
  P t ->
  (forall a key v, P a -> keyVariance results key = Some v -> P (a + v)) ->
  P (fst (fold_left (fun '(t, c) key =>
                       match keyVariance results key with
                       | Some v => ((t + v)%num, S c)
                       | None => (t, c)
                       end) ks (t, c))).
Proof.
  intros Ht Hstep. revert t c Ht.
  induction ks as [|key ks IH]; intros t c Ht; simpl; [exact Ht|].
  destruct (keyVariance results key) as [v|] eqn:E.
  - apply IH. now apply (Hstep t key v).
  - now apply IH.
Qed.

Lemma real_consistency_score (averageVariance : R) :
  0 <= averageVariance ->
  0 <= Math_max zero (one - averageVariance / of_Z 2)%num <= 1.
Proof.
  intros Ha. rewrite real_max, real_zero, real_one, real_of_Z. simpl.
  split; [apply Rmax_l|]. apply Rmax_lub; lra.
Qed.

End OrchestratorConsistency.

(** X9.  On real scores the consistency the orchestrator computes lies
    in [0,1], and it is 1 when the providers are unanimous, that is when
    all the numbers reported under a key are the same, for every key. *)
Theorem orchestrator_consistency_in_unit_interval
  (results : list (ProviderResult R)) :
  (0 <= EvaluationOrchestrator.validateConsistency results <= 1)%R
  /\ ((forall key v w,
         In v (numbers (map (fun result => lookup key (scores result)) results)) ->
         In w (numbers (map (fun result => lookup key (scores result)) results)) ->
         v = w) ->
      EvaluationOrchestrator.validateConsistency results = 1%R).
Proof.
  unfold EvaluationOrchestrator.validateConsistency.
  destruct (length results <? 2).
  { simpl. replace (Q2R 1.0) with 1%R by (unfold Q2R; simpl; lra).
    split; [lra|reflexivity]. }
  split.
  - pose proof (variance_loop (fun t => (0 <= t)%R) results
                  (EvaluationOrchestrator.scoreKeys results) zero 0) as Hloop.
    destruct (fold_left _ (EvaluationOrchestrator.scoreKeys results) (zero, 0))
      as [totalVariance validComparisons].
    simpl fst in Hloop.
    assert (Ht : (0 <= totalVariance)%R).
    { apply Hloop; [rewrite real_zero; lra|].
      intros a key v Ha Hv. unfold EvaluationOrchestrator.keyVariance in Hv.
      destruct (2 <=? _); [|discriminate].
      pose proof (variance_nonneg
                    (numbers (map (fun result => lookup key (scores result)) results)))
        as Hvar.
      replace v
        with (EvaluationOrchestrator.variance
                (numbers (map (fun result => lookup key (scores result)) results)))
        by congruence.
      cbv beta in Ha |- *. lra. }
    apply real_consistency_score.
    destruct (0 <? validComparisons); [|rewrite real_zero; lra].
    rewrite real_of_nat. apply div_nonneg. exact Ht.
  - intros Hsame.
    pose proof (variance_loop (fun t => t = 0%R) results
                  (EvaluationOrchestrator.scoreKeys results) zero 0) as Hloop.
    destruct (fold_left _ (EvaluationOrchestrator.scoreKeys results) (zero, 0))
      as [totalVariance validComparisons].
    simpl fst in Hloop.
    assert (Ht : totalVariance = 0%R).
    { apply Hloop; [apply real_zero|].
      intros a key v Ha Hv. unfold EvaluationOrchestrator.keyVariance in Hv.
      remember (numbers (map (fun result => lookup key (scores result)) results))
        as values eqn:Ev.
      destruct (Nat.leb_spec 2 (length values)) as [H2|]; [|discriminate].
      replace v with (EvaluationOrchestrator.variance values) by congruence.
      cbv beta in Ha |- *.
      rewrite (@variance_constant values (hd 0%R values));
        [lra | intros E; rewrite E in H2; simpl in H2; lia |].
      intros w Hw. apply (Hsame key); rewrite <- Ev; [exact Hw|].
      destruct values; [simpl in H2; lia | now left]. }
    rewrite Ht, real_max, real_zero, real_one, real_of_Z.
    destruct (0 <? validComparisons).
    + rewrite real_of_nat. simpl. unfold Rdiv at 2. rewrite Rmult_0_l.
      rewrite Rmax_right; lra.
    + simpl. rewrite Rmax_right; lra.
Qed.

(** ** What the orchestrator takes from a provider *)

Section ExtractScores.
Context {num : Type} `{Number num}.
Import EvaluationOrchestrator.

(** what [if (value)] lets through *)
Definition keptValue (x : option num) : option num :=
  match x with
  | Some v => if truthy v then Some v else None
  | None => None
  end.

Lemma keptValue_Some (x : option num) (v : num) :
  keptValue x = Some v <-> x = Some v /\ truthy v = true.
Proof.
  unfold keptValue. destruct x as [w|]; [|split; [discriminate|intros [E _]; discriminate]].
  destruct (truthy w) eqn:E; split.
  - intros E'. injection E' as <-. auto.
  - intros [E' _]. exact E'.
  - discriminate.
  - intros [E' Ht]. injection E' as <-. congruence.
Qed.

Lemma extractSubtotal_In (name key : string) (section : option (ScoreDetail num))
  (v : num) :
  In (key, v) (extractSubtotal name section) -> key = name /\ truthy v = true.
Proof.
  unfold extractSubtotal. destruct section as [[s]|]; simpl; [|tauto].
  destruct (truthy s) eqn:E; simpl; [|tauto].
  intros [Heq|[]]. injection Heq as <- <-. auto.
Qed.

Lemma lookup_NoDup (o : Scores num) (key : string) (v : num) :
  NoDup (map fst o) -> In (key, v) o -> lookup key o = Some v.
Proof.
  induction o as [|[k w] o IH]; simpl; intros Hnd Hin; [contradiction|].
  inversion Hnd as [|? ? Hk Hnd']; subst.
  destruct Hin as [Heq|Hin].
  - injection Heq as -> ->. now rewrite String.eqb_refl.
  - destruct (String.eqb key k) eqn:E; [|now apply IH].
    apply String.eqb_eq in E; subst. exfalso. apply Hk.
    apply in_map_iff. exists (k, v). auto.
Qed.

Lemma lookup_member (o : Scores num) (key : string) (v : num) :
  lookup key o = Some v -> In (key, v) o.
Proof.
  induction o as [|[k w] o IH]; simpl; [discriminate|].
  destruct (String.eqb key k) eqn:E; [|auto].
  apply String.eqb_eq in E. intros E'. injection E' as <-. subst. now left.
Qed.

Lemma lookup_app (key : string) (a b : Scores num) :
  lookup key (a ++ b)
  = match lookup key a with Some v => Some v | None => lookup key b end.
Proof.
  induction a as [|[k w] a IH]; simpl; [reflexivity|].
  now destruct (String.eqb key k).
Qed.

Lemma or_else_truthy (x : option num) (d : num) :
  truthy d = true -> truthy (or_else x d) = true.
Proof.
  intros Hd. unfold or_else. destruct x as [v|]; [|exact Hd].
  destruct (truthy v) eqn:E; [exact E|exact Hd].
Qed.

Lemma or_else_missing (x : option num) (d : num) :
  x = None -> or_else x d = d.
Proof. now intros ->. Qed.

Lemma lookup_extractSubtotal (key name : string) (section : option (ScoreDetail num)) :
  lookup key (extractSubtotal name section)
  = if String.eqb key name then keptValue (option_map (@subtotal num) section)
    else None.
Proof.
  unfold extractSubtotal, keptValue. destruct section as [[v]|]; simpl.
  - destruct (truthy v); simpl; now destruct (String.eqb key name).
  - now destruct (String.eqb key name).
Qed.

Lemma lookup_total (key : string) (t : option num) :
  lookup key match t with
             | Some t => if truthy t then [("total_score"%string, t)] else []
             | None => []
             end
  = if String.eqb key "total_score" then keptValue t else None.
Proof.
  unfold keptValue. destruct t as [t|]; simpl.
  - destruct (truthy t); simpl; now destruct (String.eqb key "total_score").
  - now destruct (String.eqb key "total_score").
Qed.

(** reading what [extractScores] built *)
Lemma lookup_extractScores (answer : EvaluationResult num) (key : string) :
  lookup key (extractScores answer) = keptValue (reported answer key).
Proof.
  unfold extractScores, reported.
  destruct (result_scores answer) as [s|]; [|reflexivity].
  rewrite !lookup_app, !lookup_extractSubtotal, lookup_total.
  set (K1 := option_map (@subtotal num) (업무능력 s)).
  set (K2 := option_map (@subtotal num) (문장력 s)).
  set (K3 := option_map (@subtotal num) (기본_태도 s)).
  destruct (String.eqb key "업무능력") eqn:E1.
  { apply String.eqb_eq in E1. subst key. cbn.
    now destruct (keptValue K1). }
  destruct (String.eqb key "문장력") eqn:E2.
  { apply String.eqb_eq in E2. subst key. cbn.
    now destruct (keptValue K2). }
  destruct (String.eqb key "기본_태도") eqn:E3.
  { apply String.eqb_eq in E3. subst key. cbn.
    now destruct (keptValue K3). }
  destruct (String.eqb key "total_score"); reflexivity.
Qed.

Lemma keys_extractSubtotal (name : string) (section : option (ScoreDetail num)) :
  map fst (extractSubtotal name section)
  = if match option_map (@subtotal num) section with
       | Some v => truthy v
       | None => false
       end
    then [name] else [].
Proof.
  unfold extractSubtotal. destruct section as [[v]|]; simpl; [|reflexivity].
  now destruct (truthy v).
Qed.

(** the keys [extractScores] writes, in the order it writes them *)
Lemma keys_extractScores (answer : EvaluationResult num) :
  map fst (extractScores answer)
  = filter (fun key => match reported answer key with
                       | Some v => truthy v
                       | None => false
                       end)
           ["업무능력"; "문장력"; "기본_태도"; "total_score"]%string.
Proof.
  unfold extractScores, reported.
  destruct (result_scores answer) as [s|]; [|reflexivity].
  rewrite !map_app, !keys_extractSubtotal. cbn.
  destruct (option_map (@subtotal num) (업무능력 s)) as [v1|];
    [destruct (truthy v1)|];
    (destruct (option_map (@subtotal num) (문장력 s)) as [v2|];
       [destruct (truthy v2)|]);
    (destruct (option_map (@subtotal num) (기본_태도 s)) as [v3|];
       [destruct (truthy v3)|]);
    (destruct (total_score s) as [t|]; [destruct (truthy t)|]);
    reflexivity.
Qed.

Lemma extractScores_NoDup (answer : EvaluationResult num) :
  NoDup (map fst (extractScores answer)).
Proof.
  rewrite keys_extractScores. apply NoDup_filter.
  repeat constructor; simpl; intuition discriminate.
Qed.

End ExtractScores.

(** X10.  [extractScores] copies from a provider's answer the subtotals
    of 업무능력, 문장력 and 기본_태도 and the total, in this order, each
    under its key and each only when it is there and neither 0 nor NaN:
    a section that is missing, or whose subtotal is 0 or NaN, leaves no
    entry, and no key is written twice. *)
Theorem extractScores_keeps_truthy_scores
  {num : Type} `{Number num} (result : EvaluationResult num) :
  let extracted := EvaluationOrchestrator.extractScores result in
  map fst extracted
  = filter (fun key => match reported result key with
                       | Some value => truthy value
                       | None => false
                       end)
           ["업무능력"; "문장력"; "기본_태도"; "total_score"]%string
  /\ (forall key value,
        In (key, value) extracted
        <-> reported result key = Some value /\ truthy value = true)
  /\ (forall key value,
        lookup key extracted = Some value <-> In (key, value) extracted)
  /\ (forall key,
        lookup key extracted = None
        <-> reported result key = None
            \/ exists value, reported result key = Some value /\ truthy value = false).
Proof.
  intros extracted. subst extracted.
  assert (Hlookup : forall key value,
    lookup key (EvaluationOrchestrator.extractScores result) = Some value
    <-> In (key, value) (EvaluationOrchestrator.extractScores result)).
  { intros key value. split; [apply lookup_member|].
    apply lookup_NoDup, extractScores_NoDup. }
  split; [apply keys_extractScores|]. split; [|split; [exact Hlookup|]].
  - intros key value. rewrite <- Hlookup, lookup_extractScores.
    apply keptValue_Some.
  - intros key. rewrite lookup_extractScores. unfold keptValue.
    destruct (reported result key) as [v|]; [|split; auto].
    destruct (truthy v) eqn:E; split.
    + discriminate.
    + intros [E'|(w & E' & Hw)]; [discriminate|]. injection E' as <-. congruence.
    + intros _. right. eauto.
    + reflexivity.
Qed.

Section DispatchContents.
Context {num : Type} `{Number num}.
Variable thresholds : ThresholdConfig num.
Import EvaluationOrchestrator.

(** the promise of a provider that resolved *)
Lemma evaluationPromise_resolved (provider : Provider num)
  (answer : EvaluationResult num) :
  evaluateWithRetry provider = Resolved answer ->
  name (evaluationPromise provider) = getName provider
  /\ success (evaluationPromise provider) = true
  /\ error (evaluationPromise provider) = None
  /\ scores (evaluationPromise provider) = extractScores answer.
Proof.
  intros E. unfold evaluationPromise. rewrite E. simpl. auto.
Qed.

(** what [consolidateResults] puts in a score field *)
Lemma consolidated_field (results : list (ProviderResult num)) (key : string) :
  let field :=
    or_else (lookup key (consolidateScores results)) (of_Q 3.0) in
  let values := sortedValues results key in
  Permutation values
    (numbers (map (fun result => lookup key (scores result)) results))
  /\ field = or_else (consolidateValues values) (of_Q 3.0)
  /\ (values = [] -> field = of_Q 3.0)
  /\ (forall v, values = [v] -> field = or_else (Some v) (of_Q 3.0))
  /\ (forall lo hi, values = [lo; hi] ->
        field = or_else (Some ((lo + hi) / of_Z 2)%num) (of_Q 3.0))
  /\ (3 <= length values ->
      let kept := inliers values in
      field
      = or_else (Some (if (0 <? length kept)%nat
                       then (sum kept / of_nat (length kept))%num
                       else aget values (floor_mul (length values) (1 # 2))))
                (of_Q 3.0)).
Proof.
  intros field values. subst field.
  split; [apply sort_perm|].
  rewrite consolidateScores_lookup_any. fold values.
  split; [reflexivity|]. split; [|split; [|split]].
  - intros ->. reflexivity.
  - intros v ->. reflexivity.
  - intros lo hi ->. reflexivity.
  - intros Hlen kept. unfold consolidateValues. fold kept.
    replace (0 <? length values)%nat with true by (symmetry; apply Nat.ltb_lt; lia).
    replace (length values =? 1)%nat with false by (symmetry; apply Nat.eqb_neq; lia).
    replace (length values =? 2)%nat with false by (symmetry; apply Nat.eqb_neq; lia).
    now destruct (0 <? length kept)%nat.
Qed.

End DispatchContents.

(** C7.  The dispatch step, and with it the whole evaluation, ends in an
    error exactly when no provider succeeded.  When at least one did,
    the dispatch returns one result per provider, in order, and the
    evaluation returns a consolidated result whose per-provider list is
    that list.  A provider that failed stands in it with
    [success = false], no scores and the error recorded for it; a
    provider that resolved stands in it with [success = true] and, under
    each key, what its answer holds there if that is neither 0 nor NaN;
    the successful results are those of the providers that resolved and
    no others.  Each consolidated score is computed from the numbers the
    successful results hold under its key, sorted: 3.0 when there is
    none or the outcome is 0 or NaN, the number itself when there is one,
    the mean of the two when there are two, and from three on the mean of
    those that pass the bounds test, or the middle one when none does;
    the validation is computed from the successful results as well. *)
Theorem evaluation_fails_only_when_no_provider_succeeds
  {num : Type} `{Number num} (thresholds : ThresholdConfig num)
  (providers : list (EvaluationOrchestrator.Provider num)) (criteriaVersion : string) :
  let results := map EvaluationOrchestrator.evaluationPromise providers in
  let successes := filter (@success num) results in
  ((exists e, EvaluationOrchestrator.executeParallelEvaluations providers = inl e)
   <-> filter succeeded providers = [])
  /\ ((exists e, EvaluationOrchestrator.evaluateChat thresholds providers criteriaVersion
                 = inl e)
      <-> filter succeeded providers = [])
  /\ (filter succeeded providers <> [] ->
      EvaluationOrchestrator.executeParallelEvaluations providers = inr results
      /\ exists consolidated,
           EvaluationOrchestrator.evaluateChat thresholds providers criteriaVersion
           = inr consolidated
           /\ cr_providers consolidated = results
           /\ map (@name num) results
              = map (@EvaluationOrchestrator.getName num) providers
           /\ (forall provider reason,
                 In provider providers ->
                 EvaluationOrchestrator.evaluateWithRetry provider
                 = EvaluationOrchestrator.Rejected num reason ->
                 exists result,
                   In result (cr_providers consolidated)
                   /\ name result = EvaluationOrchestrator.getName provider
                   /\ success result = false
                   /\ scores result = []
                   /\ error result = Some (recordedError reason))
           /\ (forall provider answer,
                 In provider providers ->
                 EvaluationOrchestrator.evaluateWithRetry provider
                 = EvaluationOrchestrator.Resolved answer ->
                 exists result,
                   In result successes
                   /\ name result = EvaluationOrchestrator.getName provider
                   /\ success result = true
                   /\ forall key value,
                        lookup key (scores result) = Some value
                        <-> reported answer key = Some value /\ truthy value = true)
           /\ (forall result,
                 In result successes ->
                 exists provider answer,
                   In provider providers
                   /\ EvaluationOrchestrator.evaluateWithRetry provider
                      = EvaluationOrchestrator.Resolved answer
                   /\ result = EvaluationOrchestrator.evaluationPromise provider)
           /\ (forall key field,
                 In (key, field)
                    [("업무능력"%string, cs_업무능력 (cr_scores consolidated));
                     ("문장력"%string, cs_문장력 (cr_scores consolidated));
                     ("기본_태도"%string, cs_기본_태도 (cr_scores consolidated));
                     ("total_score"%string, cs_총점 (cr_scores consolidated))] ->
                 let values := EvaluationOrchestrator.sortedValues successes key in
                 Permutation values
                   (numbers (map (fun result => lookup key (scores result)) successes))
                 /\ field = or_else (EvaluationOrchestrator.consolidateValues values)
                                    (of_Q 3.0)
                 /\ (values = [] -> field = of_Q 3.0)
                 /\ (forall v, values = [v] -> field = or_else (Some v) (of_Q 3.0))
                 /\ (forall lo hi, values = [lo; hi] ->
                       field = or_else (Some ((lo + hi) / of_Z 2)%num) (of_Q 3.0))
                 /\ (3 <= length values ->
                     let kept := EvaluationOrchestrator.inliers values in
                     field
                     = or_else
                         (Some (if (0 <? length kept)%nat
                                then (sum kept / of_nat (length kept))%num
                                else aget values (floor_mul (length values) (1 # 2))))
                         (of_Q 3.0)))
           /\ v_consistency (cr_validation consolidated)
              = EvaluationOrchestrator.validateConsistency successes
           /\ v_outliers (cr_validation consolidated)
              = EvaluationOrchestrator.detectOutliers thresholds successes
           /\ v_confidence (cr_validation consolidated)
              = EvaluationOrchestrator.calculateConfidence thresholds
                  (EvaluationOrchestrator.validateConsistency successes)
                  (of_nat (length (EvaluationOrchestrator.detectOutliers
                                     thresholds successes)))
                  (of_nat (length successes))
           /\ exists fromSuccesses,
                EvaluationOrchestrator.consolidateResults thresholds successes
                  criteriaVersion = inr fromSuccesses
                /\ cr_providers fromSuccesses = successes
                /\ cr_scores consolidated = cr_scores fromSuccesses
                /\ cr_validation consolidated = cr_validation fromSuccesses
                /\ cr_evidence consolidated = cr_evidence fromSuccesses).
Proof.
  intros results successes.
  assert (Hdispatch :
    (exists e, EvaluationOrchestrator.executeParallelEvaluations providers = inl e)
    <-> filter succeeded providers = []).
  { rewrite executeParallelEvaluations_spec.
    destruct (filter succeeded providers) as [|p ps]; simpl.
    - split; eauto.
    - split; [intros [e He]; discriminate | discriminate]. }
  split; [exact Hdispatch|].
  assert (Hsome : filter succeeded providers <> [] ->
    providers <> []
    /\ EvaluationOrchestrator.executeParallelEvaluations providers = inr results
    /\ (length successes =? 0) = false).
  { intros Hne. repeat split.
    - intros ->. now apply Hne.
    - rewrite executeParallelEvaluations_spec.
      destruct (filter succeeded providers); [congruence|reflexivity].
    - apply Bool.not_true_is_false. intros E. apply no_success_iff in E. auto. }
  split; [split|].
  - intros [e He].
    destruct (filter succeeded providers) as [|p ps] eqn:E; [reflexivity|].
    destruct Hsome as (Hp & Hrun & Hlen); [discriminate|].
    unfold EvaluationOrchestrator.evaluateChat in He.
    destruct providers; [congruence|]. simpl length in He. simpl Nat.eqb in He.
    rewrite Hrun in He. unfold EvaluationOrchestrator.consolidateResults in He.
    fold results successes in He. rewrite Hlen in He. discriminate.
  - intros Hnone. unfold EvaluationOrchestrator.evaluateChat.
    destruct (length providers =? 0); [eauto|].
    apply Hdispatch in Hnone. destruct Hnone as [e ->]. eauto.
  - intros Hne. destruct (Hsome Hne) as (Hp & Hrun & Hlen).
    split; [exact Hrun|].
    unfold EvaluationOrchestrator.evaluateChat.
    replace (length providers =? 0) with false
      by (symmetry; apply Nat.eqb_neq; destruct providers; simpl; congruence).
    rewrite Hrun. unfold EvaluationOrchestrator.consolidateResults.
    fold results successes. rewrite Hlen.
    eexists. split; [reflexivity|].
    cbn [cr_providers cr_scores cr_validation cr_evidence
         cs_업무능력 cs_문장력 cs_기본_태도 cs_총점
         v_consistency v_outliers v_confidence].
    split; [reflexivity|]. split; [|split; [|split; [|split; [|split]]]].
    + unfold results. rewrite map_map. apply map_ext. intros provider.
      unfold EvaluationOrchestrator.evaluationPromise.
      now destruct (EvaluationOrchestrator.evaluateWithRetry provider).
    + intros provider reason Hin Hrej.
      exists (EvaluationOrchestrator.evaluationPromise provider).
      split; [now apply in_map|].
      unfold EvaluationOrchestrator.evaluationPromise. rewrite Hrej. simpl.
      repeat split.
    + intros provider answer Hin Hres.
      destruct (evaluationPromise_resolved provider Hres) as (Hn & Hs & _ & Hsc).
      exists (EvaluationOrchestrator.evaluationPromise provider).
      split; [apply filter_In; split; [now apply in_map|exact Hs]|].
      split; [exact Hn|]. split; [exact Hs|].
      intros key value. rewrite Hsc, lookup_extractScores. apply keptValue_Some.
    + intros result Hin. apply filter_In in Hin. destruct Hin as [Hin Hs].
      apply in_map_iff in Hin. destruct Hin as (provider & <- & Hin).
      rewrite evaluationPromise_success in Hs. unfold succeeded in Hs.
      destruct (EvaluationOrchestrator.evaluateWithRetry provider) as [answer|reason]
        eqn:E; [|discriminate].
      exists provider, answer. auto.
    + intros key field Hin.
      destruct Hin as [E|[E|[E|[E|[]]]]]; injection E as <- <-;
        apply consolidated_field.
    + split; [reflexivity|]. split; [reflexivity|]. split; [reflexivity|].
      assert (Hff : filter (@success num) successes = successes)
        by apply filter_filter_success.
      rewrite !Hff, Hlen. eexists. split; [reflexivity|]. simpl. auto.
Qed.

(** The sample evaluation of three providers, the second failing: some
    provider succeeded, the evaluation returns a consolidated result,
    and its per-provider list has one result for each provider. *)
Lemma evaluation_with_one_failure_witness :
  filter succeeded Sample.sample_providers <> []
  /\ exists consolidated,
       EvaluationOrchestrator.evaluateChat Sample.thresholds Sample.sample_providers
         "v1" = inr consolidated
       /\ cr_providers consolidated
          = map EvaluationOrchestrator.evaluationPromise Sample.sample_providers.
Proof.
  assert (Hne : filter succeeded Sample.sample_providers <> [])
    by (vm_compute; discriminate).
  split; [exact Hne|].
  destruct (proj2 (proj2 (@evaluation_fails_only_when_no_provider_succeeds
                            Sample.F _ Sample.thresholds Sample.sample_providers "v1"))
              Hne) as (_ & consolidated & He & Hp & _).
  exists consolidated. split; [exact He|exact Hp].
Defined.

Section Defaults.
Context {num : Type} `{Number num}.
Import EvaluationOrchestrator.

Lemma unreported_key (results : list (ProviderResult num)) (key : string) :
  (forall result value,
     In result results -> lookup key (scores result) = Some value ->
     nisNaN value = true) ->
  lookup key (consolidateScores results) = None.
Proof.
  intros Hnone. rewrite consolidateScores_lookup_any.
  apply consolidateValues_None.
  destruct (sortedValues results key) as [|v vs] eqn:E; [reflexivity|].
  assert (Hv : In v (sortedValues results key)) by (rewrite E; now left).
  apply sortedValues_In in Hv. destruct Hv as [(r & Hr & Hl) Hn].
  rewrite (Hnone r v Hr Hl) in Hn. discriminate.
Qed.

End Defaults.

(** X11.  When some provider succeeded the consolidated result has all
    four scores, and none of them is 0 or NaN (3.0 not being so): a
    dimension for which no successful provider reported a number reads
    3.0.  The total is read under the key total_score only. *)
Theorem unreported_dimension_reads_three
  {num : Type} `{Number num} (thresholds : ThresholdConfig num)
  (providerResults : list (ProviderResult num)) (criteriaVersion : string) :
  filter (@success num) providerResults <> [] ->
  truthy (of_Q 3.0) = true ->
  exists consolidated,
    EvaluationOrchestrator.consolidateResults thresholds providerResults criteriaVersion
    = inr consolidated
    /\ truthy (cs_업무능력 (cr_scores consolidated)) = true
    /\ truthy (cs_문장력 (cr_scores consolidated)) = true
    /\ truthy (cs_기본_태도 (cr_scores consolidated)) = true
    /\ truthy (cs_총점 (cr_scores consolidated)) = true
    /\ (forall key,
          (forall result value,
             In result providerResults -> success result = true ->
             lookup key (scores result) = Some value -> nisNaN value = true) ->
          (key = "업무능력" -> cs_업무능력 (cr_scores consolidated) = of_Q 3.0)
          /\ (key = "문장력" -> cs_문장력 (cr_scores consolidated) = of_Q 3.0)
          /\ (key = "기본_태도" -> cs_기본_태도 (cr_scores consolidated) = of_Q 3.0)
          /\ (key = "total_score" -> cs_총점 (cr_scores consolidated) = of_Q 3.0)).
Proof.
  intros Hsome H3. unfold EvaluationOrchestrator.consolidateResults.
  set (successes := filter (@success num) providerResults) in *.
  replace (length successes =? 0) with false
    by (symmetry; apply Nat.eqb_neq; destruct successes; [congruence|discriminate]).
  eexists. split; [reflexivity|]. simpl.
  do 4 (split; [now apply or_else_truthy|]).
  intros key Hnone.
  assert (Hmiss : lookup key (EvaluationOrchestrator.consolidateScores successes) = None).
  { apply unreported_key. intros r v Hr Hl. unfold successes in Hr.
    apply filter_In in Hr. destruct Hr as [Hr Hs]. eauto. }
  repeat split; intros ->; now rewrite Hmiss.
Qed.

(** Two providers that report no total_score, one of them a 총점: the
    consolidated total is the default. *)
Lemma unreported_dimension_reads_three_witness :
  filter (@success Sample.F) without_total <> []
  /\ truthy (of_Q 3.0 : Sample.F) = true
  /\ exists consolidated,
       EvaluationOrchestrator.consolidateResults Sample.thresholds without_total "v1"
       = inr consolidated
       /\ truthy (cs_총점 (cr_scores consolidated)) = true.
Proof.
  assert (H1 : filter (@success Sample.F) without_total <> []) by discriminate.
  assert (H2 : truthy (of_Q 3.0 : Sample.F) = true) by (vm_compute; reflexivity).
  split; [exact H1|]. split; [exact H2|].
  destruct (unreported_dimension_reads_three Sample.thresholds without_total "v1" H1 H2)
    as (consolidated & Hc & _ & _ & _ & Ht & _).
  exists consolidated. split; assumption.
Defined.

(** The default at work: the consolidated total of those two providers
    is 3.0, and their 문장력 is the mean of 4.5 and 3.5. *)
Example unreported_total_example :
  exists consolidated,
    EvaluationOrchestrator.consolidateResults Sample.thresholds without_total "v1"
    = inr consolidated
    /\ cs_총점 (cr_scores consolidated) = (of_Q 3.0 : Sample.F)
    /\ cs_문장력 (cr_scores consolidated) = (of_Q 4 : Sample.F).
Proof.
  eexists. split; [vm_compute; reflexivity|]. split; vm_compute; reflexivity.
Qed.

(** An answer without the first section, with a NaN subtotal and a total
    of 0: only 문장력 is taken. *)
Example extractScores_example :
  EvaluationOrchestrator.extractScores partial_answer
  = [("문장력", FloatNumber.float_of_Q 4.5)].
Proof. vm_compute. reflexivity. Qed.

(** ** More on the confidence calculator *)

Section CalculatorFacts.
Import ConfidenceCalculator.
Open Scope R_scope.

Lemma scoreResponseTime_unit (t : R) : 0 <= scoreResponseTime t <= 1.
Proof.
  unfold scoreResponseTime.
  destruct (Rlt_dec t 1), (Rle_dec t 10), (Rle_dec t 30), (Rle_dec t 60); lra.
Qed.

Lemma scoreTokenUsage_unit (t : R) : 0 <= scoreTokenUsage t <= 1.
Proof.
  unfold scoreTokenUsage.
  destruct (Rlt_dec t 100), (Rle_dec t 500), (Rle_dec t 2000), (Rle_dec t 4000); lra.
Qed.

Lemma errorScore_unit (e : R) : 0 <= e -> 0 <= Rmax 0 (1 - e) <= 1.
Proof. intros He. split; [apply Rmax_l|apply Rmax_lub; lra]. Qed.

(** one block of [calculateAdditionalFactors] keeps the running score
    between 0 and the running count *)
Lemma addFactor_bounds (score : option R) (acc : R * nat) :
  (forall s, score = Some s -> 0 <= s <= 1) ->
  0 <= fst acc <= INR (snd acc) ->
  0 <= fst (addFactor score acc) <= INR (snd (addFactor score acc)).
Proof.
  intros Hs Hacc. unfold addFactor. destruct score as [s|]; [|exact Hacc].
  specialize (Hs s eq_refl). cbn [fst snd]. rewrite S_INR. lra.
Qed.

End CalculatorFacts.

(** X12.  The secondary signals add between 0 and 0.1 to the confidence,
    whatever they are, provided the error rate is not negative; without
    any signal they add nothing. *)
Theorem additional_factors_add_at_most_a_tenth
  (signals : ConfidenceCalculator.AdditionalFactors) :
  (forall e, ConfidenceCalculator.errorRate signals = Some e -> (0 <= e)%R) ->
  (0 <= ConfidenceCalculator.calculateAdditionalFactors (Some signals) <= 0.1)%R
  /\ ConfidenceCalculator.calculateAdditionalFactors None = 0%R.
Proof.
  intros Herr. split; [|reflexivity].
  unfold ConfidenceCalculator.calculateAdditionalFactors.
  set (a1 := ConfidenceCalculator.addFactor
               (option_map ConfidenceCalculator.scoreResponseTime
                  (ConfidenceCalculator.responseTime signals)) (0%R, 0)).
  set (a2 := ConfidenceCalculator.addFactor
               (option_map ConfidenceCalculator.scoreTokenUsage
                  (ConfidenceCalculator.tokenUsage signals)) a1).
  set (a3 := ConfidenceCalculator.addFactor
               (option_map (fun e => Rmax 0 (1 - e))
                  (ConfidenceCalculator.errorRate signals)) a2).
  set (a4 := ConfidenceCalculator.addFactor
               (option_map (fun h => Rmin 1 (Rmax 0 h))
                  (ConfidenceCalculator.historicalPerformance signals)) a3).
  assert (H1 : (0 <= fst a1 <= INR (snd a1))%R).
  { apply addFactor_bounds; [|simpl; lra].
    intros s Hs. destruct (ConfidenceCalculator.responseTime signals); [|discriminate].
    injection Hs as <-. apply scoreResponseTime_unit. }
  assert (H2 : (0 <= fst a2 <= INR (snd a2))%R).
  { apply addFactor_bounds; [|exact H1].
    intros s Hs. destruct (ConfidenceCalculator.tokenUsage signals); [|discriminate].
    injection Hs as <-. apply scoreTokenUsage_unit. }
  assert (H3 : (0 <= fst a3 <= INR (snd a3))%R).
  { apply addFactor_bounds; [|exact H2].
    intros s Hs. destruct (ConfidenceCalculator.errorRate signals) as [e|] eqn:E;
      [|discriminate].
    injection Hs as <-. apply errorScore_unit. now apply Herr. }
  assert (H4 : (0 <= fst a4 <= INR (snd a4))%R).
  { apply addFactor_bounds; [|exact H3].
    intros s Hs. destruct (ConfidenceCalculator.historicalPerformance signals);
      [|discriminate].
    injection Hs as <-. apply clamp_unit. }
  destruct a4 as [additionalScore factorCount]. simpl in H4.
  destruct (Nat.ltb_spec 0 factorCount) as [Hpos|]; [|lra].
  assert (Hn : (0 < INR factorCount)%R) by (apply (lt_INR 0); exact Hpos).
  assert (Hq : (0 <= additionalScore / INR factorCount <= 1)%R).
  { split.
    - apply Rmult_le_pos; [lra|]. left. now apply Rinv_0_lt_compat.
    - apply Rmult_le_reg_r with (INR factorCount); [exact Hn|].
      unfold Rdiv. rewrite Rmult_assoc, Rinv_l by lra. lra. }
  lra.
Qed.

(** A response time of 5 s and an error rate of a third. *)
Lemma additional_factors_witness :
  (forall e,
     ConfidenceCalculator.errorRate
       {| ConfidenceCalculator.responseTime := Some 5%R;
          ConfidenceCalculator.tokenUsage := None;
          ConfidenceCalculator.errorRate := Some (1 / 3)%R;
          ConfidenceCalculator.historicalPerformance := None |} = Some e ->
     (0 <= e)%R)
  /\ (0 <= ConfidenceCalculator.calculateAdditionalFactors
             (Some {| ConfidenceCalculator.responseTime := Some 5%R;
                      ConfidenceCalculator.tokenUsage := None;
                      ConfidenceCalculator.errorRate := Some (1 / 3)%R;
                      ConfidenceCalculator.historicalPerformance := None |})
      <= 0.1)%R.
Proof.
  assert (Herr : forall e,
     ConfidenceCalculator.errorRate
       {| ConfidenceCalculator.responseTime := Some 5%R;
          ConfidenceCalculator.tokenUsage := None;
          ConfidenceCalculator.errorRate := Some (1 / 3)%R;
          ConfidenceCalculator.historicalPerformance := None |} = Some e ->
     (0 <= e)%R).
  { simpl. intros e He. injection He as <-. lra. }
  split; [exact Herr|].
  exact (proj1 (additional_factors_add_at_most_a_tenth _ Herr)).
Defined.

(** X13.  With a consistency weight that is not negative, and the other
    inputs held fixed, the confidence the calculator returns does not
    decrease when the consistency increases. *)
Theorem confidence_non_decreasing_in_consistency
  (config : ConfidenceConfig R) (outlierCount totalResults : R)
  (extras : option ConfidenceCalculator.AdditionalFactors)
  (consistency consistency' : R) :
  (0 <= consistency_weight (factors config))%R ->
  (consistency <= consistency')%R ->
  (ConfidenceCalculator.confidence
     (ConfidenceCalculator.calculateConfidence config consistency
        outlierCount totalResults extras)
   <= ConfidenceCalculator.confidence
        (ConfidenceCalculator.calculateConfidence config consistency'
           outlierCount totalResults extras))%R.
Proof.
  intros Hw Hle. simpl. apply toFixed_le.
  unfold ConfidenceCalculator.finalConfidence.
  apply Rle_min_compat_l, Rle_max_compat_l.
  apply Rplus_le_compat_r, Rplus_le_compat_r, Rplus_le_compat_r.
  apply Rmult_le_compat_r; [exact Hw|]. now apply Rle_min_compat_l.
Qed.

(** Consistency 0.5 and 0.9 with the sample weights. *)
Lemma confidence_non_decreasing_witness :
  (0 <= consistency_weight (factors RealSample.confidence))%R
  /\ (0.5 <= 0.9)%R
  /\ (ConfidenceCalculator.confidence
        (ConfidenceCalculator.calculateConfidence RealSample.confidence 0.5 0 5 None)
      <= ConfidenceCalculator.confidence
           (ConfidenceCalculator.calculateConfidence RealSample.confidence 0.9 0 5 None))%R.
Proof.
  assert (Hw : (0 <= consistency_weight (factors RealSample.confidence))%R)
    by (simpl; lra).
  assert (Hle : (0.5 <= 0.9)%R) by lra.
  split; [exact Hw|]. split; [exact Hle|].
  exact (@confidence_non_decreasing_in_consistency
           RealSample.confidence 0%R 5%R None 0.5%R 0.9%R Hw Hle).
Defined.


Section AnalysisFacts.
Import ConfidenceAnalysis.
Open Scope R_scope.

Lemma Rsum_total (l : list R) : Rsum l = total l.
Proof.
  unfold Rsum.
  change (fold_left Rplus l 0)
    with (fold_left (fun sum val => sum + (fun v => v) val) l 0).
  rewrite fold_left_sum, map_id. ring.
Qed.


Lemma real_or_else_zero (x : option R) :
  or_else x 0 = match x with Some v => v | None => 0 end.
Proof.
  destruct x as [v|]; [|reflexivity].
  unfold or_else. destruct (truthy v) eqn:E; [reflexivity|].
  unfold truthy in E. rewrite real_zero in E. simpl in E.
  unfold RealNumber.eqb in E. destruct (Req_dec_T v 0); [congruence|discriminate].
Qed.

Lemma successfulTotals_In (results : list (ProviderResult R)) (v : R) :
  In v (successfulTotals results)
  <-> exists r, In r results /\ success r = true /\ totalOrZero r = v.
Proof.
  unfold successfulTotals. rewrite in_map_iff. split.
  - intros (r & E & Hr). apply filter_In in Hr. exists r. tauto.
  - intros (r & Hr & Hs & E). exists r. split; [exact E|]. apply filter_In. tauto.
Qed.

Lemma calculateAverageScore_mean (results : list (ProviderResult R)) :
  calculateAverageScore results
  = total (successfulTotals results) / INR (length (successfulTotals results)).
Proof.
  unfold calculateAverageScore. rewrite Rsum_total.
  destruct (successfulTotals results) as [|v l]; [|reflexivity].
  simpl. unfold Rdiv. rewrite Rinv_0. ring.
Qed.







Lemma sampleVariance_nonneg (scores : list R) (mean : R) :
  (2 <= length scores)%nat ->
  0 <= fold_left (fun sum val => sum + (val - mean) ^ 2) scores 0
       / (INR (length scores) - 1).
Proof.
  intros Hn. rewrite (fold_left_sum (fun val => (val - mean) ^ 2)), Rplus_0_l.
  apply Rmult_le_pos.
  - apply total_nonneg. intros v Hv. apply in_map_iff in Hv.
    destruct Hv as (x & <- & _). apply pow2_ge_0.
  - left. apply Rinv_0_lt_compat.
    apply le_INR in Hn. simpl in Hn. lra.
Qed.


Lemma getTValue_range (df alpha : R) : 1.96 <= getTValue df alpha <= 3.182.
Proof.
  unfold getTValue.
  repeat match goal with |- context [Rle_dec ?a ?b] => destruct (Rle_dec a b) end; lra.
Qed.

(** the two margins of [quantifyUncertainty] *)
Lemma margins_ordered (variance n t : R) :
  0 <= variance -> 1 <= n -> 0 <= t ->
  0 <= t * sqrt (variance / n)
  /\ t * sqrt (variance / n) <= t * sqrt (variance + sqrt (variance / n) ^ 2).
Proof.
  intros Hv Hn Ht.
  assert (Hq : 0 <= variance / n).
  { apply Rmult_le_pos; [exact Hv|]. left. apply Rinv_0_lt_compat. lra. }
  assert (Hle : variance / n <= variance).
  { unfold Rdiv. rewrite <- (Rmult_1_r variance) at 2.
    apply Rmult_le_compat_l; [exact Hv|].
    rewrite <- Rinv_1. apply Rinv_le_contravar; lra. }
  split.
  - apply Rmult_le_pos; [exact Ht|apply sqrt_pos].
  - apply Rmult_le_compat_l; [exact Ht|]. apply sqrt_le_1_alt.
    pose proof (pow2_ge_0 (sqrt (variance / n))). lra.
Qed.

End AnalysisFacts.



(** X16.  When every successful total is between 1 and 5 and at least
    two results succeeded, the confidence interval of
    [quantifyUncertainty] contains the average that
    [calculateAverageScore] gives for the same results. *)
Theorem confidence_interval_contains_the_average (results : list (ProviderResult R)) :
  2 <= length (ConfidenceAnalysis.successfulTotals results) ->
  (forall v, In v (ConfidenceAnalysis.successfulTotals results) -> (1 <= v <= 5)%R) ->
  let u := ConfidenceAnalysis.quantifyUncertainty results in
  (fst (ConfidenceAnalysis.confidenceInterval u)
   <= ConfidenceAnalysis.calculateAverageScore results
   <= snd (ConfidenceAnalysis.confidenceInterval u))%R.
Proof.
  intros Hn Hall u. subst u.
  rewrite calculateAverageScore_mean.
  unfold ConfidenceAnalysis.quantifyUncertainty.
  destruct (length (ConfidenceAnalysis.successfulTotals results) <? 2) eqn:E;
    [apply Nat.ltb_lt in E; lia|].
  cbn [ConfidenceAnalysis.confidenceInterval fst snd].
  rewrite Rsum_total.
  set (scores := ConfidenceAnalysis.successfulTotals results) in *.
  set (mean := (total scores / INR (length scores))%R).
  assert (Hmean : (1 <= mean <= 5)%R).
  { apply mean_bounds; [|exact Hall]. destruct scores; simpl in *; [lia|discriminate]. }
  set (variance := (fold_left (fun sum val => sum + (val - mean) ^ 2) scores 0
                    / (INR (length scores) - 1))%R).
  set (t := ConfidenceAnalysis.getTValue (INR (length scores) - 1) 0.05).
  assert (Hv : (0 <= variance)%R) by (apply sampleVariance_nonneg; exact Hn).
  assert (Hlen : (1 <= INR (length scores))%R)
    by (apply le_INR in Hn; simpl in Hn; lra).
  assert (Ht : (0 <= t)%R)
    by (pose proof (getTValue_range (INR (length scores) - 1) 0.05) as Hr;
        fold t in Hr; lra).
  destruct (margins_ordered Hv Hlen Ht) as [Hm _].
  split.
  - apply Rmax_lub; lra.
  - apply Rmin_glb; lra.
Qed.

(** The totals 1 and 5. *)
Lemma confidence_interval_contains_the_average_witness :
  2 <= length (ConfidenceAnalysis.successfulTotals far_apart)
  /\ (fst (ConfidenceAnalysis.confidenceInterval
             (ConfidenceAnalysis.quantifyUncertainty far_apart))
      <= ConfidenceAnalysis.calculateAverageScore far_apart)%R.
Proof.
  assert (Hn : 2 <= length (ConfidenceAnalysis.successfulTotals far_apart))
    by (simpl; lia).
  assert (Hall : forall v, In v (ConfidenceAnalysis.successfulTotals far_apart) ->
                           (1 <= v <= 5)%R).
  { intros v Hv. apply successfulTotals_In in Hv.
    destruct Hv as (r & Hr & _ & <-).
    unfold ConfidenceAnalysis.totalOrZero. rewrite real_or_else_zero.
    destruct Hr as [<-|[<-|[]]]; simpl; lra. }
  split; [exact Hn|].
  exact (proj1 (confidence_interval_contains_the_average far_apart Hn Hall)).
Defined.


Section AgreeingResults.
Import ConfidenceAnalysis.
Open Scope R_scope.




End AgreeingResults.



(** [getTValue] never grows with the degrees of freedom and does
    not depend on its second argument. *)
Theorem t_value_never_grows (df df' alpha alpha' : R) :
  (df <= df')%R ->
  (ConfidenceAnalysis.getTValue df' alpha' <= ConfidenceAnalysis.getTValue df alpha)%R.
Proof.
  intros Hle. unfold ConfidenceAnalysis.getTValue.
  repeat match goal with |- context [Rle_dec ?a ?b] => destruct (Rle_dec a b) end; lra.
Qed.

Lemma t_value_never_grows_witness :
  (4 <= 30)%R
  /\ (ConfidenceAnalysis.getTValue 30 0.05 <= ConfidenceAnalysis.getTValue 4 0.01)%R.
Proof.
  assert (Hle : (4 <= 30)%R) by lra.
  split; [exact Hle|].
  exact (@t_value_never_grows 4%R 30%R 0.01%R 0.05%R Hle).
Defined.

Section ConsistencyAnalysisFacts.
Import ConsistencyAnalysis.
Open Scope R_scope.


Lemma pearson_of_singletons (a b : R) : calculatePearsonCorrelation [a] [b] = 0.
Proof. reflexivity. Qed.

Lemma calculateCorrelations_zero (results : list (ProviderResult R)) :
  calculateCorrelations results = {| pearson := 0; spearman := 0; kendall := 0 |}.
Proof.
  unfold calculateCorrelations.
  destruct (length results <? 2)%nat; [reflexivity|].
  cbv zeta. rewrite pearson_of_singletons.
  replace (0 * 0.9) with 0 by ring. replace (0 * 0.8) with 0 by ring.
  now rewrite (toFixed_IZR 3 0).
Qed.

(** over the reals, two scores are on the same side of their average
    exactly when they are equal *)
Lemma same_direction_is_equality (score1 score2 : R) :
  let avg := (score1 + score2) / 2 in
  (RealNumber.leb avg score1 && RealNumber.leb avg score2)
  || (RealNumber.ltb score1 avg && RealNumber.ltb score2 avg)
  = RealNumber.eqb (Rabs (score1 - score2)) 0.
Proof.
  intros avg. subst avg. unfold RealNumber.leb, RealNumber.ltb, RealNumber.eqb.
  assert (Hd : Rabs (score1 - score2) = 0 <-> score1 = score2).
  { unfold Rabs. destruct (Rcase_abs (score1 - score2)); split; lra. }
  destruct (Rle_dec ((score1 + score2) / 2) score1),
           (Rle_dec ((score1 + score2) / 2) score2),
           (Rlt_dec score1 ((score1 + score2) / 2)),
           (Rlt_dec score2 ((score1 + score2) / 2)),
           (Req_dec_T (Rabs (score1 - score2)) 0) as [E|E];
    simpl; try reflexivity; try lra;
    try (apply Hd in E; lra); try (exfalso; apply E, Hd; lra).
Qed.

(** what every pass through the inner loop keeps *)
Definition ordered (c : Counts) : Prop :=
  (sameDirectionMatches c = exactMatches c
   /\ exactMatches c <= withinThresholdMatches c
   /\ withinThresholdMatches c <= totalComparisons c)%nat.

Lemma compare_ordered (c : Counts) (score1 score2 : R) :
  ordered c -> ordered (compare c score1 score2).
Proof.
  intros (Hs & He & Hw). unfold ordered, compare.
  cbn [sameDirectionMatches exactMatches withinThresholdMatches totalComparisons].
  rewrite same_direction_is_equality.
  unfold RealNumber.eqb, RealNumber.leb.
  destruct (Req_dec_T (Rabs (score1 - score2)) 0) as [E|E],
           (Rle_dec (Rabs (score1 - score2)) 0.5); try lia.
  rewrite E in *. lra.
Qed.

Lemma countAgreement_ordered (results : list (ProviderResult R)) :
  ordered (countAgreement results).
Proof.
  unfold countAgreement.
  set (start := {| exactMatches := 0; withinThresholdMatches := 0;
                   sameDirectionMatches := 0; totalComparisons := 0 |}).
  assert (H0 : ordered start) by (unfold ordered; simpl; lia).
  revert H0. generalize start. generalize (pairs results).
  induction l as [|[r1 r2] l IH]; intros c Hc; simpl; [exact Hc|].
  apply IH, compare_ordered, Hc.
Qed.

Lemma share_le (a b n : nat) :
  (a <= b)%nat -> (b <= n)%nat -> (0 < n)%nat ->
  0 <= INR a / INR n <= INR b / INR n /\ INR b / INR n <= 1.
Proof.
  intros Hab Hbn Hn.
  assert (Hp : 0 < INR n) by (apply lt_0_INR; exact Hn).
  assert (Hi : 0 < / INR n) by (apply Rinv_0_lt_compat; exact Hp).
  apply le_INR in Hab. apply le_INR in Hbn. pose proof (pos_INR a).
  repeat split.
  - apply Rmult_le_pos; lra.
  - apply Rmult_le_compat_r; lra.
  - apply (Rmult_le_reg_r (INR n)); [exact Hp|]. unfold Rdiv.
    rewrite Rmult_assoc, Rinv_l; lra.
Qed.


End ConsistencyAnalysisFacts.

(** X19.  [advancedConsistencyAnalysis] reports the correlations 0, 0
    and 0 whatever the results: [calculateCorrelations] hands
    [calculatePearsonCorrelation] two arrays of one score each, which is
    fewer than the two it asks for. *)
Theorem correlation_analysis_is_always_zero (config : ConsistencyConfig R)
  (results : list (ProviderResult R)) :
  ConsistencyAnalysis.correlationAnalysis
    (ConsistencyAnalysis.advancedConsistencyAnalysis config results)
  = {| ConsistencyAnalysis.pearson := 0%R;
       ConsistencyAnalysis.spearman := 0%R;
       ConsistencyAnalysis.kendall := 0%R |}.
Proof.
  unfold ConsistencyAnalysis.advancedConsistencyAnalysis.
  destruct (length (filter (@success R) results) <? 2); [reflexivity|].
  cbn [ConsistencyAnalysis.correlationAnalysis]. apply calculateCorrelations_zero.
Qed.

(** X20.  The three shares of [calculateAgreement]: the share of pairs
    with equal totals is at most the share of pairs within 0.5 of each
    other and at most the share of pairs on the same side of their
    average, and all three are between 0 and 1.  (On the reals two totals
    are on the same side of their average only when they are equal; in
    binary64 the average of two neighbouring numbers is one of them, so
    there the third share can exceed the first.) *)
Theorem agreement_shares_are_ordered (results : list (ProviderResult R)) :
  let a := ConsistencyAnalysis.calculateAgreement results in
  (0 <= ConsistencyAnalysis.exactAgreement a
   <= ConsistencyAnalysis.withinThreshold a)%R
  /\ (ConsistencyAnalysis.withinThreshold a <= 1)%R
  /\ (ConsistencyAnalysis.exactAgreement a
      <= ConsistencyAnalysis.direction a <= 1)%R.
Proof.
  intros a. subst a. unfold ConsistencyAnalysis.calculateAgreement.
  destruct (length results <? 2); [simpl; repeat split; lra|].
  cbn [ConsistencyAnalysis.direction ConsistencyAnalysis.exactAgreement
       ConsistencyAnalysis.withinThreshold].
  destruct (countAgreement_ordered results) as (Hs & He & Hw).
  rewrite Hs.
  destruct (0 <? ConsistencyAnalysis.totalComparisons
                   (ConsistencyAnalysis.countAgreement results)) eqn:E;
    [|repeat split; lra].
  apply Nat.ltb_lt in E.
  destruct (share_le He Hw E) as [H1 H2]. repeat split; lra.
Qed.


Section ReportFacts.
Import ConsistencyValidator.
Open Scope R_scope.









Lemma standardDeviationOf_constant (values : list R) (v : R) :
  values <> [] -> (forall x, In x values -> x = v) ->
  meanOf values = v /\ standardDeviationOf values = 0.
Proof.
  intros Hne Hall.
  assert (Hn : 0 < INR (length values)).
  { destruct values as [|x l]; [congruence|]. rewrite length_cons, S_INR.
    pose proof (pos_INR (length l)). lra. }
  assert (Hm : total values / INR (length values) = v).
  { rewrite (total_constant _ Hall). field. lra. }
  split; [rewrite meanOf_total; exact Hm|].
  rewrite standardDeviationOf_population. unfold populationStdDev. cbv zeta.
  rewrite Hm, total_zero.
  - unfold Rdiv. rewrite Rmult_0_l. apply sqrt_0.
  - intros y Hy. apply in_map_iff in Hy. destruct Hy as (x & <- & Hx).
    rewrite (Hall x Hx). ring.
Qed.

End ReportFacts.




Section RetryFacts.
Import BaseProvider.
Open Scope nat_scope.
Variable Result : Type.
Variable config : RetryConfig.
Variable evaluate : nat -> Attempt Result.
Variable retryable : Thrown -> bool.

(** the delay awaited after the failure of attempt [j + 1] *)
Definition backoff (j : nat) : R :=
  (initial_delay config * backoff_multiplier config ^ j)%R.

Lemma attempts_first_success (k : nat) (result : Result) :
  forall remaining attempt st,
    k < remaining -> attempt + remaining = max_attempts config + 1 -> 1 <= attempt ->
    evaluate (calls st + k) = Resolves result ->
    (forall j, j < k ->
       exists error, evaluate (calls st + j) = Rejects error
                     /\ retryable error = true) ->
    attempts config evaluate retryable remaining attempt st
    = (Returned result,
       {| retryCount := 0;
          calls := calls st + k + 1;
          waited := waited st ++ map (fun j => backoff (attempt - 1 + j)) (seq 0 k) |}).
Proof.
  induction k as [|k IH]; intros remaining attempt st Hk Hsum Hone Hres Hrej.
  - destruct remaining as [|remaining]; [lia|]. simpl.
    rewrite Nat.add_0_r in Hres. rewrite Hres.
    rewrite app_nil_r, Nat.add_0_r, Nat.add_1_r. reflexivity.
  - destruct remaining as [|remaining]; [lia|]. simpl attempts.
    destruct (Hrej 0) as (error & He & Hr); [lia|].
    rewrite Nat.add_0_r in He. rewrite He.
    destruct (attempt =? max_attempts config) eqn:Em;
      [apply Nat.eqb_eq in Em; lia|].
    rewrite Hr. cbn [negb].
    rewrite (IH remaining (S attempt)); cbn [calls waited]; try lia.
    + f_equal. f_equal; [lia|].
      rewrite <- app_assoc. f_equal.
      change (seq 0 (S k)) with (0 :: seq 1 k). rewrite <- seq_shift.
      cbn [map app]. rewrite map_map. f_equal.
      * unfold backoff. now rewrite Nat.add_0_r.
      * apply map_ext. intros j. f_equal. lia.
    + rewrite <- Hres. f_equal. lia.
    + intros j Hj. destruct (Hrej (S j)) as (e & He' & Hr'); [lia|].
      exists e. split; [|exact Hr']. rewrite <- He'. f_equal. lia.
Qed.

Lemma attempts_outcome (remaining : nat) :
  forall attempt st,
    1 <= remaining -> attempt + remaining = max_attempts config + 1 ->
    let r := attempts config evaluate retryable remaining attempt st in
    (calls st < calls (snd r) <= calls st + remaining)
    /\ length (waited (snd r)) + 1 = length (waited st) + (calls (snd r) - calls st)
    /\ match fst r with
       | Returned result =>
           retryCount (snd r) = 0
           /\ evaluate (calls (snd r) - 1) = Resolves result
       | Threw MaxRetriesExceeded error =>
           calls (snd r) = calls st + remaining
           /\ retryCount (snd r) = max_attempts config
           /\ exists e, error = Some e
                        /\ evaluate (calls (snd r) - 1) = Rejects e
       | Threw NotRetryable error =>
           retryCount (snd r) < max_attempts config
           /\ exists e, error = Some e /\ retryable e = false
                        /\ evaluate (calls (snd r) - 1) = Rejects e
       | Threw Unexpected _ => False
       end.
Proof.
  induction remaining as [|remaining IH]; intros attempt st Hone Hsum; [lia|].
  simpl attempts. destruct (evaluate (calls st)) as [result|error] eqn:E.
  - cbn [fst snd calls waited retryCount].
    replace (S (calls st) - 1) with (calls st) by lia.
    repeat split; try lia. exact E.
  - destruct (attempt =? max_attempts config) eqn:Em.
    + apply Nat.eqb_eq in Em. cbn [fst snd calls waited retryCount].
      replace (S (calls st) - 1) with (calls st) by lia.
      repeat split; try lia. exists error. split; [reflexivity|exact E].
    + apply Nat.eqb_neq in Em. destruct (retryable error) eqn:Er; cbn [negb].
      * specialize (IH (S attempt)
                       {| retryCount := attempt; calls := S (calls st);
                          waited := waited st
                                    ++ [(initial_delay config
                                         * backoff_multiplier config ^ (attempt - 1))%R] |}).
        cbn [calls waited] in IH. rewrite length_app in IH. cbn [length] in IH.
        destruct IH as (Hc & Hw & Ho); [lia|lia|].
        split; [lia|]. split; [lia|].
        destruct (fst (attempts _ _ _ _ _ _)) as [result|[| |] err]; try exact Ho.
        destruct Ho as (Hcalls & Ho). split; [lia|exact Ho].
      * cbn [fst snd calls waited retryCount].
        replace (S (calls st) - 1) with (calls st) by lia.
        repeat split; try lia.
        exists error. split; [reflexivity|split; [exact Er|exact E]].
Qed.

End RetryFacts.

(** X24.  [evaluateWithRetry] returns the answer of the first call of
    [evaluate] that resolves, if that call is among the first
    [max_attempts] and every call before it was rejected with an error
    that can be retried.  It has then waited once after each failure,
    [initial_delay] times [backoff_multiplier] to the power of the number
    of failures before, and the retry count is back at 0. *)
Theorem retry_returns_the_first_success (Result : Type)
  (config : BaseProvider.RetryConfig) (evaluate : nat -> BaseProvider.Attempt Result)
  (retryable : BaseProvider.Thrown -> bool) (st : BaseProvider.State)
  (k : nat) (result : Result) :
  k < BaseProvider.max_attempts config ->
  evaluate (BaseProvider.calls st + k) = BaseProvider.Resolves result ->
  (forall j, j < k ->
     exists error, evaluate (BaseProvider.calls st + j) = BaseProvider.Rejects error
                   /\ retryable error = true) ->
  BaseProvider.evaluateWithRetry config evaluate retryable st
  = (BaseProvider.Returned result,
     {| BaseProvider.retryCount := 0;
        BaseProvider.calls := BaseProvider.calls st + k + 1;
        BaseProvider.waited :=
          BaseProvider.waited st
          ++ map (fun j => (BaseProvider.initial_delay config
                            * BaseProvider.backoff_multiplier config ^ j)%R)
                 (seq 0 k) |}).
Proof.
  intros Hk Hres Hrej. unfold BaseProvider.evaluateWithRetry.
  rewrite (@attempts_first_success Result config evaluate retryable k result);
    cbn [BaseProvider.calls BaseProvider.waited]; try lia; auto.
Qed.

(** Two failures, a rate limit and a timeout, then the answer 7: the
    delays are 1000 and 2000. *)
Lemma retry_returns_the_first_success_witness :
  2 < BaseProvider.max_attempts three_attempts
  /\ fst (BaseProvider.evaluateWithRetry three_attempts flaky
            BaseProvider.isRetryableError fresh)
     = BaseProvider.Returned 7.
Proof.
  assert (Hk : 2 < BaseProvider.max_attempts three_attempts) by (simpl; lia).
  assert (Hres : flaky (BaseProvider.calls fresh + 2) = BaseProvider.Resolves 7)
    by reflexivity.
  assert (Hrej : forall j, j < 2 ->
            exists error, flaky (BaseProvider.calls fresh + j)
                          = BaseProvider.Rejects error
                          /\ BaseProvider.isRetryableError error = true).
  { intros [|[|j]] Hj; [| |lia]; eexists; split; reflexivity. }
  split; [exact Hk|].
  rewrite (@retry_returns_the_first_success nat three_attempts flaky
             BaseProvider.isRetryableError fresh 2 7 Hk Hres Hrej).
  reflexivity.
Defined.

(** X25.  What [evaluateWithRetry] does in every case.  It calls
    [evaluate] at most [max_attempts] times and waits between calls
    only.  If it returns, the last call resolved with what it returns and
    the retry count is 0.  If it gives up for the number of attempts, it
    made all of them and the last one was rejected; if it gives up for
    the kind of error, the last call was rejected with an error that
    cannot be retried, before the last attempt.  The error of the line
    after the loop is thrown exactly when [max_attempts] is 0, without a
    call. *)
Theorem retry_outcomes (Result : Type)
  (config : BaseProvider.RetryConfig) (evaluate : nat -> BaseProvider.Attempt Result)
  (retryable : BaseProvider.Thrown -> bool) (st : BaseProvider.State) :
  let r := BaseProvider.evaluateWithRetry config evaluate retryable st in
  let made := BaseProvider.calls (snd r) - BaseProvider.calls st in
  BaseProvider.calls st <= BaseProvider.calls (snd r)
  /\ made <= BaseProvider.max_attempts config
  /\ length (BaseProvider.waited (snd r))
     = length (BaseProvider.waited st) + (made - 1)
  /\ match fst r with
     | BaseProvider.Returned result =>
         BaseProvider.retryCount (snd r) = 0
         /\ evaluate (BaseProvider.calls (snd r) - 1) = BaseProvider.Resolves result
     | BaseProvider.Threw BaseProvider.MaxRetriesExceeded error =>
         made = BaseProvider.max_attempts config
         /\ BaseProvider.retryCount (snd r) = BaseProvider.max_attempts config
         /\ exists e, error = Some e
                      /\ evaluate (BaseProvider.calls (snd r) - 1)
                         = BaseProvider.Rejects e
     | BaseProvider.Threw BaseProvider.NotRetryable error =>
         BaseProvider.retryCount (snd r) < BaseProvider.max_attempts config
         /\ exists e, error = Some e /\ retryable e = false
                      /\ evaluate (BaseProvider.calls (snd r) - 1)
                         = BaseProvider.Rejects e
     | BaseProvider.Threw BaseProvider.Unexpected error =>
         BaseProvider.max_attempts config = 0 /\ made = 0 /\ error = None
     end
  /\ (BaseProvider.max_attempts config = 0 ->
      fst r = BaseProvider.Threw BaseProvider.Unexpected None).
Proof.
  intros r made. subst made r. unfold BaseProvider.evaluateWithRetry.
  destruct (BaseProvider.max_attempts config) as [|n] eqn:En.
  - simpl. repeat split; lia.
  - pose proof (@attempts_outcome Result config evaluate retryable (S n) 1
                  {| BaseProvider.retryCount := 0;
                     BaseProvider.calls := BaseProvider.calls st;
                     BaseProvider.waited := BaseProvider.waited st |}) as H.
    cbv zeta in H. cbn [BaseProvider.calls BaseProvider.waited] in H.
    destruct H as (Hc & Hw & Ho); [lia|lia|].
    rewrite En in Ho.
    split; [lia|]. split; [lia|]. split; [lia|]. split; [|discriminate].
    destruct (fst (BaseProvider.attempts _ _ _ _ _ _)) as [result|[| |] err];
      try exact Ho; try contradiction.
    destruct Ho as (Hcalls & Ho). split; [lia|exact Ho].
Qed.

(** X26.  [isRetryableError] on an error that carries a status of 400
    or more decides by the status alone, whatever the message says: 408,
    429 and everything from 500 on are retried, the other client errors
    are not.  [status] is read before [statusCode]. *)
Theorem status_decides_retry (message : string) (code : Z) (other : option Z) :
  (400 <= code)%Z ->
  let error :=
    Some {| BaseProvider.lowerCaseMessage := message;
            BaseProvider.status := Some code;
            BaseProvider.statusCode := other |} in
  BaseProvider.isRetryableError error = true
  <-> (code = 408 \/ code = 429 \/ 500 <= code)%Z.
Proof.
  intros Hcode error. subst error.
  unfold BaseProvider.isRetryableError, BaseProvider.codeOf.
  cbn [BaseProvider.status BaseProvider.statusCode BaseProvider.lowerCaseMessage].
  destruct (code =? 0)%Z eqn:E0; [apply Z.eqb_eq in E0; lia|]. rewrite E0.
  destruct (400 <=? code)%Z eqn:E4; [|apply Z.leb_gt in E4; lia].
  destruct (code <? 500)%Z eqn:E5; cbn [andb].
  - apply Z.ltb_lt in E5. rewrite orb_true_iff, !Z.eqb_eq. lia.
  - apply Z.ltb_ge in E5.
    destruct (500 <=? code)%Z eqn:E6; [|apply Z.leb_gt in E6; lia].
    split; auto.
Qed.

(** A 401 whose message speaks of a timeout is not retried. *)
Lemma status_decides_retry_witness :
  (400 <= 401)%Z
  /\ BaseProvider.isRetryableError
       (Some {| BaseProvider.lowerCaseMessage := "timeout";
                BaseProvider.status := Some 401%Z;
                BaseProvider.statusCode := Some 503%Z |}) <> true.
Proof.
  assert (Hcode : (400 <= 401)%Z) by lia.
  split; [exact Hcode|].
  intros H. apply (@status_decides_retry "timeout" 401%Z (Some 503%Z) Hcode) in H. lia.
Defined.

Section MultiSeriesFacts.
Import MultiSeries.
Context {num : Type} `{Number num}.
Variable config : OutlierDetector.Config num.
Open Scope nat_scope.

(** the number of series in which position [index] is flagged *)
Definition flaggedIn (seriesData : list (string * list num)) (index : nat) : nat :=
  length (filter (fun '(_, values) =>
                    existsb (Nat.eqb index)
                      (OutlierDetector.outlierIndices
                         (OutlierDetector.detectOutliers config values)))
                 seriesData).

(** the count [outlierCounts] holds for [index], 0 when it has none *)
Fixpoint countFor (index : nat) (outlierCounts : list (nat * nat)) : nat :=
  match outlierCounts with
  | [] => 0
  | (i, count) :: rest =>
      if i =? index then count + countFor index rest else countFor index rest
  end.

Lemma countFor_bump (index j : nat) (counts : list (nat * nat)) :
  countFor index (bump j counts)
  = (if j =? index then 1 else 0) + countFor index counts.
Proof.
  induction counts as [|[i c] rest IH]; simpl.
  - destruct (j =? index); lia.
  - destruct (j <? i) eqn:Elt; [simpl; destruct (j =? index); lia|].
    destruct (j =? i) eqn:Eeq; simpl.
    + apply Nat.eqb_eq in Eeq. subst i. destruct (j =? index); lia.
    + rewrite IH. destruct (i =? index); lia.
Qed.

Lemma bump_keys (j k : nat) (counts : list (nat * nat)) :
  In k (map fst (bump j counts)) <-> k = j \/ In k (map fst counts).
Proof.
  induction counts as [|[i c] rest IH]; simpl; [intuition|].
  destruct (j <? i); [simpl; intuition|].
  destruct (j =? i) eqn:Eeq; simpl.
  - apply Nat.eqb_eq in Eeq. subst i. intuition.
  - rewrite IH. intuition.
Qed.

(** the entries are in ascending order of their keys, and no count is 0 *)
Definition wellKept (counts : list (nat * nat)) : Prop :=
  StronglySorted lt (map fst counts) /\ Forall (fun entry => 1 <= snd entry) counts.

Lemma bump_wellKept (j : nat) (counts : list (nat * nat)) :
  wellKept counts -> wellKept (bump j counts).
Proof.
  unfold wellKept. induction counts as [|[i c] rest IH]; intros [Hs Hp]; simpl.
  - split; repeat constructor.
  - inversion Hs as [|? ? Hs' Hlt]; subst. inversion Hp as [|? ? Hc Hp']; subst.
    destruct (j <? i) eqn:Elt.
    + apply Nat.ltb_lt in Elt. split.
      * simpl. constructor; [exact Hs|]. constructor; [exact Elt|].
        rewrite Forall_forall in *. intros k Hk. specialize (Hlt k Hk). lia.
      * constructor; [simpl; lia|exact Hp].
    + apply Nat.ltb_ge in Elt. destruct (j =? i) eqn:Eeq.
      * split; [exact Hs|]. constructor; [simpl in *; lia|exact Hp'].
      * apply Nat.eqb_neq in Eeq. destruct (IH (conj Hs' Hp')) as [Hs2 Hp2]. split.
        -- simpl. constructor; [exact Hs2|].
           rewrite Forall_forall in *. intros k Hk. apply bump_keys in Hk.
           destruct Hk as [->|Hk]; [lia|now apply Hlt].
        -- constructor; [exact Hc|exact Hp2].
Qed.

Lemma countFor_absent (index : nat) (counts : list (nat * nat)) :
  ~ In index (map fst counts) -> countFor index counts = 0.
Proof.
  induction counts as [|[i c] rest IH]; simpl; intros Hn; [reflexivity|].
  destruct (i =? index) eqn:E; [apply Nat.eqb_eq in E; tauto|]. apply IH. tauto.
Qed.

Lemma wellKept_In (index count : nat) (counts : list (nat * nat)) :
  wellKept counts ->
  (In (index, count) counts <-> count = countFor index counts /\ 1 <= count).
Proof.
  unfold wellKept. induction counts as [|[i c] rest IH]; intros [Hs Hp]; simpl.
  - split; [contradiction|lia].
  - inversion Hs as [|? ? Hs' Hlt]; subst. inversion Hp as [|? ? Hc Hp']; subst.
    simpl in Hc. specialize (IH (conj Hs' Hp')).
    rewrite Forall_forall in Hlt.
    destruct (i =? index) eqn:E.
    + apply Nat.eqb_eq in E. subst i.
      assert (Hz : countFor index rest = 0).
      { apply countFor_absent. intros Hin. specialize (Hlt _ Hin). lia. }
      rewrite Hz, Nat.add_0_r. split.
      * intros [E|Hin]; [injection E as <-; lia|].
        apply (in_map fst) in Hin. simpl in Hin. specialize (Hlt _ Hin). lia.
      * intros [-> _]. now left.
    + apply Nat.eqb_neq in E. rewrite <- IH. split.
      * intros [E'|Hin]; [congruence|exact Hin].
      * intros Hin. now right.
Qed.

Lemma countFor_indices (index : nat) (indices : list nat) (counts : list (nat * nat)) :
  StronglySorted lt indices ->
  countFor index (fold_left (fun counts i => bump i counts) indices counts)
  = (if existsb (Nat.eqb index) indices then 1 else 0) + countFor index counts.
Proof.
  revert counts. induction indices as [|i rest IH]; intros counts Hs; simpl.
  - reflexivity.
  - inversion Hs as [|? ? Hs' Hlt]; subst. rewrite IH, countFor_bump by exact Hs'.
    destruct (index =? i) eqn:E; simpl.
    + apply Nat.eqb_eq in E. subst i. rewrite Nat.eqb_refl.
      replace (existsb (Nat.eqb index) rest) with false; [lia|].
      symmetry. apply not_true_is_false. intros Hex.
      apply existsb_exists in Hex. destruct Hex as (k & Hk & Ek).
      apply Nat.eqb_eq in Ek. subst k.
      rewrite Forall_forall in Hlt. specialize (Hlt _ Hk). lia.
    + rewrite Nat.eqb_sym, E. lia.
Qed.

Lemma indices_wellKept (indices : list nat) (counts : list (nat * nat)) :
  wellKept counts ->
  wellKept (fold_left (fun counts i => bump i counts) indices counts).
Proof.
  revert counts. induction indices as [|i rest IH]; intros counts Hw; simpl.
  - exact Hw.
  - apply IH, bump_wellKept, Hw.
Qed.

(** the first loop, from any state of its two objects *)
Lemma detectEach_from (seriesData : list (string * list num))
  (seriesOutliers : list (string * OutlierDetector.Result num))
  (outlierCounts : list (nat * nat)) :
  wellKept outlierCounts ->
  let r := fold_left (detectOne config) seriesData (seriesOutliers, outlierCounts) in
  fst r = (seriesOutliers
           ++ map (fun '(seriesName, values) =>
                     (seriesName, OutlierDetector.detectOutliers config values))
                  seriesData)%list
  /\ wellKept (snd r)
  /\ forall index,
       countFor index (snd r)
       = flaggedIn seriesData index + countFor index outlierCounts.
Proof.
  revert seriesOutliers outlierCounts.
  induction seriesData as [|[name values] rest IH];
    intros seriesOutliers outlierCounts Hw; cbn [fold_left].
  - cbn [fst snd map]. rewrite app_nil_r. repeat split; auto; apply Hw.
  - pose proof (detectOutliers_partition config values) as (_ & _ & _ & Hsorted & _).
    change (detectOne config (seriesOutliers, outlierCounts) (name, values))
      with ((seriesOutliers
             ++ [(name, OutlierDetector.detectOutliers config values)])%list,
            fold_left (fun counts index => bump index counts)
              (OutlierDetector.outlierIndices
                 (OutlierDetector.detectOutliers config values))
              outlierCounts).
    specialize (IH (seriesOutliers
                    ++ [(name, OutlierDetector.detectOutliers config values)])%list
                   (fold_left (fun counts index => bump index counts)
                      (OutlierDetector.outlierIndices
                         (OutlierDetector.detectOutliers config values))
                      outlierCounts)
                   (indices_wellKept _ Hw)).
    destruct IH as (Hf & Hk & Hc). split; [|split].
    + rewrite Hf, <- app_assoc. reflexivity.
    + exact Hk.
    + intros index. rewrite Hc, countFor_indices by exact Hsorted.
      unfold flaggedIn. cbn [filter].
      destruct (existsb (Nat.eqb index) _); simpl; lia.
Qed.

Lemma half_rounded_up (n count : nat) :
  Z.to_nat (Qceiling (inject_Z (Z.of_nat n) * 0.5)) <= count <-> n <= 2 * count.
Proof.
  pose proof (Qceiling_bounds (inject_Z (Z.of_nat n) * 0.5)) as [Hlo Hhi].
  rewrite Q2R_mult, Q2R_inject_Z in Hlo, Hhi.
  replace (Q2R 0.5) with (/ 2)%R in Hlo, Hhi by (unfold Q2R; simpl; lra).
  set (c := Qceiling (inject_Z (Z.of_nat n) * 0.5)) in *.
  assert (H1 : (Z.of_nat n <= 2 * c)%Z) by (apply le_IZR; rewrite mult_IZR; lra).
  assert (H2 : (2 * c < Z.of_nat n + 2)%Z)
    by (apply lt_IZR; rewrite plus_IZR, mult_IZR; lra).
  lia.
Qed.

Lemma filter_sorted (f : nat * nat -> bool) (counts : list (nat * nat)) :
  StronglySorted lt (map fst counts) -> StronglySorted lt (map fst (filter f counts)).
Proof.
  induction counts as [|e rest IH]; simpl; intros Hs; [constructor|].
  inversion Hs as [|? ? Hs' Hlt]; subst.
  destruct (f e); simpl; [|now apply IH].
  constructor; [now apply IH|].
  rewrite Forall_forall in *. intros k Hk. apply Hlt.
  apply in_map_iff in Hk. destruct Hk as (x & <- & Hx).
  apply filter_In in Hx. apply in_map. tauto.
Qed.

End MultiSeriesFacts.

(** X27.  [detectMultiSeriesOutliers], for any arithmetic: every series
    gets the result of [detectOutliers] on its values, in the order of
    the entries; a position is a consistent outlier exactly when it is
    flagged in at least one series and in at least half of them; the
    consistent outliers come in ascending order; and the series with
    outliers are at most all series. *)
Theorem consistent_outliers_are_flagged_by_half (num : Type) `{Number num}
  (config : OutlierDetector.Config num) (seriesData : list (string * list num)) :
  let r := MultiSeries.detectMultiSeriesOutliers config seriesData in
  MultiSeries.seriesOutliers r
  = map (fun '(seriesName, values) =>
           (seriesName, OutlierDetector.detectOutliers config values))
        seriesData
  /\ (forall index,
        In index (MultiSeries.consistentOutliers r)
        <-> 1 <= flaggedIn config seriesData index
            /\ length seriesData <= 2 * flaggedIn config seriesData index)
  /\ StronglySorted lt (MultiSeries.consistentOutliers r)
  /\ MultiSeries.seriesWithOutliers (MultiSeries.summary r)
     <= MultiSeries.totalSeries (MultiSeries.summary r)
  /\ MultiSeries.totalSeries (MultiSeries.summary r) = length seriesData.
Proof.
  intros r. subst r.
  unfold MultiSeries.detectMultiSeriesOutliers, MultiSeries.detectEach.
  assert (Hw0 : wellKept []) by (split; constructor).
  pose proof (detectEach_from config seriesData [] Hw0) as (Hf & Hk & Hc).
  destruct (fold_left (MultiSeries.detectOne config) seriesData ([], [])) as [so oc].
  cbn [fst snd] in Hf, Hk, Hc. simpl app in Hf.
  cbn [MultiSeries.seriesOutliers MultiSeries.consistentOutliers MultiSeries.summary
       MultiSeries.seriesWithOutliers MultiSeries.totalSeries].
  split; [exact Hf|]. split; [|split; [|split]].
  - intros index. rewrite in_map_iff. split.
    + intros ([i c] & E & Hin). simpl in E. subst i.
      apply filter_In in Hin. destruct Hin as [Hin Ht].
      apply Nat.leb_le, half_rounded_up in Ht.
      apply (wellKept_In _ _ Hk) in Hin. destruct Hin as [-> H1].
      rewrite Hc in *. simpl in *. lia.
    + intros [H1 Hn]. exists (index, countFor index oc). split; [reflexivity|].
      apply filter_In. split.
      * apply (wellKept_In _ _ Hk). rewrite Hc. simpl. split; [reflexivity|lia].
      * apply Nat.leb_le, half_rounded_up. rewrite Hc. simpl. lia.
  - apply filter_sorted, Hk.
  - rewrite Hf.
    match goal with |- length (filter ?f ?l) <= _ =>
      pose proof (filter_length_le f l) as Hle end.
    rewrite !length_map in Hle. exact Hle.
  - reflexivity.
Qed.

Section AdaptiveFacts.
Import AdaptiveDetection.
Open Scope R_scope.

Lemma adapted_multiplier_bounds (config : OutlierDetector.Config R)
  (distribution : Distribution) :
  1 <= calculateAdaptedMultiplier config distribution <= 3
  /\ (0 <= OutlierDetector.multiplier config <= 3 ->
      OutlierDetector.multiplier config
      <= calculateAdaptedMultiplier config distribution).
Proof.
  unfold calculateAdaptedMultiplier. cbv zeta.
  set (m := OutlierDetector.multiplier config).
  destruct (exceeds (skewness distribution) 1.0),
           (exceeds (kurtosis distribution) 2.0),
           (negb (isNormal distribution));
    unfold Rmax, Rmin;
    destruct (Rle_dec 3.0 _); destruct (Rle_dec 1.0 _);
    split; try lra; intros [H0 H3]; lra.
Qed.

End AdaptiveFacts.

(** X28.  [adaptiveOutlierDetection] with a configured multiplier
    between 0 and 3: the adapted multiplier is at least the configured
    one and at most 3, every position and every value of the adapted
    result's outliers is among those of the base result, and the
    detector's configuration afterwards is what it was before. *)
Theorem adaptive_detection_flags_no_more (config : OutlierDetector.Config R)
  (values : list R) :
  (0 <= OutlierDetector.multiplier config <= 3)%R ->
  let r := AdaptiveDetection.adaptiveOutlierDetection config values in
  let a := fst r in
  snd r = config
  /\ (OutlierDetector.multiplier config <= AdaptiveDetection.adaptedMultiplier a <= 3)%R
  /\ incl (OutlierDetector.outlierIndices (AdaptiveDetection.adaptedResult a))
          (OutlierDetector.outlierIndices (AdaptiveDetection.baseResult a))
  /\ incl (OutlierDetector.outliers (AdaptiveDetection.adaptedResult a))
          (OutlierDetector.outliers (AdaptiveDetection.baseResult a)).
Proof.
  intros Hm r a. subst a r. unfold AdaptiveDetection.adaptiveOutlierDetection.
  destruct (length values <? OutlierDetector.min_samples config).
  { cbn [fst snd AdaptiveDetection.adaptedMultiplier AdaptiveDetection.adaptedResult
         AdaptiveDetection.baseResult].
    repeat split; try lra; apply incl_refl. }
  cbn [fst snd AdaptiveDetection.adaptedMultiplier AdaptiveDetection.adaptedResult
       AdaptiveDetection.baseResult].
  destruct (adapted_multiplier_bounds config
              (AdaptiveDetection.analyzeDistribution values)) as [[_ H3] Hge].
  specialize (Hge Hm).
  split; [destruct config; reflexivity|]. split; [lra|].
  apply (@lenient_detector_flags_no_more config
           (AdaptiveDetection.calculateAdaptedMultiplier config
              (AdaptiveDetection.analyzeDistribution values)) values).
  lra.
Qed.

(** The multiplier 1.5 on the five values 1, 2, 3, 4 and 100. *)
Lemma adaptive_detection_flags_no_more_witness :
  (0 <= OutlierDetector.multiplier RealSample.detection <= 3)%R
  /\ snd (AdaptiveDetection.adaptiveOutlierDetection RealSample.detection
            [1; 2; 3; 4; 100]%R)
     = RealSample.detection.
Proof.
  assert (Hm : (0 <= OutlierDetector.multiplier RealSample.detection <= 3)%R)
    by (simpl; lra).
  split; [exact Hm|].
  exact (proj1 (@adaptive_detection_flags_no_more RealSample.detection
                  [1; 2; 3; 4; 100]%R Hm)).
Defined.

Section ValidatorFacts.
Import EvaluationValidator.
Open Scope nat_scope.

Lemma sameConsistency_eq (a b : ConsistencyValidator.Recommendation) :
  sameConsistency a b = true <-> a = b.
Proof.
  destruct a as [| |k|k s| | |], b as [| |k'|k' s'| | |]; simpl;
    split; intros E; try discriminate; try reflexivity.
  - apply String.eqb_eq in E. now subst.
  - injection E as <-. apply String.eqb_refl.
  - apply andb_true_iff in E. destruct E as [Ek Es].
    apply String.eqb_eq in Ek. unfold RealNumber.eqb in Es.
    destruct (Req_dec_T s s'); [now subst|discriminate].
  - injection E as <- <-. rewrite String.eqb_refl. unfold RealNumber.eqb.
    destruct (Req_dec_T s s); [reflexivity|congruence].
Qed.

Lemma sameConfidence_eq (a b : ConfidenceCalculator.Recommendation) :
  sameConfidence a b = true <-> a = b.
Proof. destruct a, b; simpl; split; intros E; try discriminate; reflexivity. Qed.

Lemma sameAdvice_eq (a b : Advice) : sameAdvice a b = true <-> a = b.
Proof.
  destruct a as [| | | |x|x], b as [| | | |y|y]; simpl;
    split; intros E; try discriminate; try reflexivity.
  - apply sameConsistency_eq in E. now subst.
  - injection E as <-. now apply sameConsistency_eq.
  - apply sameConfidence_eq in E. now subst.
  - injection E as <-. now apply sameConfidence_eq.
Qed.

Lemma seen_In (x : Advice) (seen : list Advice) :
  existsb (sameAdvice x) seen = true <-> In x seen.
Proof.
  rewrite existsb_exists. split.
  - intros (y & Hy & E). apply sameAdvice_eq in E. now subst.
  - intros Hx. exists x. split; [exact Hx|]. now apply sameAdvice_eq.
Qed.

Lemma unique_In (all seen : list Advice) (x : Advice) :
  In x (unique sameAdvice seen all) <-> In x all /\ ~ In x seen.
Proof.
  revert seen. induction all as [|y rest IH]; intros seen; simpl; [tauto|].
  destruct (existsb (sameAdvice y) seen) eqn:E.
  - apply seen_In in E. rewrite IH. split.
    + intros [Hx Hn]. tauto.
    + intros [[->|Hx] Hn]; tauto.
  - assert (Hy : ~ In y seen) by (rewrite <- seen_In, E; discriminate).
    simpl. rewrite IH. simpl. split.
    + intros [->|[Hx Hn]]; tauto.
    + intros [[->|Hx] Hn]; [now left|].
      destruct (sameAdvice y x) eqn:Eyx.
      * apply sameAdvice_eq in Eyx. now left.
      * right. split; [exact Hx|]. intros [->|H]; [|tauto].
        assert (sameAdvice x x = true) by now apply sameAdvice_eq. congruence.
Qed.

Lemma unique_NoDup (all seen : list Advice) : NoDup (unique sameAdvice seen all).
Proof.
  revert seen. induction all as [|y rest IH]; intros seen; simpl; [constructor|].
  destruct (existsb (sameAdvice y) seen); [apply IH|].
  constructor; [|apply IH]. rewrite unique_In. simpl. tauto.
Qed.

Lemma unique_keeps (all seen : list Advice) :
  NoDup all -> (forall x, In x all -> ~ In x seen) ->
  unique sameAdvice seen all = all.
Proof.
  revert seen. induction all as [|y rest IH]; intros seen Hnd Hdis; simpl;
    [reflexivity|].
  inversion Hnd as [|? ? Hy Hnd']; subst.
  destruct (existsb (sameAdvice y) seen) eqn:E.
  - apply seen_In in E. exfalso. apply (Hdis y); [now left|exact E].
  - f_equal. apply IH; [exact Hnd'|].
    intros x Hx [->|Hs]; [contradiction|]. apply (Hdis x); [now right|exact Hs].
Qed.

(** the smallest number of successes [performBasicValidation] accepts *)
Definition minProviders (required_fields : list string) : nat :=
  Nat.max 1 (length required_fields).





End ValidatorFacts.

(** X29.  [consolidateRecommendations] returns every sentence of the
    sets it is given, each once, and returns the sentences as they come
    when none is repeated. *)
Theorem consolidated_recommendations_are_unique
  (recommendationSets : list (list EvaluationValidator.Advice)) :
  let all := concat recommendationSets in
  let consolidated :=
    EvaluationValidator.consolidateRecommendations recommendationSets in
  NoDup consolidated
  /\ (forall sentence, In sentence consolidated <-> In sentence all)
  /\ (NoDup all -> consolidated = all).
Proof.
  intros all consolidated. subst consolidated all.
  unfold EvaluationValidator.consolidateRecommendations.
  split; [apply unique_NoDup|]. split.
  - intros sentence. rewrite unique_In. simpl. tauto.
  - intros Hnd. apply unique_keeps; [exact Hnd|]. intros x _ [].
Qed.


Section ValidVerdict.
Import EvaluationValidator.
Open Scope R_scope.

Lemma toFixed_3_three_fifths : toFixed 3 0.6 = 0.6.
Proof.
  unfold toFixed. destruct (Rlt_dec 0.6 0); [lra|].
  replace (0.6 * 10 ^ 3) with (IZR 600) by (simpl; lra).
  rewrite round_half_up_IZR. simpl. lra.
Qed.

(** an answer with the four required scores, all between 1 and 5, is
    valid *)
Lemma validateProviderScores_valid (result : ProviderResult R) :
  (forall field, In field requiredFields -> lookup field (scores result) <> None) ->
  (forall key value, In (key, value) (scores result) -> 1 <= value <= 5) ->
  p_isValid (validateProviderScores result) = true.
Proof.
  intros Hreq Hrange. unfold validateProviderScores.
  assert (Hfirst :
    fold_left (fun '(issues, score) field =>
                 match lookup field (scores result) with
                 | None => ((issues ++ [Missing field])%list, score * 0.8)
                 | Some _ => (issues, score)
                 end)
              requiredFields (@nil Issue, 1.0)
    = ([], 1.0)).
  { unfold requiredFields. cbn [fold_left].
    repeat match goal with
    | |- context [lookup ?f (scores result)] =>
        let E := fresh "E" in
        destruct (lookup f (scores result)) eqn:E;
          [|exfalso; apply (Hreq f); [simpl; tauto|exact E]]
    end.
    reflexivity. }
  rewrite Hfirst.
  assert (Hsecond : forall entries score,
    (forall key value, In (key, value) entries -> 1 <= value <= 5) ->
    fst (fold_left (fun '(issues, score) '(key, value) =>
                      if RealNumber.ltb value 1.0 || RealNumber.ltb 5.0 value
                      then ((issues ++ [OutOfRange key value])%list, score * 0.7)
                      else (issues, score))
                   entries (@nil Issue, score))
    = []).
  { induction entries as [|[key value] rest IH]; intros score Hall; [reflexivity|].
    assert (Hv : 1 <= value <= 5) by (apply (Hall key); now left).
    assert (Ec : RealNumber.ltb value 1.0 || RealNumber.ltb 5.0 value = false).
    { unfold RealNumber.ltb.
      destruct (Rlt_dec value 1.0); [lra|]. destruct (Rlt_dec 5.0 value); [lra|].
      reflexivity. }
    cbn [fold_left]. cbv beta iota. rewrite Ec.
    apply IH. intros k v Hk. apply (Hall k). now right. }
  specialize (Hsecond (scores result) 1.0 Hrange).
  destruct (fold_left _ (scores result) ([], 1.0)) as [issues score].
  cbn [fst] in Hsecond. subst issues. reflexivity.
Qed.

Lemma weights_all_one (analysis : list (string * ConsistencyValidator.ScoreAnalysis))
  (start : R * R) :
  (forall key a, In (key, a) analysis -> ConsistencyValidator.sa_consistency a = 1) ->
  fst start = snd start -> 0 <= snd start ->
  let sums :=
    fold_left (fun '(weightedSum, totalWeight) '(key, a) =>
                 let weight := if String.eqb key "total_score" then 0.4 else 0.2 in
                 (weightedSum + ConsistencyValidator.sa_consistency a * weight,
                  totalWeight + weight))
              analysis start in
  fst sums = snd sums /\ snd start <= snd sums
  /\ (analysis <> [] -> 0 < snd sums).
Proof.
  revert start. induction analysis as [|[key a] rest IH];
    intros [ws tw] Hall Heq Hpos; cbn [fold_left fst snd] in *.
  - repeat split; try lra. congruence.
  - rewrite (Hall key a) by now left.
    set (weight := if String.eqb key "total_score" then 0.4 else 0.2).
    assert (Hw : 0 < weight) by (subst weight; destruct (String.eqb _ _); lra).
    destruct (IH (ws + 1 * weight, tw + weight)) as (H1 & H2 & _).
    + intros k b Hb. apply (Hall k). now right.
    + cbn [fst snd]. lra.
    + cbn [fst snd]. lra.
    + cbn [fst snd] in *. repeat split; try assumption; lra.
Qed.

Lemma overall_all_one (analysis : list (string * ConsistencyValidator.ScoreAnalysis)) :
  analysis <> [] ->
  (forall key a, In (key, a) analysis -> ConsistencyValidator.sa_consistency a = 1) ->
  ConsistencyValidator.calculateOverallConsistency analysis = 1.
Proof.
  intros Hne Hall. unfold ConsistencyValidator.calculateOverallConsistency.
  destruct (length analysis =? 0)%nat eqn:E.
  { apply Nat.eqb_eq in E. destruct analysis; [congruence|discriminate]. }
  pose proof (@weights_all_one analysis (0, 0) Hall) as H. cbn [fst snd] in H.
  destruct (fold_left _ analysis (0, 0)) as [ws tw]. cbn [fst snd] in H.
  destruct H as (Heq & _ & Hpos); [reflexivity|lra|].
  specialize (Hpos Hne). subst ws.
  destruct (Rlt_dec 0 tw); [field; lra|lra].
Qed.

Lemma lookup_entry (key : string) (o : Scores R) (v : R) :
  lookup key o = Some v -> In (key, v) o.
Proof.
  induction o as [|[k w] o IH]; simpl; [discriminate|].
  destruct (String.eqb key k) eqn:E; [|auto].
  apply String.eqb_eq in E. intros H. injection H as <-. subst. now left.
Qed.

Lemma score_consistency_one (values : list R) (v : R) (key : string) :
  values <> [] -> (forall x, In x values -> x = v) ->
  ConsistencyValidator.sa_consistency
    (ConsistencyValidator.calculateScoreConsistency values key) = 1.
Proof.
  intros Hne Hall. unfold ConsistencyValidator.calculateScoreConsistency.
  cbn [ConsistencyValidator.sa_consistency].
  destruct (standardDeviationOf_constant Hne Hall) as [_ ->].
  replace (Rmax 0 (1 - 0 / 2.5)) with 1 by (rewrite Rmax_right; lra).
  apply (toFixed_IZR 3 1).
Qed.

End ValidVerdict.

(** Two providers that agree on every score, 4, with the weights 0.5,
    0.3 and 0.2 and no required field configured: the verdict is valid. *)
Example agreeing_providers_are_valid :
  EvaluationValidator.isValid
    (EvaluationValidator.validateEvaluationResults RealSample.thresholds []
       two_complete false) = true.
Proof.
  unfold EvaluationValidator.validateEvaluationResults.
  replace (EvaluationValidator.b_isValid
             (EvaluationValidator.performBasicValidation [] two_complete))
    with true by reflexivity.
  cbn [negb EvaluationValidator.isValid].
  unfold EvaluationValidator.determineOverallValidity.
  assert (Hscores : EvaluationValidator.s_isValid
                      (EvaluationValidator.validateScores two_complete) = true).
  { unfold EvaluationValidator.validateScores.
    replace (length (filter (@success R) two_complete) =? 0) with false by reflexivity.
    cbn [EvaluationValidator.s_isValid].
    replace (filter (@success R) two_complete) with two_complete by reflexivity.
    unfold two_complete. cbn [flat_map].
    rewrite !validateProviderScores_valid; [reflexivity| | | |].
    all: cbn [scores RealSample.result].
    all: try (intros field Hf; unfold EvaluationValidator.requiredFields in Hf;
              destruct Hf as [<-|[<-|[<-|[<-|[]]]]]; discriminate).
    all: intros key value Hin;
      destruct Hin as [E|[E|[E|[E|[]]]]]; injection E as _ <-; lra. }
  assert (Hcons : ConsistencyValidator.consistency
                    (ConsistencyValidator.validateConsistency
                       (th_consistency RealSample.thresholds) two_complete) = 1%R).
  { unfold ConsistencyValidator.validateConsistency.
    replace (length two_complete <? 2) with false by reflexivity.
    replace (length (filter (@success R) two_complete) <? 2) with false
      by reflexivity.
    cbn [ConsistencyValidator.consistency].
    replace (filter (@success R) two_complete) with two_complete by reflexivity.
    apply overall_all_one.
    - assert (Hl : lookup "total_score"
                     (ConsistencyValidator.analyzeScorewiseConsistency two_complete)
                   <> None)
        by (rewrite analysis_lookup; [discriminate|simpl; lia]).
      intros Hnil. rewrite Hnil in Hl. now apply Hl.
    - intros key a Hin. unfold ConsistencyValidator.analyzeScorewiseConsistency in Hin.
      apply in_flat_map in Hin. destruct Hin as (k & _ & Hin).
      destruct (2 <=? length (ConsistencyValidator.extractScoreValues two_complete k))
        eqn:El; [|contradiction].
      destruct Hin as [E|[]]. injection E as _ <-.
      apply (@score_consistency_one _ 4%R).
      + apply Nat.leb_le in El. intros Hnil. rewrite Hnil in El. simpl in El. lia.
      + intros x Hx. apply extractScoreValues_In in Hx.
        destruct Hx as (r & Hr & _ & Hl).
        apply lookup_entry in Hl.
        destruct Hr as [<-|[<-|[]]]; cbn [scores RealSample.result] in Hl;
          destruct Hl as [E|[E|[E|[E|[]]]]]; injection E as _ <-; reflexivity. }
  rewrite Hscores.
  assert (Hcons' : ConsistencyValidator.isConsistent
                     (ConsistencyValidator.validateConsistency
                        (th_consistency RealSample.thresholds) two_complete) = true).
  { revert Hcons. unfold ConsistencyValidator.validateConsistency.
    replace (length two_complete <? 2) with false by reflexivity.
    replace (length (filter (@success R) two_complete) <? 2) with false
      by reflexivity.
    cbn [ConsistencyValidator.consistency ConsistencyValidator.isConsistent].
    intros ->. unfold RealNumber.leb. simpl.
    destruct (Rle_dec 0.6 1); [reflexivity|lra]. }
  rewrite Hcons'. cbn [andb].
  assert (Hout : EvaluationValidator.detectOutliers RealSample.thresholds two_complete
                 = {| EvaluationValidator.outliers := [];
                      EvaluationValidator.hasOutliers := false;
                      EvaluationValidator.detected := None |}) by reflexivity.
  rewrite Hout. cbn [EvaluationValidator.hasOutliers EvaluationValidator.outliers
                     negb orb andb length].
  rewrite andb_true_r.
  unfold RealNumber.leb.
  destruct (Rle_dec 0.6 _) as [|Hlow]; [reflexivity|]. exfalso. apply Hlow.
  rewrite Hcons. unfold ConfidenceCalculator.calculateConfidence.
  cbn [ConfidenceCalculator.confidence].
  rewrite <- toFixed_3_three_fifths at 1. apply toFixed_le.
  unfold ConfidenceCalculator.finalConfidence.
  cbn [th_confidence RealSample.thresholds RealSample.confidence factors
       consistency_weight outlier_weight sample_size_weight].
  replace (INR 0) with 0%R by reflexivity.
  replace (INR (length two_complete)) with 2%R by (simpl; lra).
  destruct (Rlt_dec 0 2) as [_|]; [|lra].
  pose proof (@sampleSize_below 2%R) as Hs.
  assert (Hadd : (0 <= ConfidenceCalculator.calculateAdditionalFactors
                         (Some (EvaluationValidator.extractAdditionalFactors
                                  two_complete)))%R).
  { unfold EvaluationValidator.extractAdditionalFactors.
    replace (length (filter (@success R) two_complete) =? 0) with false by reflexivity.
    unfold ConfidenceCalculator.calculateAdditionalFactors.
    cbn [ConfidenceCalculator.responseTime ConfidenceCalculator.tokenUsage
         ConfidenceCalculator.errorRate ConfidenceCalculator.historicalPerformance
         option_map ConfidenceCalculator.addFactor fst snd Nat.ltb Nat.leb].
    pose proof (scoreResponseTime_unit
                  (fold_left (fun sum r => sum + responseTime r)
                     (filter (@success R) two_complete) 0
                   / INR (length (filter (@success R) two_complete)))%R).
    pose proof (scoreTokenUsage_unit
                  (fold_left (fun sum r => sum + tokens r)
                     (filter (@success R) two_complete) 0
                   / INR (length (filter (@success R) two_complete)))%R).
    match goal with |- (0 <= (0 + ?a + ?b + Rmax 0 ?c) / _ * 0.1)%R =>
      pose proof (Rmax_l 0 c) end.
    replace (INR 3) with 3%R by (simpl; lra). lra. }
  specialize (Hs ltac:(lra)).
  rewrite (Rmin_left 1 1) by lra.
  rewrite (Rmax_right 0 (1 - 0 / 2)) by lra.
  apply Rmin_glb; [lra|]. eapply Rle_trans; [|apply Rmax_r]. lra.
Qed.
